(** * chunker.py: split a file into chunks and rebuild it

    A shallow embedding of [src/chunker.py] ([get_file_hash], [split_file],
    [join_files]) over a small model of the Python built-ins and of the file
    system the script talks to, followed by the properties of the split/join
    protocol.

    Modelling conventions.
    - A path is the literal string the script passes to the operating system:
      two paths name the same file exactly when they are the same string
      (no [.]/[..] segments, doubled separators, symbolic links or hard
      links are resolved).  A file system records what exists under the
      spelling the script uses; no name of it holds a NUL character.
    - The file system and the memory have no limit of their own: no bound on
      the length of a name, no permissions, no full disk.  The limits of the
      built-ins are modelled: the byte count [f.read] takes, and the names
      [open] cannot create (the empty one, one that ends in a separator).
    - [int] is the built-in on ASCII text, without the limit on the number
      of digits that an interpreter can be configured with.
    - File contents are byte lists.  Text is kept on its bytes (one [ascii]
      per byte), so the text-mode codec is the identity on ASCII and the
      POSIX line separator is written unchanged.
    - [print] calls are not modelled one by one: the value a function returns
      in the model names the branch it took and carries the values that
      branch prints.
    - Every call of [open] is recorded in a log, in order. *)

From Stdlib Require Import ZArith NArith Ascii DecimalString DecimalN.
From Stdlib Require String Strings.Byte.
From stdpp Require Import gmap strings list fin_maps.

Local Open Scope Z_scope.

(** ** Python strings *)

Module Py.

(** [str.isspace] on one ASCII character: the characters [str.strip()]
    removes (TAB, LF, VT, FF, CR, FS, GS, RS, US and the space). *)
Definition isspace (c : ascii) : bool :=
  match c with
  | "009" | "010" | "011" | "012" | "013"
  | "028" | "029" | "030" | "031" | " " => true
  | _ => false
  end%char.

Definition is_empty (s : string) : bool :=
  match s with "" => true | _ => false end.

(** [s.lstrip()] *)
Fixpoint lstrip (s : string) : string :=
  match s with
  | "" => ""
  | String c r => if isspace c then lstrip r else s
  end.

(** [s.rstrip()] *)
Fixpoint rstrip (s : string) : string :=
  match s with
  | "" => ""
  | String c r =>
      let r' := rstrip r in
      if is_empty r' && isspace c then "" else String c r'
  end.

(** [s.strip()] *)
Definition strip (s : string) : string := rstrip (lstrip s).

(** [s.split(sep, 1)] unpacked into two names: [Some (before, after)] at the
    first occurrence of [sep]; [None] stands for the one-element list, whose
    unpacking raises [ValueError]. *)
Fixpoint split1 (sep : ascii) (s : string) : option (string * string) :=
  match s with
  | "" => None
  | String c r =>
      if Ascii.eqb c sep then Some ("", r)
      else match split1 sep r with
           | Some (k, v) => Some (String c k, v)
           | None => None
           end
  end.

(** [s.endswith(suffix)] *)
Fixpoint endswith (s suffix : string) : bool :=
  if String.eqb s suffix then true
  else match s with
       | "" => false
       | String _ r => endswith r suffix
       end.

(** Universal-newline translation of text mode: ["\r\n"] and a lone ["\r"]
    are read as ["\n"]. *)
Fixpoint universal_newlines (s : string) : string :=
  match s with
  | "" => ""
  | String c r =>
      if Ascii.eqb c "013" then
        String "010" (match r with
                      | String "010"%char r' => universal_newlines r'
                      | _ => universal_newlines r
                      end)
      else String c (universal_newlines r)
  end.

(** The lines a text file yields when iterated, without their terminators
    (the script strips every line before use).  A final line needs no
    terminator; nothing follows a final terminator. *)
Fixpoint lines (s : string) : list string :=
  match s with
  | "" => []
  | String c r =>
      if Ascii.eqb c "010" then "" :: lines r
      else match lines r with
           | [] => [String c ""]
           | l :: ls => String c l :: ls
           end
  end.

(** *** Integers and text *)

Definition digit_val (c : ascii) : option N :=
  let n := N_of_ascii c in
  if (48 <=? n)%N && (n <=? 57)%N then Some (n - 48)%N else None.

(** The digits of an [int] literal: decimal digits, with single underscores
    allowed between two digits.  [prev] tells whether the previous character
    was a digit. *)
Fixpoint parse_digits (acc : N) (prev : bool) (s : string) : option N :=
  match s with
  | "" => if prev then Some acc else None
  | String c r =>
      match digit_val c with
      | Some d => parse_digits (acc * 10 + d)%N true r
      | None =>
          if Ascii.eqb c "_" && prev then parse_digits acc false r else None
      end
  end.

(** The white space [int()] skips around a literal (C's [isspace]): TAB, LF,
    VT, FF, CR and the space.  FS, GS, RS and US, which [str.strip()]
    removes, are not among them: [int("\x1c1")] raises [ValueError]. *)
Definition isspace_c (c : ascii) : bool :=
  match c with
  | "009" | "010" | "011" | "012" | "013" | " " => true
  | _ => false
  end%char.

Fixpoint lstrip_c (s : string) : string :=
  match s with
  | "" => ""
  | String c r => if isspace_c c then lstrip_c r else s
  end.

Fixpoint rstrip_c (s : string) : string :=
  match s with
  | "" => ""
  | String c r =>
      let r' := rstrip_c r in
      if is_empty r' && isspace_c c then "" else String c r'
  end.

(** [int(s)] in base ten, for ASCII text and with no limit on the number of
    digits: the white space [int()] skips, an optional sign, digits.  [None]
    stands for [ValueError]. *)
Definition int (s : string) : option Z :=
  match rstrip_c (lstrip_c s) with
  | String "-" r => (λ n, - Z.of_N n) <$> parse_digits 0 false r
  | String "+" r => Z.of_N <$> parse_digits 0 false r
  | r => Z.of_N <$> parse_digits 0 false r
  end.

(** [str(n)] for a non-negative [n]. *)
Definition str_N (n : N) : string := NilEmpty.string_of_uint (N.to_uint n).

(** [str(z)] *)
Definition str (z : Z) : string :=
  if z <? 0 then String "-" (str_N (Z.to_N (- z))) else str_N (Z.to_N z).

(** [s.zfill(width)] for a string of digits *)
Definition zfill (width : nat) (s : string) : string :=
  Nat.iter (width - String.length s) (String "0") s.

(** The format [f"{i:03d}"] for [i >= 0] *)
Definition fmt03d (i : nat) : string := zfill 3 (str_N (N.of_nat i)).

(** [all(p(c) for c in s)] *)
Fixpoint all_chars (p : ascii → bool) (s : string) : bool :=
  match s with
  | "" => true
  | String c r => p c && all_chars p r
  end.

(** [s.count(c)] for a single character *)
Fixpoint count (c : ascii) (s : string) : nat :=
  match s with
  | "" => O
  | String d r => (if Ascii.eqb d c then 1 else 0)%nat + count c r
  end.

(** [s[-1]] when [s] is not empty *)
Fixpoint last (s : string) : option ascii :=
  match s with
  | "" => None
  | String c r => match last r with Some d => Some d | None => Some c end
  end.

Definition is_digit (c : ascii) : bool :=
  match digit_val c with Some _ => true | None => false end.

Definition is_linebreak (c : ascii) : bool :=
  Ascii.eqb c "010" || Ascii.eqb c "013".

(** No line feed and no carriage return in [s]. *)
Definition one_line (s : string) : bool :=
  all_chars (λ c, negb (is_linebreak c)) s.

End Py.

(** [binascii.hexlify]: two lower-case hexadecimal digits per byte, as
    [hexdigest] prints a digest. *)
Definition hex_digit (n : N) : ascii :=
  match n with
  | 0 => "0" | 1 => "1" | 2 => "2" | 3 => "3" | 4 => "4" | 5 => "5"
  | 6 => "6" | 7 => "7" | 8 => "8" | 9 => "9" | 10 => "a" | 11 => "b"
  | 12 => "c" | 13 => "d" | 14 => "e" | _ => "f"
  end%N%char.

Definition is_hex_digit (c : ascii) : bool :=
  match c with
  | "0" | "1" | "2" | "3" | "4" | "5" | "6" | "7" | "8" | "9"
  | "a" | "b" | "c" | "d" | "e" | "f" => true
  | _ => false
  end%char.

Fixpoint hexlify (bs : list Byte.byte) : string :=
  match bs with
  | [] => ""
  | b :: r =>
      let n := Byte.to_N b in
      String (hex_digit (n / 16)) (String (hex_digit (n mod 16)) (hexlify r))
  end.

(** ** Paths ([os.path] on POSIX) *)

Module Path.

Fixpoint has_sep (s : string) : bool :=
  match s with
  | "" => false
  | String c r => Ascii.eqb c "/" || has_sep r
  end.

(** [os.path.basename(p)]: what follows the last separator. *)
Fixpoint basename (p : string) : string :=
  match p with
  | "" => ""
  | String c r =>
      if has_sep r then basename r
      else if Ascii.eqb c "/" then r else p
  end.

(** [p[:p.rfind('/') + 1]], the head [os.path.dirname] starts from. *)
Fixpoint head (p : string) : string :=
  match p with
  | "" => ""
  | String c r =>
      if has_sep r then String c (head r)
      else if Ascii.eqb c "/" then "/" else ""
  end.

Fixpoint all_sep (s : string) : bool :=
  match s with
  | "" => true
  | String c r => Ascii.eqb c "/" && all_sep r
  end.

(** [s.rstrip('/')] *)
Fixpoint rstrip_sep (s : string) : string :=
  match s with
  | "" => ""
  | String c r =>
      let r' := rstrip_sep r in
      if Py.is_empty r' && Ascii.eqb c "/" then "" else String c r'
  end.

(** [os.path.dirname(p)] *)
Definition dirname (p : string) : string :=
  let h := head p in
  if all_sep h then h else rstrip_sep h.

(** What [os.path.join(a, _)] puts in front of a relative second component. *)
Definition dir_prefix (a : string) : string :=
  if Py.is_empty a || Py.endswith a "/" then a else a +:+ "/".

(** [os.path.join(a, b)]: an absolute [b] discards [a]. *)
Definition join (a b : string) : string :=
  match b with
  | String "/" _ => b
  | _ => dir_prefix a +:+ b
  end.

(** [strip_prefix pre s = Some r] exactly when [s = pre +:+ r]. *)
Fixpoint strip_prefix (pre s : string) : option string :=
  match pre with
  | "" => Some s
  | String c pre' =>
      match s with
      | String d s' => if Ascii.eqb c d then strip_prefix pre' s' else None
      | "" => None
      end
  end.

(** The name under which path [p] is listed in directory [folder], if it is
    one of its entries. *)
Definition entry_name (folder p : string) : option string :=
  match strip_prefix (dir_prefix folder) p with
  | Some n => if Py.is_empty n || has_sep n then None else Some n
  | None => None
  end.

End Path.

(** ** Files, exceptions and the [io] monad *)

Inductive node :=
  | File (data : list Byte.byte)
  | Dir.

(** The mode string given to [open]. *)
Inductive mode := Rb | Wb | Rt | Wt.

(** The file system and the log of the [open] calls made so far. *)
Record world := World {
  nodes : gmap string node;
  opens : list (string * mode)
}.

Inductive exn :=
  | FileNotFoundError
  | IsADirectoryError
  | FileExistsError
  | NotADirectoryError
  | ValueError
  | OverflowError
  | KeyError (key : string).

Inductive result (A : Type) :=
  | Ok (a : A)
  | Raise (e : exn).
Arguments Ok {A} a.
Arguments Raise {A} e.

Definition io (A : Type) : Type := world → result A * world.

Definition ret {A} (a : A) : io A := λ w, (Ok a, w).

Definition bind {A B} (m : io A) (k : A → io B) : io B :=
  λ w, match m w with
       | (Ok a, w') => k a w'
       | (Raise e, w') => (Raise e, w')
       end.

Definition lift {A} (r : result A) : io A := λ w, (r, w).

Definition rbind {A B} (r : result A) (k : A → result B) : result B :=
  match r with
  | Ok a => k a
  | Raise e => Raise e
  end.

Declare Scope io_scope.
Delimit Scope io_scope with io.
Notation "'do' x <- m ; k" := (bind m (λ x, k))
  (at level 10, x name, m at level 100, k at level 200) : io_scope.
Notation "m ;; k" := (bind m (λ _, k))
  (at level 100, k at level 200, right associativity) : io_scope.
Notation "'try' x <- r ; k" := (rbind r (λ x, k))
  (at level 10, x name, r at level 100, k at level 200) : io_scope.
Local Open Scope io_scope.

(** What the script takes from its platform: the SHA-256 function of
    [hashlib], the size [stat] reports for a directory, and the order in
    which [os.listdir] returns the entries of a directory (arbitrary, but a
    rearrangement of the entries). *)
Class Platform := {
  sha256 : list Byte.byte → list Byte.byte;
  dir_size : string → Z;
  listdir_order : list string → list string;
  listdir_order_perm : ∀ l, listdir_order l ≡ₚ l
}.

Section Model.
Context `{Platform}.

(** *** [os] and [open] *)

Definition os_path_exists (p : string) : io bool :=
  λ w, (Ok (match nodes w !! p with Some _ => true | None => false end), w).

Definition os_path_isdir (p : string) : io bool :=
  λ w, (Ok (match nodes w !! p with Some Dir => true | _ => false end), w).

Definition os_path_getsize (p : string) : io Z :=
  λ w, match nodes w !! p with
       | Some (File data) => (Ok (Z.of_nat (length data)), w)
       | Some Dir => (Ok (dir_size p), w)
       | None => (Raise FileNotFoundError, w)
       end.

(** [os.makedirs(p, exist_ok=True)], for the last component of [p]. *)
Definition os_makedirs (p : string) : io unit :=
  λ w, match nodes w !! p with
       | Some Dir => (Ok (), w)
       | Some (File _) => (Raise FileExistsError, w)
       | None => (Ok (), World (<[p := Dir]> (nodes w)) (opens w))
       end.

Definition entries (folder : string) (m : gmap string node) : list string :=
  omap (Path.entry_name folder) (map_to_list m).*1.

Definition os_listdir (p : string) : io (list string) :=
  λ w, match nodes w !! p with
       | Some Dir => (Ok (listdir_order (entries p (nodes w))), w)
       | Some (File _) => (Raise NotADirectoryError, w)
       | None => (Raise FileNotFoundError, w)
       end.

(** [open(p, 'rb')] and [open(p, 'r')]: the handle is modelled by the bytes
    still to be read, taken when the file is opened. *)
Definition open_read (p : string) (md : mode) : io (list Byte.byte) :=
  λ w, let w' := World (nodes w) (opens w ++ [(p, md)]) in
       match nodes w !! p with
       | Some (File data) => (Ok data, w')
       | Some Dir => (Raise IsADirectoryError, w')
       | None => (Raise FileNotFoundError, w')
       end.

Definition parent_exists (m : gmap string node) (p : string) : bool :=
  let d := Path.dirname p in
  Py.is_empty d || match m !! d with Some Dir => true | _ => false end.

(** [open(p, 'wb')] and [open(p, 'w')]: creates the file or truncates it;
    the handle is modelled by the path.  The empty path names nothing
    ([FileNotFoundError]), and a path that ends in a separator names a
    directory ([IsADirectoryError]). *)
Definition open_write (p : string) (md : mode) : io unit :=
  λ w, let log := opens w ++ [(p, md)] in
       if Py.is_empty p then (Raise FileNotFoundError, World (nodes w) log)
       else if Py.endswith p "/"
       then (Raise IsADirectoryError, World (nodes w) log)
       else
       match nodes w !! p with
       | Some Dir => (Raise IsADirectoryError, World (nodes w) log)
       | _ =>
           if parent_exists (nodes w) p
           then (Ok (), World (<[p := File []]> (nodes w)) log)
           else (Raise FileNotFoundError, World (nodes w) log)
       end.

(** [f.write(data)] on a handle opened for writing on [p]. *)
Definition file_write (p : string) (data : list Byte.byte) : io unit :=
  λ w, match nodes w !! p with
       | Some (File old) =>
           (Ok (), World (<[p := File (old ++ data)]> (nodes w)) (opens w))
       | _ => (Raise ValueError, w)
       end.

Definition file_write_text (p : string) (s : string) : io unit :=
  file_write p (String.list_byte_of_string s).

(** The largest byte count [f.read] takes: the argument is converted to a C
    [ssize_t] (64 bits here, [sys.maxsize]), and a count outside its range
    raises [OverflowError]. *)
Definition max_read_size : Z := 2 ^ 63 - 1.

(** [f.read(size)] on a buffered binary reader: the bytes returned and the
    bytes left. *)
Definition file_read (size : Z) (rest : list Byte.byte)
  : result (list Byte.byte * list Byte.byte) :=
  if (size <? - max_read_size - 1) || (max_read_size <? size)
  then Raise OverflowError
  else if size <? -1 then Raise ValueError
  else if size =? -1 then Ok (rest, [])
  else Ok (take (Z.to_nat size) rest, drop (Z.to_nat size) rest).

(** The blocks a loop [while chunk := f.read(size)] (or [while True] with
    [if not chunk: break]) sees: it stops at the first empty read.  Every
    other read consumes a byte, so [S (length rest)] rounds are enough
    ([read_blocks_unfold] below). *)
Fixpoint read_loop (fuel : nat) (size : Z) (rest : list Byte.byte)
  : result (list (list Byte.byte)) :=
  match fuel with
  | O => Ok []
  | S fuel' =>
      try r <- file_read size rest;
      match r.1 with
      | [] => Ok []
      | _ => try more <- read_loop fuel' size r.2; Ok (r.1 :: more)
      end
  end.

Definition read_blocks (size : Z) (data : list Byte.byte)
  : result (list (list Byte.byte)) :=
  read_loop (S (length data)) size data.

(** *** [get_file_hash] *)

(** A [hashlib.sha256()] object is modelled by the bytes fed to it so far. *)
Definition hash_update (h chunk : list Byte.byte) : list Byte.byte := h ++ chunk.
Definition hexdigest (h : list Byte.byte) : string := hexlify (sha256 h).

Definition get_file_hash (filepath : string) : io string :=
  do f <- open_read filepath Rb;
  do blocks <- lift (read_blocks 8192 f);
  ret (hexdigest (foldl hash_update [] blocks)).

(** *** [split_file] *)

Inductive split_outcome :=
  | SplitNotFound
    (** "Error: File ... not found" *)
  | SplitComplete (chunk_num : nat) (folder_name original_hash : string).
    (** "Split complete! Created ... chunks" *)

Definition chunk_name (base_name : string) (i : nat) : string :=
  base_name +:+ ".part" +:+ Py.fmt03d i.

(** The body of the chunking loop, once per block read. *)
Fixpoint split_loop (folder_name base_name : string)
    (blocks : list (list Byte.byte)) (chunk_num : nat) : io nat :=
  match blocks with
  | [] => ret chunk_num
  | chunk :: rest =>
      let chunk_filename :=
        Path.join folder_name (chunk_name base_name chunk_num) in
      open_write chunk_filename Wb;;
      file_write chunk_filename chunk;;
      split_loop folder_name base_name rest (S chunk_num)
  end.

Definition split_file (filepath : string) (chunk_size_mb : Z)
  : io split_outcome :=
  let chunk_size := chunk_size_mb * 1024 * 1024 in
  do found <- os_path_exists filepath;
  if negb found then ret SplitNotFound else
  do file_size <- os_path_getsize filepath;
  let base_name := Path.basename filepath in
  let folder_name := base_name +:+ "_chunks" in
  os_makedirs folder_name;;
  do original_hash <- get_file_hash filepath;
  do f <- open_read filepath Rb;
  do blocks <- lift (read_blocks chunk_size f);
  do chunk_num <- split_loop folder_name base_name blocks 0;
  let meta_filename := Path.join folder_name (base_name +:+ ".meta") in
  open_write meta_filename Wt;;
  file_write_text meta_filename ("original_name=" +:+ base_name +:+ "
");;
  file_write_text meta_filename
    ("num_chunks=" +:+ Py.str (Z.of_nat chunk_num) +:+ "
");;
  file_write_text meta_filename ("original_size=" +:+ Py.str file_size +:+ "
");;
  file_write_text meta_filename ("chunk_size=" +:+ Py.str chunk_size +:+ "
");;
  file_write_text meta_filename ("sha256=" +:+ original_hash +:+ "
");;
  ret (SplitComplete chunk_num folder_name original_hash).

(** *** [join_files] *)

Inductive join_outcome :=
  | JoinFolderNotFound
    (** "Error: Folder ... not found" *)
  | JoinNoMetadata
    (** "Error: No metadata file found in ..." *)
  | JoinMissingChunks (missing : list string)
    (** "Error: Missing chunk files:" and one line per element *)
  | JoinSizeMismatch (output_name : string) (original_size rebuilt_size : Z)
    (** "Size mismatch! File may be corrupted" *)
  | JoinHashMismatch (output_name original_hash rebuilt_hash : string)
    (** "Hash mismatch! File may be corrupted", expected and got *)
  | JoinVerified (output_name : string).
    (** "Hash matches! File integrity verified" *)

(** The loop that fills the [metadata] dictionary from the lines of the
    metadata file. *)
Fixpoint read_metadata (ls : list string) (metadata : gmap string string)
  : result (gmap string string) :=
  match ls with
  | [] => Ok metadata
  | line :: rest =>
      match Py.split1 "=" (Py.strip line) with
      | Some (key, value) => read_metadata rest (<[key := value]> metadata)
      | None => Raise ValueError
      end
  end.

(** [metadata[key]] *)
Definition getitem (metadata : gmap string string) (key : string)
  : result string :=
  match metadata !! key with
  | Some v => Ok v
  | None => Raise (KeyError key)
  end.

Definition int_of (s : string) : result Z :=
  match Py.int s with
  | Some z => Ok z
  | None => Raise ValueError
  end.

(** What [join_files] takes from the metadata text: the dictionary, then
    [original_name], [num_chunks], [original_size] and [original_hash]. *)
Definition decode_metadata (text : string)
  : result (string * Z * Z * string) :=
  try metadata <- read_metadata (Py.lines (Py.universal_newlines text)) ∅;
  try original_name <- getitem metadata "original_name";
  try num_chunks_s <- getitem metadata "num_chunks";
  try num_chunks <- int_of num_chunks_s;
  try original_size_s <- getitem metadata "original_size";
  try original_size <- int_of original_size_s;
  try original_hash <- getitem metadata "sha256";
  Ok (original_name, num_chunks, original_size, original_hash).

(** [range(n)] *)
Definition range (n : Z) : list nat := seq 0 (Z.to_nat n).

(** The loop that collects the chunk files that do not exist. *)
Fixpoint missing_chunks (folder_name original_name : string) (idxs : list nat)
  : io (list string) :=
  match idxs with
  | [] => ret []
  | i :: rest =>
      let chunk_filename :=
        Path.join folder_name (chunk_name original_name i) in
      do found <- os_path_exists chunk_filename;
      do missing <- missing_chunks folder_name original_name rest;
      ret (if found then missing else chunk_filename :: missing)
  end.

(** The loop that appends every chunk to the output file. *)
Fixpoint join_loop (folder_name original_name output_name : string)
    (idxs : list nat) : io unit :=
  match idxs with
  | [] => ret ()
  | i :: rest =>
      let chunk_filename :=
        Path.join folder_name (chunk_name original_name i) in
      do data <- open_read chunk_filename Rb;
      file_write output_name data;;
      join_loop folder_name original_name output_name rest
  end.

(** The second half of [join_files], from "Check all chunks exist" on: what
    it does once [original_name], [num_chunks], [original_size] and
    [original_hash] have been taken from the metadata. *)
Definition rebuild (folder_name original_name : string)
    (num_chunks original_size : Z) (original_hash : string)
  : io join_outcome :=
  do missing <- missing_chunks folder_name original_name (range num_chunks);
  match missing with
  | _ :: _ => ret (JoinMissingChunks missing)
  | [] =>
      do taken <- os_path_exists original_name;
      let output_name :=
        if taken then "rebuilt_" +:+ original_name else original_name in
      open_write output_name Wb;;
      join_loop folder_name original_name output_name (range num_chunks);;
      do rebuilt_size <- os_path_getsize output_name;
      if rebuilt_size =? original_size then
        do rebuilt_hash <- get_file_hash output_name;
        if String.eqb rebuilt_hash original_hash
        then ret (JoinVerified output_name)
        else ret (JoinHashMismatch output_name original_hash rebuilt_hash)
      else ret (JoinSizeMismatch output_name original_size rebuilt_size)
  end.

Definition join_files (folder_name : string) : io join_outcome :=
  do isdir <- os_path_isdir folder_name;
  if negb isdir then ret JoinFolderNotFound else
  do listing <- os_listdir folder_name;
  match filter (λ f, Py.endswith f ".meta" = true) listing with
  | [] => ret JoinNoMetadata
  | first_meta :: _ =>
      let meta_filename := Path.join folder_name first_meta in
      do meta <- open_read meta_filename Rt;
      do fields <- lift (decode_metadata (String.string_of_list_byte meta));
      let '(original_name, num_chunks, original_size, original_hash) := fields in
      rebuild folder_name original_name num_chunks original_size original_hash
  end.

End Model.

(** ** [main] *)

(** [c.lower()] for one character: the ASCII capitals; any other character
    of a command line is left as it is. *)
Definition lower_char (c : ascii) : ascii :=
  let n := N_of_ascii c in
  if (65 <=? n)%N && (n <=? 90)%N then ascii_of_N (n + 32) else c.

(** [s.lower()] *)
Fixpoint lower (s : string) : string :=
  match s with
  | "" => ""
  | String c r => String (lower_char c) (lower r)
  end.

Inductive main_outcome :=
  | MainUsage
    (** the usage text, then [sys.exit(1)] *)
  | MainSplit (outcome : split_outcome)
  | MainJoin (outcome : join_outcome)
  | MainUnknown (command : string).
    (** "Unknown command: ...", then [sys.exit(1)] *)

(** The status [main] exits with when it returns [o]. *)
Definition exit_status (o : main_outcome) : Z :=
  match o with
  | MainUsage | MainUnknown _ => 1
  | MainSplit _ | MainJoin _ => 0
  end.

Section MainModel.
Context `{Platform}.

(** [main()], with [sys.argv] as its argument. *)
Definition main (argv : list string) : io main_outcome :=
  match argv with
  | _ :: command :: arg :: rest =>
      let command := lower command in
      if String.eqb command "split" then
        let filepath := arg in
        do chunk_size <- lift (match rest with
                               | size :: _ => int_of size
                               | [] => Ok 50
                               end);
        do outcome <- split_file filepath chunk_size;
        ret (MainSplit outcome)
      else if String.eqb command "join" then
        let folder_name := arg in
        do outcome <- join_files folder_name;
        ret (MainJoin outcome)
      else ret (MainUnknown command)
  | _ => ret MainUsage
  end.

End MainModel.

(** ** Notions the statements use *)

(** The path of chunk [i] of [base_name] in [folder_name]. *)
Definition chunk_path (folder_name base_name : string) (i : nat) : string :=
  Path.join folder_name (chunk_name base_name i).

(** [ceil(n / s)] on natural numbers ([0] when [s = 0]). *)
Definition ceil_div (n s : nat) : nat := ((n + s - 1) / s)%nat.

(** [k] is the ceiling of [n / s]: the least [k] with [n <= k * s]. *)
Definition is_ceil (n s k : Z) : Prop := (k - 1) * s < n ∧ n ≤ k * s.

(** Block [i] of [data] cut in blocks of [s] bytes, and all its blocks. *)
Definition nth_block (s : nat) (data : list Byte.byte) (i : nat)
  : list Byte.byte := take s (drop (i * s) data).

Definition blocks_of (s : nat) (data : list Byte.byte)
  : list (list Byte.byte) :=
  nth_block s data <$> seq 0 (ceil_div (length data) s).

(** The files [split_loop] leaves behind. *)
Fixpoint chunks_written (folder_name base_name : string)
    (blocks : list (list Byte.byte)) (chunk_num : nat)
    (m : gmap string node) : gmap string node :=
  match blocks with
  | [] => m
  | chunk :: rest =>
      chunks_written folder_name base_name rest (S chunk_num)
        (<[chunk_path folder_name base_name chunk_num := File chunk]> m)
  end.

(** The canonical text of a metadata record. *)
Definition meta_text (base_name : string) (chunk_num file_size chunk_size : Z)
    (digest : string) : string :=
  ("original_name=" +:+ base_name +:+ "
") +:+
  ("num_chunks=" +:+ Py.str chunk_num +:+ "
") +:+
  ("original_size=" +:+ Py.str file_size +:+ "
") +:+
  ("chunk_size=" +:+ Py.str chunk_size +:+ "
") +:+
  ("sha256=" +:+ digest +:+ "
").

(** What [split_file] needs from the file system to run to completion: the
    source is a regular file holding [content], nothing but a directory
    stands at the name of the chunk folder, and no directory stands inside
    the chunk folder where a file is to be written. *)
Definition split_ready (m : gmap string node) (filepath : string)
    (content : list Byte.byte) : Prop :=
  let folder_name := Path.basename filepath +:+ "_chunks" in
  m !! filepath = Some (File content) ∧
  (∀ d, m !! folder_name ≠ Some (File d)) ∧
  (∀ name, Path.has_sep name = false →
           m !! Path.join folder_name name ≠ Some Dir).

(** What [join_files] needs to reach the metadata: [folder_name] is a
    directory, the first entry of its listing that ends in [.meta] gives the
    path [meta_filename], and that path is a regular file holding [meta]. *)
Definition metadata_at `{Platform} (m : gmap string node)
    (folder_name meta_filename : string) (meta : list Byte.byte) : Prop :=
  m !! folder_name = Some Dir ∧
  (∃ first_meta,
     head (filter (λ f, Py.endswith f ".meta" = true)
             (listdir_order (entries folder_name m))) = Some first_meta ∧
     meta_filename = Path.join folder_name first_meta) ∧
  m !! meta_filename = Some (File meta).

(** The chunk files of [original_name] in [folder_name] hold [chunks], in
    order. *)
Definition chunks_at (m : gmap string node) (folder_name original_name : string)
    (chunks : list (list Byte.byte)) : Prop :=
  ∀ i c, chunks !! i = Some c →
         m !! chunk_path folder_name original_name i = Some (File c).

(** The name [join_files] gives to its output. *)
Definition output_name_for (m : gmap string node) (original_name : string)
  : string :=
  match m !! original_name with
  | Some _ => "rebuilt_" +:+ original_name
  | None => original_name
  end.

(** What [open_write] asks of a path to create or truncate the file: a
    name that is not empty and does not end in a separator, where no
    directory stands, in a directory that exists. *)
Definition creatable (m : gmap string node) (p : string) : Prop :=
  p ≠ "" ∧ Py.endswith p "/" = false ∧
  m !! p ≠ Some Dir ∧ parent_exists m p = true.

(** No NUL character in a path: [open] raises [ValueError] on one. *)
Definition no_nul (p : string) : bool :=
  Py.all_chars (λ c, negb (Ascii.eqb c "000")) p.

(** The output file can be created or truncated: a name the operating
    system can take (no NUL character) that is [creatable]. *)
Definition writable (m : gmap string node) (p : string) : Prop :=
  no_nul p = true ∧ creatable m p.

(** The output file a join reports, when it wrote one. *)
Definition outcome_output (o : join_outcome) : option string :=
  match o with
  | JoinSizeMismatch output_name _ _
  | JoinHashMismatch output_name _ _
  | JoinVerified output_name => Some output_name
  | _ => None
  end.

(** What [join_files] reports after rebuilding [data]. *)
Definition verdict `{Platform} (output_name : string) (data : list Byte.byte)
    (original_size : Z) (original_hash : string) : join_outcome :=
  let rebuilt_size := Z.of_nat (length data) in
  if rebuilt_size =? original_size then
    if String.eqb (hexdigest data) original_hash
    then JoinVerified output_name
    else JoinHashMismatch output_name original_hash (hexdigest data)
  else JoinSizeMismatch output_name original_size rebuilt_size.

(** The exceptions decoding the metadata can raise ([ValueError] from the
    unpacking of a line or from [int], [KeyError] from the dictionary): what
    the specification calls a format error. *)
Definition format_error (e : exn) : Prop :=
  match e with
  | ValueError | KeyError _ => True
  | _ => False
  end.

(** Two file systems that hold the same, except for what the regular file
    [p] contains. *)
Definition same_but (p : string) (m1 m2 : gmap string node) : Prop :=
  (∀ q, q ≠ p → m1 !! q = m2 !! q) ∧
  (∃ d1 d2, m1 !! p = Some (File d1) ∧ m2 !! p = Some (File d2)).

(** A character of the ASCII range. *)
Definition is_ascii (c : ascii) : bool := (N_of_ascii c <? 128)%N.

(** A base name that a metadata line carries unchanged through the
    [strip()] of [join_files]: not empty, ASCII, without line break and
    without white space at its end. *)
Definition plain_name (s : string) : bool :=
  negb (Py.is_empty s) && Py.all_chars is_ascii s && Py.one_line s &&
  String.eqb (Py.rstrip s) s.

(** A computation that leaves every path outside [S] as it was, whatever
    its result. *)
Definition only_touches {A} (S : string → Prop) (c : io A) : Prop :=
  ∀ w q, ¬ S q → nodes (c w).2 !! q = nodes w !! q.

(** ** A concrete platform and concrete file systems

    Used to run the model on explicit inputs. *)

(** A stand-in for SHA-256 (the first two bytes of the message), and a
    listing in the order of the file system map. *)
Definition demo_platform : Platform := {|
  sha256 := take 2;
  dir_size := λ _, 4096;
  listdir_order := λ l, l;
  listdir_order_perm := λ l, reflexivity l
|}.

Definition bytes (s : string) : list Byte.byte := String.list_byte_of_string s.

Definition world0 (m : gmap string node) : world := World m [].

(** Runs [split_file] and then [join_files] on the folder it names. *)
Definition split_then_join `{Platform} (filepath : string) (chunk_size_mb : Z)
  : io (option join_outcome) :=
  do s <- split_file filepath chunk_size_mb;
  match s with
  | SplitNotFound => ret None
  | SplitComplete _ folder_name _ =>
      do j <- join_files folder_name; ret (Some j)
  end.

(** One source file of eleven bytes, in a sub-directory. *)
Definition demo_source : gmap string node :=
  {[ "docs/a.bin" := File (bytes "hello world") ]}.

(** A chunk folder [d] with one chunk of [x] and the metadata text [text]. *)
Definition demo_chunk_set (text : string) : gmap string node :=
  <["d" := Dir]>
    (<["d/x.meta" := File (bytes text)]>
       (<["d/x.part000" := File (bytes "hi")]> ∅)).

(** Metadata texts for that folder: the canonical one, one with another
    [chunk_size], one without the [chunk_size] line, one with a line that
    has no [=], one that announces two chunks, one with a wrong size, and
    one with a negative [num_chunks]. *)
Definition demo_meta : string :=
  "original_name=x
num_chunks=1
original_size=2
chunk_size=1048576
sha256=6869
".

Definition demo_meta_other_chunk_size : string :=
  "original_name=x
num_chunks=1
original_size=2
chunk_size=7
sha256=6869
".

Definition demo_meta_no_chunk_size : string :=
  "original_name=x
num_chunks=1
original_size=2
sha256=6869
".

Definition demo_meta_bad_line : string :=
  "original_name=x
num_chunks
original_size=2
sha256=6869
".

Definition demo_meta_two_chunks : string :=
  "original_name=x
num_chunks=2
original_size=4
chunk_size=2
sha256=6869
".

Definition demo_meta_wrong_size : string :=
  "original_name=x
num_chunks=1
original_size=5
chunk_size=5
sha256=6869
".

Definition demo_meta_negative : string :=
  "original_name=x
num_chunks=-1
original_size=0
sha256=
".

(** A source file whose name ends in a space, and one whose name holds a
    line feed. *)
Definition demo_spaced_source : gmap string node :=
  {[ "a " := File (bytes "hello world") ]}.

Definition demo_newline_source : gmap string node :=
  {[ "a
b" := File (bytes "hello world") ]}.

(** More file systems: metadata with a wrong digest, a regular file at the
    name of the chunk folder, a directory as the source, a chunk folder
    without metadata, and a directory at the name of the second chunk. *)
Definition demo_meta_wrong_hash : string :=
  "original_name=x
num_chunks=1
original_size=2
chunk_size=2
sha256=0000
".

Definition demo_folder_name_taken : gmap string node :=
  <["a" := File (bytes "hello")]> (<["a_chunks" := File (bytes "x")]> ∅).

Definition demo_directory : gmap string node := {[ "docs" := Dir ]}.

Definition demo_chunks_only : gmap string node :=
  <["d" := Dir]> (<["d/x.part000" := File (bytes "hi")]> ∅).

Definition demo_chunk_is_directory : gmap string node :=
  <["d/x.part001" := Dir]> (demo_chunk_set demo_meta_two_chunks).

(** * Facts about the Python and path primitives *)

Section StringFacts.

Local Open Scope nat_scope.

Lemma str_app_nil_l (s : string) : "" +:+ s = s.
Proof. reflexivity. Qed.

Lemma str_app_cons (c : ascii) (s t : string) :
  String c s +:+ t = String c (s +:+ t).
Proof. reflexivity. Qed.

Lemma str_app_nil_r (s : string) : s +:+ "" = s.
Proof. induction s as [|c s IH]; [done|]. by rewrite str_app_cons, IH. Qed.

Lemma str_app_assoc (a b c : string) : (a +:+ b) +:+ c = a +:+ (b +:+ c).
Proof.
  induction a as [|x a IH]; [done|]. by rewrite !str_app_cons, IH.
Qed.

Lemma str_length_app (a b : string) :
  String.length (a +:+ b) = String.length a + String.length b.
Proof.
  induction a as [|x a IH]; [done|]. rewrite str_app_cons. simpl. by rewrite IH.
Qed.

Lemma str_app_is_empty (a b : string) :
  Py.is_empty (a +:+ b) = Py.is_empty a && Py.is_empty b.
Proof. by destruct a. Qed.

Lemma bytes_app (a b : string) :
  String.list_byte_of_string (a +:+ b) =
  String.list_byte_of_string a ++ String.list_byte_of_string b.
Proof.
  induction a as [|x a IH]; [done|].
  rewrite str_app_cons. unfold String.list_byte_of_string in *. simpl.
  by rewrite IH.
Qed.

Lemma all_chars_app p (a b : string) :
  Py.all_chars p (a +:+ b) = Py.all_chars p a && Py.all_chars p b.
Proof.
  induction a as [|x a IH]; [done|].
  rewrite str_app_cons. simpl. rewrite IH. by destruct (p x).
Qed.

Lemma all_chars_impl (p q : ascii → bool) (s : string) :
  (∀ c, p c = true → q c = true) →
  Py.all_chars p s = true → Py.all_chars q s = true.
Proof.
  intros Hpq. induction s as [|c s IH]; [done|]. simpl.
  intros [Hc Hs]%andb_prop. rewrite (Hpq _ Hc). simpl. auto.
Qed.

Lemma count_app c (a b : string) :
  Py.count c (a +:+ b) = Py.count c a + Py.count c b.
Proof.
  induction a as [|x a IH]; [done|].
  rewrite str_app_cons. simpl. rewrite IH. lia.
Qed.

Lemma last_app (a b : string) :
  b ≠ "" → Py.last (a +:+ b) = Py.last b.
Proof.
  intros Hb. induction a as [|x a IH]; [done|].
  rewrite str_app_cons. simpl. rewrite IH.
  destruct b as [|y b]; [done|]. simpl. by destruct (Py.last b).
Qed.

Lemma last_all_chars p (s : string) c :
  Py.all_chars p s = true → Py.last s = Some c → p c = true.
Proof.
  induction s as [|x s IH]; [done|]. simpl.
  intros [Hx Hs]%andb_prop. destruct (Py.last s) as [d|]; intros [= <-]; auto.
Qed.

(** *** [strip], [split] and [endswith] *)

Lemma rstrip_cons_keep c (s : string) :
  Py.isspace c = false → Py.rstrip (String c s) = String c (Py.rstrip s).
Proof. intros Hc. simpl. rewrite Hc. by rewrite andb_false_r. Qed.

Lemma rstrip_app_keep (a b : string) :
  Py.rstrip b ≠ "" → Py.rstrip (a +:+ b) = a +:+ Py.rstrip b.
Proof.
  intros Hb. induction a as [|x a IH]; [done|].
  rewrite !str_app_cons. simpl. rewrite IH.
  rewrite str_app_is_empty.
  destruct (Py.rstrip b); [done|]. simpl. by rewrite andb_false_r.
Qed.

Lemma rstrip_idemp (s : string) : Py.rstrip (Py.rstrip s) = Py.rstrip s.
Proof.
  induction s as [|c s IH]; [done|]. simpl.
  destruct (Py.is_empty (Py.rstrip s) && Py.isspace c) eqn:E; [done|].
  simpl. rewrite IH, E. done.
Qed.

Lemma rstrip_all_chars p (s : string) :
  (∀ c, p c = true → Py.isspace c = false) →
  Py.all_chars p s = true → Py.rstrip s = s.
Proof.
  intros Hp. induction s as [|c s IH]; [done|]. simpl.
  intros [Hc Hs]%andb_prop. rewrite (Hp _ Hc), andb_false_r. by rewrite IH.
Qed.

(** A line [key=value] whose key starts with a letter and holds no white
    space: stripping it only strips the end of the value. *)
Lemma strip_key_value c (key value : string) :
  Py.isspace c = false →
  Py.strip (String c key +:+ String "=" value) =
  String c key +:+ String "=" (Py.rstrip value).
Proof.
  intros Hc. unfold Py.strip. rewrite str_app_cons. simpl Py.lstrip.
  rewrite Hc. rewrite <- str_app_cons.
  rewrite rstrip_app_keep; by rewrite rstrip_cons_keep.
Qed.

Lemma split1_all_chars sep (s : string) :
  Py.all_chars (λ c, negb (Ascii.eqb c sep)) s = true → Py.split1 sep s = None.
Proof.
  induction s as [|c s IH]; [done|]. simpl.
  intros [Hc Hs]%andb_prop. apply negb_true_iff in Hc. by rewrite Hc, IH.
Qed.

Lemma split1_app sep (k v : string) :
  Py.split1 sep k = None → Py.split1 sep (k +:+ String sep v) = Some (k, v).
Proof.
  induction k as [|c k IH].
  - intros _. rewrite str_app_nil_l. simpl. by rewrite Ascii.eqb_refl.
  - rewrite str_app_cons. simpl. destruct (Ascii.eqb c sep); [done|].
    destruct (Py.split1 sep k) as [[??]|] eqn:E; [done|].
    intros _. by rewrite IH.
Qed.

Lemma endswith_cons c (s suffix : string) :
  Py.endswith (String c s) suffix =
  if String.eqb (String c s) suffix then true else Py.endswith s suffix.
Proof. reflexivity. Qed.

Lemma endswith_refl (s : string) : Py.endswith s s = true.
Proof.
  destruct s as [|c s]; [done|]. by rewrite endswith_cons, String.eqb_refl.
Qed.

Lemma endswith_app (a s suffix : string) :
  Py.endswith s suffix = true → Py.endswith (a +:+ s) suffix = true.
Proof.
  intros Hs. induction a as [|x a IH]; [done|].
  rewrite str_app_cons, endswith_cons, IH. by destruct (String.eqb _ _).
Qed.

Lemma endswith_inv (s suffix : string) :
  Py.endswith s suffix = true → ∃ a, s = a +:+ suffix.
Proof.
  induction s as [|c s IH].
  - destruct suffix; [by exists ""|done].
  - rewrite endswith_cons.
    destruct (String.eqb_spec (String c s) suffix) as [<-|].
    + by exists "".
    + intros [a ->]%IH. by exists (String c a).
Qed.

Lemma endswith_last (s suffix : string) c :
  Py.endswith s suffix = true → Py.last suffix = Some c → Py.last s = Some c.
Proof.
  intros [a ->]%endswith_inv Hc. rewrite last_app; [done|]. by intros ->.
Qed.

(** *** Lines of a text *)

Lemma one_line_app (a b : string) :
  Py.one_line (a +:+ b) = Py.one_line a && Py.one_line b.
Proof. apply all_chars_app. Qed.

Lemma universal_newlines_line (l rest : string) :
  Py.one_line l = true →
  Py.universal_newlines (l +:+ String "010" rest) =
  l +:+ String "010" (Py.universal_newlines rest).
Proof.
  induction l as [|c l IH]; [done|].
  rewrite !str_app_cons. unfold Py.one_line. simpl.
  intros [Hc Hl]%andb_prop. rewrite IH by done.
  unfold Py.is_linebreak in Hc. apply negb_true_iff, orb_false_iff in Hc.
  by rewrite (proj2 Hc).
Qed.

Lemma lines_line (l rest : string) :
  Py.one_line l = true →
  Py.lines (l +:+ String "010" rest) = l :: Py.lines rest.
Proof.
  induction l as [|c l IH]; [done|].
  rewrite !str_app_cons. unfold Py.one_line. simpl.
  intros [Hc Hl]%andb_prop. rewrite IH by done.
  unfold Py.is_linebreak in Hc. apply negb_true_iff, orb_false_iff in Hc.
  by rewrite (proj1 Hc).
Qed.

(** The lines read back from a text that starts with the line [l]. *)
Lemma read_lines_line (l rest : string) :
  Py.one_line l = true →
  Py.lines (Py.universal_newlines (l +:+ String "010" rest)) =
  l :: Py.lines (Py.universal_newlines rest).
Proof.
  intros Hl. by rewrite universal_newlines_line, lines_line.
Qed.

(** *** Decimal numerals *)

Lemma is_digit_cases (p : ascii → Prop) :
  p "0"%char → p "1"%char → p "2"%char → p "3"%char → p "4"%char →
  p "5"%char → p "6"%char → p "7"%char → p "8"%char → p "9"%char →
  ∀ c, Py.is_digit c = true → p c.
Proof.
  intros ?????????? c.
  destruct c as [[] [] [] [] [] [] [] []]; try discriminate; auto.
Qed.

Lemma is_digit_not_space c : Py.is_digit c = true → Py.isspace c = false.
Proof. revert c. by apply is_digit_cases. Qed.

Lemma is_digit_one_line c :
  Py.is_digit c = true → negb (Py.is_linebreak c) = true.
Proof. revert c. by apply is_digit_cases. Qed.

Lemma uint_all_digits (d : Decimal.uint) :
  Py.all_chars Py.is_digit (NilEmpty.string_of_uint d) = true.
Proof. induction d; simpl; auto. Qed.

Ltac eval_digit :=
  repeat match goal with
  | |- context [Py.digit_val ?c] =>
      let v := eval vm_compute in (Py.digit_val c) in
      change (Py.digit_val c) with v
  end.

Lemma parse_uint_pos (d : Decimal.uint) (p : positive) :
  Py.parse_digits (Npos p) true (NilEmpty.string_of_uint d) =
  Some (Npos (Pos.of_uint_acc d p)).
Proof.
  revert p. induction d; intros p; [done|..];
    cbn [NilEmpty.string_of_uint Py.parse_digits Pos.of_uint_acc]; eval_digit;
    rewrite <- IHd; f_equal; lia.
Qed.

Lemma parse_uint (d : Decimal.uint) :
  Py.parse_digits 0 true (NilEmpty.string_of_uint d) = Some (N.of_uint d).
Proof.
  induction d; [done|..];
    cbn [NilEmpty.string_of_uint Py.parse_digits]; eval_digit;
    [exact IHd | apply parse_uint_pos ..].
Qed.

Lemma parse_digits_flag acc b (s : string) :
  s ≠ "" → Py.all_chars Py.is_digit s = true →
  Py.parse_digits acc b s = Py.parse_digits acc true s.
Proof.
  destruct s as [|c s]; [done|]. simpl. intros _ [Hc _]%andb_prop.
  unfold Py.is_digit in Hc. by destruct (Py.digit_val c).
Qed.

Lemma str_N_all_digits (n : N) : Py.all_chars Py.is_digit (Py.str_N n) = true.
Proof. apply uint_all_digits. Qed.

Lemma parse_str_N_true (n : N) :
  Py.parse_digits 0 true (Py.str_N n) = Some n.
Proof.
  unfold Py.str_N. by rewrite parse_uint, DecimalN.Unsigned.of_to.
Qed.

Lemma str_N_nonempty (n : N) : Py.str_N n ≠ "".
Proof.
  unfold Py.str_N. intros E.
  assert (N.to_uint n = Decimal.Nil) as Hd.
  { by destruct (N.to_uint n). }
  pose proof (DecimalN.Unsigned.of_to n) as Hn. rewrite Hd in Hn.
  simpl in Hn. subst n. done.
Qed.

Lemma parse_str_N (n : N) b : Py.parse_digits 0 b (Py.str_N n) = Some n.
Proof.
  rewrite parse_digits_flag;
    auto using parse_str_N_true, str_N_nonempty, str_N_all_digits.
Qed.

Lemma lstrip_digits (s : string) :
  Py.all_chars Py.is_digit s = true → Py.lstrip s = s.
Proof.
  destruct s as [|c s]; [done|]. simpl. intros [Hc _]%andb_prop.
  by rewrite (is_digit_not_space _ Hc).
Qed.

Lemma strip_digits (s : string) :
  Py.all_chars Py.is_digit s = true → Py.strip s = s.
Proof.
  intros Hs. unfold Py.strip. rewrite lstrip_digits by done.
  eapply rstrip_all_chars; [|done]. apply is_digit_not_space.
Qed.

Lemma is_digit_not_space_c c : Py.is_digit c = true → Py.isspace_c c = false.
Proof. revert c. by apply is_digit_cases. Qed.

Lemma strip_c_digits (s : string) :
  Py.all_chars Py.is_digit s = true → Py.rstrip_c (Py.lstrip_c s) = s.
Proof.
  intros Hs.
  assert (Py.lstrip_c s = s) as ->.
  { destruct s as [|c s]; [done|]. simpl. simpl in Hs.
    apply andb_prop in Hs as [Hc _]. by rewrite (is_digit_not_space_c _ Hc). }
  induction s as [|c s IH]; [done|]. simpl. simpl in Hs.
  apply andb_prop in Hs as [Hc Hs].
  rewrite (is_digit_not_space_c _ Hc), andb_false_r. by rewrite IH.
Qed.

Lemma int_digits (s : string) :
  Py.all_chars Py.is_digit s = true →
  Py.int s = Z.of_N <$> Py.parse_digits 0 false s.
Proof.
  intros Hs. unfold Py.int. rewrite strip_c_digits by done.
  destruct s as [|c s]; [done|]. simpl in Hs.
  apply andb_prop in Hs as [Hc _]. revert c Hc.
  by apply is_digit_cases.
Qed.

(** [int(str(n)) == n] for a non-negative [n]. *)
Lemma int_str (z : Z) : (0 ≤ z)%Z → Py.int (Py.str z) = Some z.
Proof.
  intros Hz. unfold Py.str.
  destruct (Z.ltb_spec z 0) as [|_]; [lia|].
  rewrite int_digits by apply str_N_all_digits.
  rewrite parse_str_N. simpl. f_equal. lia.
Qed.

Lemma str_all_digits (z : Z) :
  (0 ≤ z)%Z → Py.all_chars Py.is_digit (Py.str z) = true.
Proof.
  intros Hz. unfold Py.str.
  destruct (Z.ltb_spec z 0) as [|_]; [lia|]. apply str_N_all_digits.
Qed.

Lemma zfill_all_digits k (s : string) :
  Py.all_chars Py.is_digit s = true →
  Py.all_chars Py.is_digit (Nat.iter k (String "0") s) = true.
Proof. intros Hs. induction k as [|k IH]; simpl; auto. Qed.

Lemma fmt03d_all_digits (i : nat) :
  Py.all_chars Py.is_digit (Py.fmt03d i) = true.
Proof. apply zfill_all_digits, str_N_all_digits. Qed.

Lemma fmt03d_parse (i : nat) :
  Py.parse_digits 0 true (Py.fmt03d i) = Some (N.of_nat i).
Proof.
  unfold Py.fmt03d, Py.zfill.
  induction (3 - String.length (Py.str_N (N.of_nat i))) as [|k IH]; simpl.
  - apply parse_str_N.
  - exact IH.
Qed.

Lemma fmt03d_inj (i j : nat) : Py.fmt03d i = Py.fmt03d j → i = j.
Proof.
  intros E. pose proof (fmt03d_parse i) as Hi. rewrite E, fmt03d_parse in Hi.
  injection Hi. lia.
Qed.

Lemma fmt03d_nonempty (i : nat) : Py.fmt03d i ≠ "".
Proof.
  intros E. pose proof (fmt03d_parse i) as Hi. rewrite E in Hi.
  simpl in Hi. pose proof (fmt03d_parse 0) as H0.
  assert (i = 0) as -> by (injection Hi; lia). by rewrite E in H0.
Qed.

(** *** Hexadecimal digests *)

Lemma hexlify_hex (bs : list Byte.byte) :
  Py.all_chars is_hex_digit (hexlify bs) = true.
Proof.
  induction bs as [|b bs IH]; [done|]. simpl. rewrite IH.
  by destruct b.
Qed.

Lemma is_hex_digit_not_space c : is_hex_digit c = true → Py.isspace c = false.
Proof. destruct c as [[] [] [] [] [] [] [] []]; done. Qed.

Lemma is_hex_digit_one_line c :
  is_hex_digit c = true → negb (Py.is_linebreak c) = true.
Proof. destruct c as [[] [] [] [] [] [] [] []]; done. Qed.

Lemma hexlify_rstrip (bs : list Byte.byte) :
  Py.rstrip (hexlify bs) = hexlify bs.
Proof.
  eapply rstrip_all_chars; [apply is_hex_digit_not_space|apply hexlify_hex].
Qed.

Lemma hexlify_one_line (bs : list Byte.byte) :
  Py.one_line (hexlify bs) = true.
Proof.
  eapply all_chars_impl; [apply is_hex_digit_one_line|apply hexlify_hex].
Qed.

End StringFacts.

Section PathFacts.

Local Open Scope nat_scope.

Lemma has_sep_app (a b : string) :
  Path.has_sep (a +:+ b) = Path.has_sep a || Path.has_sep b.
Proof.
  induction a as [|c a IH]; [done|].
  rewrite str_app_cons. simpl. rewrite IH. by rewrite orb_assoc.
Qed.

Lemma basename_no_sep (p : string) : Path.has_sep (Path.basename p) = false.
Proof.
  induction p as [|c p IH]; [done|]. simpl.
  destruct (Path.has_sep p) eqn:Hp; [done|].
  destruct (Ascii.eqb c "/") eqn:Hc; [done|]. simpl. by rewrite Hc, Hp.
Qed.

Lemma digits_no_sep (s : string) :
  Py.all_chars Py.is_digit s = true → Path.has_sep s = false.
Proof.
  induction s as [|c s IH]; [done|]. simpl.
  intros [Hc Hs]%andb_prop. rewrite IH by done.
  revert c Hc. by apply is_digit_cases.
Qed.

Lemma chunk_name_no_sep (base_name : string) i :
  Path.has_sep base_name = false →
  Path.has_sep (chunk_name base_name i) = false.
Proof.
  intros Hb. unfold chunk_name. rewrite !has_sep_app, Hb.
  by rewrite (digits_no_sep (Py.fmt03d i)) by apply fmt03d_all_digits.
Qed.

Lemma join_cons (a : string) c (r : string) :
  Path.join a (String c r) =
  if Ascii.eqb c "/" then String c r else Path.dir_prefix a +:+ String c r.
Proof. by destruct c as [[] [] [] [] [] [] [] []]. Qed.

(** [os.path.join(a, b)] always ends with [b]. *)
Lemma join_suffix (a b : string) : ∃ pre, Path.join a b = pre +:+ b.
Proof.
  destruct b as [|c r]; [by eexists|]. rewrite join_cons.
  destruct (Ascii.eqb c "/"); [by exists ""|by eexists].
Qed.

Lemma endswith_sep_has_sep (s : string) :
  Py.endswith s "/" = true → Path.has_sep s = true.
Proof.
  intros [a ->]%endswith_inv. rewrite has_sep_app. simpl. by rewrite orb_true_r.
Qed.

Lemma dir_prefix_plain (a : string) :
  a ≠ "" → Path.has_sep a = false → Path.dir_prefix a = a +:+ "/".
Proof.
  intros Ha Hs. unfold Path.dir_prefix.
  destruct a as [|c a]; [done|]. cbn [Py.is_empty orb].
  destruct (Py.endswith (String c a) "/") eqn:E; [|done].
  apply endswith_sep_has_sep in E. congruence.
Qed.

Lemma join_relative (a b : string) :
  Path.has_sep b = false → Path.join a b = Path.dir_prefix a +:+ b.
Proof.
  destruct b as [|c r]; [done|]. rewrite join_cons. simpl.
  by intros [-> _]%orb_false_elim.
Qed.

(** Inside a plain folder name, a plain entry name. *)
Lemma join_plain (a b : string) :
  a ≠ "" → Path.has_sep a = false → Path.has_sep b = false →
  Path.join a b = a +:+ String "/" b.
Proof.
  intros ???. rewrite join_relative, dir_prefix_plain by done.
  by rewrite str_app_assoc.
Qed.

Lemma head_plain (a b : string) :
  Path.has_sep b = false → Path.head (a +:+ String "/" b) = a +:+ "/".
Proof.
  intros Hb. induction a as [|c a IH].
  - rewrite !str_app_nil_l. simpl. by rewrite Hb.
  - rewrite !str_app_cons. simpl. rewrite IH.
    rewrite has_sep_app. simpl. by rewrite orb_true_r.
Qed.

Lemma rstrip_sep_plain (a : string) :
  Path.has_sep a = false → Path.rstrip_sep (a +:+ "/") = a.
Proof.
  induction a as [|c a IH]; [done|].
  rewrite str_app_cons. simpl. intros [Hc Ha]%orb_false_elim.
  rewrite IH by done. by rewrite Hc, andb_false_r.
Qed.

Lemma dirname_plain (a b : string) :
  a ≠ "" → Path.has_sep a = false → Path.has_sep b = false →
  Path.dirname (a +:+ String "/" b) = a.
Proof.
  intros Ha Hs Hb. unfold Path.dirname. rewrite head_plain by done.
  rewrite rstrip_sep_plain by done.
  destruct a as [|c a]; [done|]. rewrite str_app_cons. simpl.
  simpl in Hs. apply orb_false_elim in Hs as [-> _]. done.
Qed.

Lemma chunk_name_inj (base_name : string) i j :
  chunk_name base_name i = chunk_name base_name j → i = j.
Proof.
  unfold chunk_name. intros E. do 2 apply String.app_inj in E.
  by apply fmt03d_inj.
Qed.

(** Distinct chunk numbers give distinct chunk files. *)
Lemma chunk_path_inj (folder_name base_name : string) i j :
  chunk_path folder_name base_name i = chunk_path folder_name base_name j →
  i = j.
Proof.
  unfold chunk_path. intros E. apply (chunk_name_inj base_name).
  unfold chunk_name in *.
  destruct base_name as [|c r].
  - rewrite !str_app_nil_l in *. rewrite !str_app_cons, !join_cons in E.
    simpl in E. by apply String.app_inj in E.
  - rewrite !str_app_cons in *. rewrite !join_cons in E.
    destruct (Ascii.eqb c "/"); [done|]. by apply String.app_inj in E.
Qed.

Lemma chunk_path_suffix (folder_name base_name : string) i :
  ∃ pre, chunk_path folder_name base_name i =
         pre +:+ base_name +:+ ".part" +:+ Py.fmt03d i.
Proof.
  destruct (join_suffix folder_name (chunk_name base_name i)) as [pre E].
  exists pre. unfold chunk_path. by rewrite E.
Qed.

Lemma chunk_path_last (folder_name base_name : string) i :
  ∃ c, Py.last (chunk_path folder_name base_name i) = Some c ∧
       Py.is_digit c = true.
Proof.
  destruct (chunk_path_suffix folder_name base_name i) as [pre ->].
  rewrite <- !str_app_assoc.
  rewrite last_app by apply fmt03d_nonempty.
  destruct (Py.last (Py.fmt03d i)) as [c|] eqn:E.
  - exists c. split; [done|].
    by eapply last_all_chars; [apply fmt03d_all_digits|].
  - pose proof (fmt03d_nonempty i). destruct (Py.fmt03d i) as [|x s]; [done|].
    simpl in E. by destruct (Py.last s).
Qed.

(** A chunk file is never a file whose name ends in [.meta]. *)
Lemma chunk_path_not_meta (folder_name base_name : string) i (p : string) :
  Py.endswith p ".meta" = true → chunk_path folder_name base_name i ≠ p.
Proof.
  intros Hp E. destruct (chunk_path_last folder_name base_name i) as (c&Hc&Hd).
  rewrite E in Hc. rewrite (endswith_last _ _ "a" Hp) in Hc by done.
  by injection Hc as <-.
Qed.

(** A chunk file is never the output of a join for the same name. *)
Lemma chunk_path_not_name (folder_name original_name : string) i :
  chunk_path folder_name original_name i ≠ original_name.
Proof.
  destruct (chunk_path_suffix folder_name original_name i) as [pre ->].
  intros E%(f_equal String.length). rewrite !str_length_app in E.
  simpl in E. lia.
Qed.

Lemma chunk_path_not_rebuilt (folder_name original_name : string) i :
  chunk_path folder_name original_name i ≠ "rebuilt_" +:+ original_name.
Proof.
  destruct (chunk_path_suffix folder_name original_name i) as [pre ->].
  intros E%(f_equal (Py.count ".")). rewrite !count_app in E.
  simpl in E. lia.
Qed.

Lemma rebuilt_not_name (original_name : string) :
  "rebuilt_" +:+ original_name ≠ original_name.
Proof.
  intros E%(f_equal String.length). rewrite str_length_app in E.
  simpl in E. lia.
Qed.

Lemma strip_prefix_Some (pre s r : string) :
  Path.strip_prefix pre s = Some r ↔ s = pre +:+ r.
Proof.
  revert s. induction pre as [|c pre IH]; intros s.
  - simpl. rewrite str_app_nil_l. split; congruence.
  - rewrite str_app_cons. destruct s as [|d s]; simpl; [split; done|].
    destruct (Ascii.eqb_spec c d) as [->|Hne].
    + rewrite IH. split; congruence.
    + split; [done|]. congruence.
Qed.

Lemma entry_name_Some (folder p n : string) :
  Path.entry_name folder p = Some n ↔
  p = Path.dir_prefix folder +:+ n ∧ n ≠ "" ∧ Path.has_sep n = false.
Proof.
  unfold Path.entry_name.
  destruct (Path.strip_prefix _ p) as [r|] eqn:E.
  - apply strip_prefix_Some in E as ->.
    destruct (Py.is_empty r || Path.has_sep r) eqn:Hr.
    + split; [done|]. intros (E&Hn&Hs). apply String.app_inj in E. subst r.
      destruct n; [done|]. simpl in *. congruence.
    + apply orb_false_elim in Hr as [Hr1 Hr2]. split.
      * intros [= <-]. split_and!; [done| |done]. by intros ->.
      * intros (E&_&_). apply String.app_inj in E. by subst.
  - split; [done|]. intros (->&_).
    by rewrite (proj2 (strip_prefix_Some _ _ _) eq_refl) in E.
Qed.

End PathFacts.

(** * Facts about the blocks of a file *)

Section BlockFacts.
Local Open Scope nat_scope.

Lemma ceil_div_0 (s : nat) : ceil_div 0 s = 0.
Proof.
  unfold ceil_div. destruct s as [|s]; [done|].
  apply Nat.div_small. lia.
Qed.

Lemma ceil_div_by_0 (n : nat) : ceil_div n 0 = 0.
Proof. done. Qed.

Lemma ceil_div_step (n s : nat) :
  0 < s → 0 < n → ceil_div n s = S (ceil_div (n - s) s).
Proof.
  intros Hs Hn. unfold ceil_div.
  destruct (decide (n ≤ s)) as [Hle|Hgt].
  - replace (n - s + s - 1) with (s - 1) by lia.
    rewrite (Nat.div_small (s - 1)) by lia.
    symmetry. apply (Nat.div_unique _ _ _ (n - 1)); lia.
  - replace (n + s - 1) with ((n - s + s - 1) + 1 * s) by lia.
    rewrite Nat.div_add by lia. lia.
Qed.

(** [ceil_div] is the ceiling of the quotient. *)
Lemma ceil_div_spec (n s : nat) :
  0 < s → (ceil_div n s - 1) * s < n + (if decide (n = 0) then 1 else 0) ∧
          n ≤ ceil_div n s * s.
Proof.
  intros Hs. unfold ceil_div.
  pose proof (Nat.div_mod (n + s - 1) s ltac:(lia)) as E.
  pose proof (Nat.mod_upper_bound (n + s - 1) s ltac:(lia)) as B.
  case_decide; nia.
Qed.

Lemma blocks_of_nil (s : nat) : blocks_of s [] = [].
Proof. unfold blocks_of. simpl. by rewrite ceil_div_0. Qed.

Lemma blocks_of_0 (data : list Byte.byte) : blocks_of 0 data = [].
Proof. done. Qed.

Lemma blocks_of_cons (s : nat) (data : list Byte.byte) :
  0 < s → data ≠ [] →
  blocks_of s data = take s data :: blocks_of s (drop s data).
Proof.
  intros Hs Hd. unfold blocks_of.
  rewrite ceil_div_step; [|done|destruct data; [done|simpl; lia]].
  rewrite length_drop. cbn [seq fmap list_fmap]. f_equal.
  rewrite <- fmap_S_seq, <- list_fmap_compose.
  apply list_fmap_ext. intros _ i _. unfold nth_block. simpl.
  by rewrite drop_drop.
Qed.

Lemma length_blocks_of (s : nat) (data : list Byte.byte) :
  length (blocks_of s data) = ceil_div (length data) s.
Proof. unfold blocks_of. by rewrite length_fmap, length_seq. Qed.

Lemma lookup_blocks_of (s : nat) (data : list Byte.byte) (i : nat) :
  i < ceil_div (length data) s →
  blocks_of s data !! i = Some (nth_block s data i).
Proof.
  intros Hi. unfold blocks_of. by rewrite list_lookup_fmap, lookup_seq_lt.
Qed.

Lemma concat_blocks_of (s : nat) (data : list Byte.byte) :
  0 < s → concat (blocks_of s data) = data.
Proof.
  intros Hs. remember (length data) as n eqn:Hn.
  revert data Hn. induction n as [n IH] using lt_wf_ind. intros data Hn.
  destruct data as [|b data]; [by rewrite blocks_of_nil|].
  rewrite blocks_of_cons by done. cbn [concat].
  rewrite (IH (length (drop s (b :: data)))); [apply take_drop| |done].
  rewrite length_drop. simpl in *. lia.
Qed.

Lemma foldl_hash_update (acc : list Byte.byte) (blocks : list (list Byte.byte)) :
  foldl hash_update acc blocks = acc ++ concat blocks.
Proof.
  revert acc. induction blocks as [|b bs IH]; intros acc; simpl.
  - by rewrite app_nil_r.
  - rewrite IH. unfold hash_update. by rewrite app_assoc.
Qed.

Lemma max_read_size_pos : (0 < max_read_size)%Z.
Proof. reflexivity. Qed.

Lemma file_read_in_range (size : Z) :
  (- max_read_size - 1 ≤ size ≤ max_read_size)%Z →
  ((size <? - max_read_size - 1) || (max_read_size <? size))%Z = false.
Proof. intros Hs. apply orb_false_intro; apply Z.ltb_ge; lia. Qed.

Lemma read_loop_blocks (fuel : nat) (size : Z) (data : list Byte.byte) :
  (0 ≤ size ≤ max_read_size)%Z → length data < fuel →
  read_loop fuel size data = Ok (blocks_of (Z.to_nat size) data).
Proof.
  intros Hsize. pose proof max_read_size_pos as Hmax.
  revert data. induction fuel as [|fuel IH]; intros data Hf; [lia|].
  cbn [read_loop]. unfold file_read.
  rewrite file_read_in_range by lia.
  destruct (Z.ltb_spec size (-1)) as [|_]; [lia|].
  destruct (Z.eqb_spec size (-1)) as [|_]; [lia|].
  cbn [rbind fst snd].
  destruct data as [|b data].
  { by rewrite take_nil, blocks_of_nil. }
  destruct (Z.to_nat size) as [|s] eqn:Hs.
  { done. }
  rewrite blocks_of_cons by (done || lia).
  cbn [take]. rewrite IH; [done|].
  rewrite length_drop. simpl in *. lia.
Qed.

(** The fuel given to [read_loop] is enough: [read_blocks] returns all the
    blocks of the file. *)
Lemma read_blocks_eq (size : Z) (data : list Byte.byte) :
  (0 ≤ size ≤ max_read_size)%Z →
  read_blocks size data = Ok (blocks_of (Z.to_nat size) data).
Proof. intros. apply read_loop_blocks; [done|lia]. Qed.

Lemma read_blocks_negative (size : Z) (data : list Byte.byte) :
  (- max_read_size - 1 ≤ size < -1)%Z →
  read_blocks size data = Raise ValueError.
Proof.
  intros Hs. pose proof max_read_size_pos as Hmax.
  unfold read_blocks. cbn [read_loop]. unfold file_read.
  rewrite file_read_in_range by lia.
  by destruct (Z.ltb_spec size (-1)) as [_|]; [|lia].
Qed.

(** A byte count that does not fit is refused before anything is read. *)
Lemma read_blocks_overflow (size : Z) (data : list Byte.byte) :
  (max_read_size < size)%Z → read_blocks size data = Raise OverflowError.
Proof.
  intros Hs. unfold read_blocks. cbn [read_loop]. unfold file_read.
  destruct (Z.ltb_spec max_read_size size) as [_|]; [|lia].
  by rewrite orb_true_r.
Qed.

(** The loop equation [read_blocks] stands for. *)
Lemma read_blocks_unfold (size : Z) (data : list Byte.byte) :
  (0 ≤ size ≤ max_read_size)%Z →
  read_blocks size data =
  match take (Z.to_nat size) data with
  | [] => Ok []
  | chunk =>
      match read_blocks size (drop (Z.to_nat size) data) with
      | Ok more => Ok (chunk :: more)
      | Raise e => Raise e
      end
  end.
Proof.
  intros Hs. rewrite !read_blocks_eq by done.
  destruct data as [|b data].
  { by rewrite take_nil, blocks_of_nil. }
  destruct (Z.to_nat size) as [|s]; [done|].
  by rewrite blocks_of_cons by (done || lia).
Qed.

Lemma length_nth_block (s : nat) (data : list Byte.byte) (i : nat) :
  length (nth_block s data i) = min s (length data - i * s).
Proof. unfold nth_block. by rewrite length_take, length_drop. Qed.

Lemma length_nth_block_inner (s : nat) (data : list Byte.byte) (i : nat) :
  S i < ceil_div (length data) s → length (nth_block s data i) = s.
Proof.
  intros Hi. rewrite length_nth_block.
  destruct s as [|s]; [done|].
  pose proof (ceil_div_spec (length data) (S s) ltac:(lia)) as [H1 _].
  case_decide; nia.
Qed.

Lemma length_nth_block_last (s : nat) (data : list Byte.byte) (i : nat) :
  0 < s → S i = ceil_div (length data) s →
  length (nth_block s data i) =
  if decide (length data mod s = 0) then s else length data mod s.
Proof.
  intros Hs Hi. rewrite length_nth_block.
  pose proof (ceil_div_spec (length data) s Hs) as [H1 H2].
  rewrite <- Hi in *.
  pose proof (Nat.div_mod (length data) s ltac:(lia)) as E.
  pose proof (Nat.mod_upper_bound (length data) s ltac:(lia)) as B.
  assert (length data ≠ 0) as Hn.
  { intros E0. rewrite E0, ceil_div_0 in Hi. done. }
  destruct (decide (length data = 0)); [done|].
  replace (S i - 1) with i in H1 by lia.
  case_decide as Hm.
  - rewrite Hm in E. assert (length data `div` s = S i) by nia. nia.
  - assert (length data `div` s = i) by nia. nia.
Qed.

End BlockFacts.

(** * Running the [io] monad *)

Section IoFacts.
Context `{Platform}.

Lemma bind_ok {A B} (m : io A) (k : A → io B) w a w' :
  m w = (Ok a, w') → bind m k w = k a w'.
Proof. intros E. unfold bind. by rewrite E. Qed.

Lemma bind_raise {A B} (m : io A) (k : A → io B) w e w' :
  m w = (Raise e, w') → bind m k w = (Raise e, w').
Proof. intros E. unfold bind. by rewrite E. Qed.

Lemma open_read_ok p md m log data :
  m !! p = Some (File data) →
  open_read p md (World m log) = (Ok data, World m (log ++ [(p, md)])).
Proof. intros E. unfold open_read. simpl. by rewrite E. Qed.

Lemma open_write_ok p md m log :
  p ≠ "" → Py.endswith p "/" = false →
  m !! p ≠ Some Dir → parent_exists m p = true →
  open_write p md (World m log) =
  (Ok (), World (<[p := File []]> m) (log ++ [(p, md)])).
Proof.
  intros Hne Hend Hp Hd. unfold open_write. cbn [nodes opens].
  rewrite Hend, Hd. destruct p; [done|]. cbn [Py.is_empty].
  by destruct (m !! _) as [[]|].
Qed.

(** A path whose last character is not a separator names a file. *)
Lemma file_name_last (p : string) c :
  Py.last p = Some c → c ≠ "/"%char → p ≠ "" ∧ Py.endswith p "/" = false.
Proof.
  intros Hl Hc. split; [by intros ->|].
  destruct (Py.endswith p "/") eqn:E; [|done].
  apply (endswith_last _ _ "/"%char) in E; [congruence|done].
Qed.

Lemma file_name_no_sep (p : string) :
  Path.has_sep p = false → Py.endswith p "/" = false.
Proof.
  intros Hp. destruct (Py.endswith p "/") eqn:E; [|done].
  apply endswith_sep_has_sep in E. congruence.
Qed.

Lemma chunk_path_file_name folder base j :
  chunk_path folder base j ≠ "" ∧
  Py.endswith (chunk_path folder base j) "/" = false.
Proof.
  destruct (chunk_path_last folder base j) as (c & Hl & Hc).
  apply (file_name_last _ c); [done|]. by intros ->.
Qed.

Lemma meta_path_file_name (p : string) :
  Py.endswith p ".meta" = true → p ≠ "" ∧ Py.endswith p "/" = false.
Proof.
  intros E. apply (file_name_last _ "a"%char); [|done].
  by apply (endswith_last _ ".meta").
Qed.

Lemma file_write_ok p data m log old :
  m !! p = Some (File old) →
  file_write p data (World m log) =
  (Ok (), World (<[p := File (old ++ data)]> m) log).
Proof. intros E. unfold file_write. simpl. by rewrite E. Qed.

Lemma parent_exists_plain m folder name :
  folder ≠ "" → Path.has_sep folder = false → Path.has_sep name = false →
  m !! folder = Some Dir →
  parent_exists m (Path.join folder name) = true.
Proof.
  intros Hf Hs Hn Hd. unfold parent_exists.
  rewrite join_plain, dirname_plain by done. rewrite Hd. by rewrite orb_true_r.
Qed.

Lemma join_plain_ne_folder folder name :
  folder ≠ "" → Path.has_sep folder = false → Path.has_sep name = false →
  Path.join folder name ≠ folder.
Proof.
  intros Hf Hs Hn. rewrite join_plain by done.
  intros E%(f_equal String.length). rewrite str_length_app in E.
  simpl in E. lia.
Qed.

Lemma split_loop_ok folder base blocks i m log :
  folder ≠ "" → Path.has_sep folder = false → Path.has_sep base = false →
  m !! folder = Some Dir →
  (∀ j, m !! chunk_path folder base j ≠ Some Dir) →
  split_loop folder base blocks i (World m log) =
  (Ok (i + length blocks)%nat,
   World (chunks_written folder base blocks i m)
         (log ++ ((λ j, (chunk_path folder base j, Wb)) <$> seq i (length blocks)))).
Proof.
  intros Hf Hs Hb. revert i m log.
  induction blocks as [|chunk rest IH]; intros i m log Hd Hn.
  - simpl. unfold ret. by rewrite Nat.add_0_r, app_nil_r.
  - cbn [split_loop chunks_written length seq fmap list_fmap].
    fold (chunk_path folder base i).
    assert (Path.has_sep (chunk_name base i) = false) as Hc
      by by apply chunk_name_no_sep.
    destruct (chunk_path_file_name folder base i) as [Hne Hend].
    rewrite (bind_ok _ _ _ _ _ (open_write_ok _ _ _ _ Hne Hend (Hn _)
      (parent_exists_plain _ _ _ Hf Hs Hc Hd))).
    rewrite (bind_ok _ _ _ _ _ (file_write_ok _ chunk _ _ _
      (lookup_insert_eq _ _ _))).
    rewrite insert_insert_eq, app_nil_l.
    rewrite IH.
    + f_equal; [f_equal; lia|]. by rewrite <- app_assoc.
    + rewrite lookup_insert_ne; [done|]. by apply join_plain_ne_folder.
    + intros j. rewrite lookup_insert. case_decide; congruence.
Qed.

End IoFacts.

(** * What [split_file] does *)

Section SplitFacts.
Context `{Platform}.

Lemma os_path_exists_eq p m log :
  os_path_exists p (World m log) =
  (Ok (match m !! p with Some _ => true | None => false end), World m log).
Proof. done. Qed.

Lemma os_path_getsize_file p m log data :
  m !! p = Some (File data) →
  os_path_getsize p (World m log) = (Ok (Z.of_nat (length data)), World m log).
Proof. intros E. unfold os_path_getsize. simpl. by rewrite E. Qed.

Lemma os_makedirs_ok p m log :
  (∀ d, m !! p ≠ Some (File d)) →
  os_makedirs p (World m log) = (Ok (), World (<[p := Dir]> m) log).
Proof.
  intros Hp. unfold os_makedirs. simpl.
  destruct (m !! p) as [[d|]|] eqn:E; [by destruct (Hp d)| |done].
  by rewrite insert_id.
Qed.

Lemma block_size_fits : 0 ≤ 8192 ≤ max_read_size.
Proof. split; [lia|]. by vm_compute. Qed.

Lemma zero_size_fits : 0 * 1024 * 1024 ≤ max_read_size.
Proof. by vm_compute. Qed.

Lemma get_file_hash_ok p m log data :
  m !! p = Some (File data) →
  get_file_hash p (World m log) =
  (Ok (hexdigest data), World m (log ++ [(p, Rb)])).
Proof.
  intros E. unfold get_file_hash.
  rewrite (bind_ok _ _ _ _ _ (open_read_ok _ _ _ _ _ E)).
  unfold lift, bind, ret. rewrite read_blocks_eq by apply block_size_fits.
  by rewrite foldl_hash_update, concat_blocks_of by lia.
Qed.

Lemma chunks_written_other folder base blocks i m p :
  (∀ j, p ≠ chunk_path folder base j) →
  chunks_written folder base blocks i m !! p = m !! p.
Proof.
  intros Hp. revert i m. induction blocks as [|b bs IH]; intros i m; [done|].
  simpl. rewrite IH. by rewrite lookup_insert_ne.
Qed.

Lemma chunks_written_lookup folder base blocks i m j :
  (i ≤ j < i + length blocks)%nat →
  chunks_written folder base blocks i m !! chunk_path folder base j =
  File <$> blocks !! (j - i)%nat.
Proof.
  revert i m. induction blocks as [|b bs IH]; intros i m Hj; simpl in *; [lia|].
  destruct (decide (j = i)) as [->|Hne].
  - rewrite Nat.sub_diag. simpl.
    (* later chunks have other names *)
    assert (∀ bs' k m', (i < k)%nat →
      chunks_written folder base bs' k m' !! chunk_path folder base i =
      m' !! chunk_path folder base i) as Hlater.
    { induction bs' as [|b' bs' IH']; intros k m' Hk; [done|]. simpl.
      rewrite IH' by lia. rewrite lookup_insert_ne; [done|].
      intros E%chunk_path_inj. lia. }
    rewrite Hlater by lia. by rewrite lookup_insert_eq.
  - rewrite IH by lia. replace (j - i)%nat with (S (j - S i)) by lia. done.
Qed.

Lemma chunks_written_before folder base blocks i m j :
  (j < i)%nat →
  chunks_written folder base blocks i m !! chunk_path folder base j =
  m !! chunk_path folder base j.
Proof.
  revert i m. induction blocks as [|b bs IH]; intros i m Hj; [done|]. simpl.
  rewrite IH by lia. rewrite lookup_insert_ne; [done|].
  intros E%chunk_path_inj. lia.
Qed.

Lemma chunks_written_not_dir folder base blocks i m p :
  m !! p ≠ Some Dir → chunks_written folder base blocks i m !! p ≠ Some Dir.
Proof.
  revert i m. induction blocks as [|b bs IH]; intros i m Hp; [done|]. simpl.
  apply IH. rewrite lookup_insert. case_decide; congruence.
Qed.

Lemma meta_bytes base k n s h :
  ((((([] ++ bytes ("original_name=" +:+ base +:+ "
")) ++ bytes ("num_chunks=" +:+ Py.str k +:+ "
")) ++ bytes ("original_size=" +:+ Py.str n +:+ "
")) ++ bytes ("chunk_size=" +:+ Py.str s +:+ "
")) ++ bytes ("sha256=" +:+ h +:+ "
")) = bytes (meta_text base k n s h).
Proof.
  unfold meta_text, bytes. rewrite !bytes_app. rewrite app_nil_l.
  by rewrite <- !app_assoc.
Qed.

(** What a successful run of [split_file] does, in full. *)
Lemma split_file_spec filepath chunk_size_mb w content :
  0 ≤ chunk_size_mb →
  chunk_size_mb * 1024 * 1024 ≤ max_read_size →
  split_ready (nodes w) filepath content →
  let base_name := Path.basename filepath in
  let folder_name := base_name +:+ "_chunks" in
  let chunk_size := chunk_size_mb * 1024 * 1024 in
  let blocks := blocks_of (Z.to_nat chunk_size) content in
  let meta_filename := Path.join folder_name (base_name +:+ ".meta") in
  let digest := hexdigest content in
  split_file filepath chunk_size_mb w =
  (Ok (SplitComplete (length blocks) folder_name digest),
   World
     (<[meta_filename :=
          File (bytes (meta_text base_name (Z.of_nat (length blocks))
                         (Z.of_nat (length content)) chunk_size digest))]>
        (chunks_written folder_name base_name blocks 0
           (<[folder_name := Dir]> (nodes w))))
     (opens w ++ [(filepath, Rb); (filepath, Rb)] ++
      ((λ j, (chunk_path folder_name base_name j, Wb)) <$>
         seq 0 (length blocks)) ++
      [(meta_filename, Wt)])).
Proof.
  intros Hmb Hfit Hready base_name folder_name chunk_size blocks meta_filename
    digest.
  destruct w as [m log]. destruct Hready as (Hfile & Hfolder & Hnodir).
  cbn [nodes opens] in *. fold base_name in Hfolder, Hnodir.
  fold folder_name in Hfolder, Hnodir.
  assert (Path.has_sep base_name = false) as Hbase by apply basename_no_sep.
  assert (Path.has_sep folder_name = false) as Hfs.
  { unfold folder_name. by rewrite has_sep_app, Hbase. }
  assert (folder_name ≠ "") as Hfne.
  { unfold folder_name. intros E%(f_equal String.length).
    rewrite str_length_app in E. simpl in E. lia. }
  assert (folder_name ≠ filepath) as Hne.
  { intros E. apply (Hfolder content). by rewrite E. }
  set (m1 := <[folder_name := Dir]> m).
  assert (m1 !! filepath = Some (File content)) as Hfile1.
  { unfold m1. by rewrite lookup_insert_ne. }
  assert (m1 !! folder_name = Some Dir) as Hdir1 by apply lookup_insert_eq.
  assert (∀ j, m1 !! chunk_path folder_name base_name j ≠ Some Dir) as Hnodir1.
  { intros j. unfold m1.
    rewrite lookup_insert_ne; [by apply Hnodir, chunk_name_no_sep|].
    intros E. symmetry in E. revert E.
    by apply join_plain_ne_folder, chunk_name_no_sep. }
  assert (Path.has_sep (base_name +:+ ".meta") = false) as Hms.
  { by rewrite has_sep_app, Hbase. }
  assert (∀ j, meta_filename ≠ chunk_path folder_name base_name j) as Hmeta_ne.
  { intros j E. symmetry in E. revert E. apply chunk_path_not_meta.
    unfold meta_filename. rewrite join_plain by done.
    rewrite <- str_app_cons, <- str_app_assoc. by apply endswith_app. }
  unfold split_file. fold base_name folder_name chunk_size.
  rewrite (bind_ok _ _ _ _ _ (os_path_exists_eq _ _ _)). rewrite Hfile.
  cbn [negb].
  rewrite (bind_ok _ _ _ _ _ (os_path_getsize_file _ _ _ _ Hfile)).
  rewrite (bind_ok _ _ _ _ _ (os_makedirs_ok _ _ _ Hfolder)). fold m1.
  rewrite (bind_ok _ _ _ _ _ (get_file_hash_ok _ _ _ _ Hfile1)).
  rewrite (bind_ok _ _ _ _ _ (open_read_ok _ _ _ _ _ Hfile1)).
  unfold lift at 1. unfold bind at 1.
  rewrite read_blocks_eq by (unfold chunk_size; lia). fold blocks.
  rewrite (bind_ok _ _ _ _ _
    (split_loop_ok _ _ _ _ _ _ Hfne Hfs Hbase Hdir1 Hnodir1)).
  set (mc := chunks_written folder_name base_name blocks 0 m1).
  fold meta_filename.
  assert (mc !! meta_filename ≠ Some Dir) as Hmd.
  { unfold mc. apply chunks_written_not_dir. unfold m1.
    rewrite lookup_insert_ne; [by apply Hnodir|].
    intros E. symmetry in E. revert E.
    by apply join_plain_ne_folder. }
  assert (meta_filename ≠ "" ∧ Py.endswith meta_filename "/" = false)
    as [Hmne Hmend].
  { apply meta_path_file_name. unfold meta_filename.
    rewrite join_plain by done.
    rewrite <- str_app_cons, <- str_app_assoc. by apply endswith_app. }
  assert (parent_exists mc meta_filename = true) as Hpe.
  { apply parent_exists_plain; try done. unfold mc.
    rewrite chunks_written_other; [done|].
    intros j E. symmetry in E. revert E.
    by apply join_plain_ne_folder, chunk_name_no_sep. }
  rewrite (bind_ok _ _ _ _ _ (open_write_ok _ _ _ _ Hmne Hmend Hmd Hpe)).
  unfold file_write_text.
  do 5 (rewrite (bind_ok _ _ _ _ _ (file_write_ok _ _ _ _ _
          (lookup_insert_eq _ _ _))); rewrite insert_insert_eq).
  unfold ret. fold bytes. rewrite meta_bytes. fold digest.
  rewrite Nat.add_0_l. f_equal. f_equal.
  by rewrite <- !app_assoc.
Qed.
End SplitFacts.

(** * Properties of [split_file] *)

Section CeilFacts.

Lemma ceil_div_Z (n s : nat) :
  (0 < s)%nat →
  Z.of_nat (ceil_div n s) = (Z.of_nat n + Z.of_nat s - 1) / Z.of_nat s.
Proof.
  intros Hs. unfold ceil_div. rewrite Nat2Z.inj_div. f_equal. lia.
Qed.

Lemma ceil_div_is_ceil (n s : nat) :
  (0 < s)%nat → (0 < n)%nat →
  is_ceil (Z.of_nat n) (Z.of_nat s) (Z.of_nat (ceil_div n s)).
Proof.
  intros Hs Hn. pose proof (ceil_div_spec n s Hs) as [H1 H2].
  destruct (decide (n = 0)%nat); [lia|]. unfold is_ceil.
  assert (0 < ceil_div n s)%nat by nia. nia.
Qed.

(** [is_ceil] determines the quotient, and it is the usual formula. *)
Lemma is_ceil_formula (n s k : Z) :
  0 < s → is_ceil n s k → k = (n + s - 1) / s.
Proof.
  intros Hs [H1 H2]. apply (Z.div_unique_pos _ _ _ (n + s - 1 - k * s)); lia.
Qed.

Lemma is_ceil_zero_size (n k : Z) : 0 < n → ¬ is_ceil n 0 k.
Proof. intros Hn [_ H2]. lia. Qed.

End CeilFacts.

Section SplitClaims.
Context `{Platform}.

(** C4 (as amended). Chunk count: for a source of [n] bytes and a chunk size
    of [s = chunk_size_mb * 1024 * 1024 > 0] bytes that [f.read] accepts
    ([s <= max_read_size]), [split_file] opens exactly
    [ceil(n / s)] chunk files for writing, all different and all present
    afterwards, and records that number as [num_chunks]; for [n = 0] that is
    no chunk file and [num_chunks=0]. *)
Theorem chunk_count_correct filepath chunk_size_mb w content :
  0 < chunk_size_mb →
  chunk_size_mb * 1024 * 1024 ≤ max_read_size →
  split_ready (nodes w) filepath content →
  let n := Z.of_nat (length content) in
  let s := chunk_size_mb * 1024 * 1024 in
  let base_name := Path.basename filepath in
  let folder_name := base_name +:+ "_chunks" in
  let meta_filename := Path.join folder_name (base_name +:+ ".meta") in
  ∃ (k : nat) (digest : string) (w' : world),
    split_file filepath chunk_size_mb w =
      (Ok (SplitComplete k folder_name digest), w') ∧
    Z.of_nat k = (n + s - 1) / s ∧
    (0 < n → is_ceil n s (Z.of_nat k)) ∧
    (n = 0 → k = 0%nat) ∧
    opens w' =
      opens w ++ [(filepath, Rb); (filepath, Rb)] ++
      ((λ j, (chunk_path folder_name base_name j, Wb)) <$> seq 0 k) ++
      [(meta_filename, Wt)] ∧
    NoDup (chunk_path folder_name base_name <$> seq 0 k) ∧
    (∀ j, (j < k)%nat →
       ∃ data, nodes w' !! chunk_path folder_name base_name j =
               Some (File data)) ∧
    nodes w' !! meta_filename =
      Some (File (bytes (meta_text base_name (Z.of_nat k) n s digest))).
Proof.
  intros Hmb Hfit Hready n s base_name folder_name meta_filename.
  pose proof (split_file_spec filepath chunk_size_mb w content
                ltac:(lia) Hfit Hready) as Hspec.
  cbv zeta in Hspec. fold base_name folder_name s meta_filename in Hspec.
  set (blocks := blocks_of (Z.to_nat s) content) in *.
  assert (length blocks = ceil_div (length content) (Z.to_nat s)) as Hk
    by apply length_blocks_of.
  assert (0 < Z.to_nat s)%nat as Hs by (unfold s; lia).
  eexists _, _, _. split; [exact Hspec|]. cbn [nodes opens].
  split_and!.
  - rewrite Hk, ceil_div_Z by done. unfold n. f_equal; lia.
  - intros Hn. rewrite Hk.
    replace s with (Z.of_nat (Z.to_nat s)) at 1 by lia.
    apply ceil_div_is_ceil; lia.
  - intros Hn. rewrite Hk.
    replace (length content) with 0%nat by lia. apply ceil_div_0.
  - done.
  - apply NoDup_fmap_2; [|apply NoDup_seq].
    intros i j. apply chunk_path_inj.
  - intros j Hj. rewrite lookup_insert_ne.
    + rewrite chunks_written_lookup by lia.
      destruct (lookup_lt_is_Some_2 blocks (j - 0)) as [b ->]; [lia|].
      by eexists.
    + intros E. symmetry in E. revert E. apply chunk_path_not_meta.
      destruct (join_suffix folder_name (base_name +:+ ".meta")) as [pre E].
      unfold meta_filename. rewrite E, <- str_app_assoc.
      by apply endswith_app.
  - by rewrite lookup_insert_eq.
Qed.


Lemma length_concat_sum (l : list (list Byte.byte)) :
  length (concat l) = sum_list (length <$> l).
Proof.
  induction l as [|x l IH]; [done|]. simpl. by rewrite length_app, IH.
Qed.

(** C5 (as amended). Chunk sizes: after [split_file] with a chunk size of
    [s = chunk_size_mb * 1024 * 1024 > 0] bytes that [f.read] accepts
    ([s <= max_read_size]) on a source of [n] bytes,
    every chunk file but the last holds exactly [s] bytes, the last holds
    [n mod s] bytes (or [s] when [s] divides [n]), and the lengths add up to
    [n] (the chunks are the consecutive slices of the source). *)
Theorem chunk_size_shape filepath chunk_size_mb w content :
  0 < chunk_size_mb →
  chunk_size_mb * 1024 * 1024 ≤ max_read_size →
  split_ready (nodes w) filepath content →
  let n := Z.of_nat (length content) in
  let s := chunk_size_mb * 1024 * 1024 in
  let base_name := Path.basename filepath in
  let folder_name := base_name +:+ "_chunks" in
  ∃ (chunks : list (list Byte.byte)) (digest : string) (w' : world),
    split_file filepath chunk_size_mb w =
      (Ok (SplitComplete (length chunks) folder_name digest), w') ∧
    (∀ j c, chunks !! j = Some c →
       nodes w' !! chunk_path folder_name base_name j = Some (File c)) ∧
    (∀ j c, chunks !! j = Some c → (S j < length chunks)%nat →
       Z.of_nat (length c) = s) ∧
    (∀ c, last chunks = Some c →
       Z.of_nat (length c) = if decide (n mod s = 0) then s else n mod s) ∧
    Z.of_nat (sum_list (length <$> chunks)) = n ∧
    concat chunks = content.
Proof.
  intros Hmb Hfit Hready n s base_name folder_name.
  pose proof (split_file_spec filepath chunk_size_mb w content
                ltac:(lia) Hfit Hready) as Hspec.
  cbv zeta in Hspec. fold base_name folder_name s in Hspec.
  set (blocks := blocks_of (Z.to_nat s) content) in *.
  assert (length blocks = ceil_div (length content) (Z.to_nat s)) as Hk
    by apply length_blocks_of.
  assert (0 < Z.to_nat s)%nat as Hs by (unfold s; lia).
  assert (∀ j c, blocks !! j = Some c →
            (j < length blocks)%nat ∧ c = nth_block (Z.to_nat s) content j)
    as Hblock.
  { intros j c Hj. pose proof (lookup_lt_Some _ _ _ Hj) as Hlt.
    split; [done|]. unfold blocks in Hj.
    rewrite lookup_blocks_of in Hj by lia. congruence. }
  exists blocks. eexists _, _. split; [exact Hspec|]. cbn [nodes].
  split_and!.
  - intros j c Hj. destruct (Hblock j c Hj) as [Hlt _].
    rewrite lookup_insert_ne.
    + rewrite chunks_written_lookup by lia.
      by rewrite Nat.sub_0_r, Hj.
    + intros E. symmetry in E. revert E. apply chunk_path_not_meta.
      destruct (join_suffix folder_name (base_name +:+ ".meta")) as [pre E].
      rewrite E, <- str_app_assoc. by apply endswith_app.
  - intros j c Hj Hlt. destruct (Hblock j c Hj) as [_ ->].
    rewrite length_nth_block_inner by lia. lia.
  - intros c Hc. rewrite last_lookup in Hc.
    destruct (Hblock _ c Hc) as [Hlt ->].
    rewrite length_nth_block_last by lia.
    assert (n mod s = Z.of_nat (length content mod Z.to_nat s)) as Hmod.
    { rewrite Nat2Z.inj_mod. unfold n. f_equal. lia. }
    repeat case_decide; lia.
  - rewrite <- length_concat_sum. unfold blocks.
    by rewrite concat_blocks_of.
  - by apply concat_blocks_of.
Qed.

Lemma read_lines_kv (k v rest : string) :
  Py.one_line k = true → Py.one_line v = true →
  Py.lines (Py.universal_newlines ((k +:+ v +:+ "
") +:+ rest)) =
  (k +:+ v) :: Py.lines (Py.universal_newlines rest).
Proof.
  intros Hk Hv. rewrite !str_app_assoc, <- (str_app_assoc k v).
  change ("
" +:+ rest) with (String "010" rest).
  apply read_lines_line. by rewrite one_line_app, Hk, Hv.
Qed.

(** C8 (as amended). Canonical metadata: for a chunk size of
    [chunk_size_mb * 1024 * 1024 >= 0] bytes that [f.read] accepts (at most
    [max_read_size]), the metadata file written by [split_file] holds the five strings [key=value] and a line feed each, in
    the order [original_name], [num_chunks], [original_size], [chunk_size],
    [sha256], with the base file name, the number of chunks written, the size
    of the source, the chunk size in bytes and the digest of the source; when
    the base file name holds no line break, these are exactly the five lines
    read back from it. *)
Theorem metadata_canonical filepath chunk_size_mb w content :
  0 ≤ chunk_size_mb →
  chunk_size_mb * 1024 * 1024 ≤ max_read_size →
  split_ready (nodes w) filepath content →
  let base_name := Path.basename filepath in
  let folder_name := base_name +:+ "_chunks" in
  let meta_filename := Path.join folder_name (base_name +:+ ".meta") in
  let chunk_size := chunk_size_mb * 1024 * 1024 in
  let file_size := Z.of_nat (length content) in
  let digest := hexdigest content in
  ∃ (chunk_num : nat) (w' : world),
    split_file filepath chunk_size_mb w =
      (Ok (SplitComplete chunk_num folder_name digest), w') ∧
    let text :=
      ("original_name=" +:+ base_name +:+ "
") +:+
      ("num_chunks=" +:+ Py.str (Z.of_nat chunk_num) +:+ "
") +:+
      ("original_size=" +:+ Py.str file_size +:+ "
") +:+
      ("chunk_size=" +:+ Py.str chunk_size +:+ "
") +:+
      ("sha256=" +:+ digest +:+ "
") in
    nodes w' !! meta_filename = Some (File (String.list_byte_of_string text)) ∧
    (Py.one_line base_name = true →
     Py.lines (Py.universal_newlines text) =
       [ "original_name=" +:+ base_name;
         "num_chunks=" +:+ Py.str (Z.of_nat chunk_num);
         "original_size=" +:+ Py.str file_size;
         "chunk_size=" +:+ Py.str chunk_size;
         "sha256=" +:+ digest ]).
Proof.
  intros Hmb Hfit Hready base_name folder_name meta_filename chunk_size
    file_size digest.
  pose proof (split_file_spec filepath chunk_size_mb w content Hmb Hfit Hready)
    as Hspec.
  cbv zeta in Hspec.
  eexists _, _. split; [exact Hspec|]. cbn [nodes]. split.
  - by rewrite lookup_insert_eq.
  - intros Hbase.
    assert (∀ z, 0 ≤ z → Py.one_line (Py.str z) = true) as Hnum.
    { intros z Hz. eapply all_chars_impl; [apply is_digit_one_line|].
      by apply str_all_digits. }
    rewrite <- (str_app_nil_r ("sha256=" +:+ digest +:+ _)).
    rewrite !read_lines_kv; first [done | apply Hnum; lia | apply hexlify_one_line].
Qed.

(** C10. A chunk size of [0]: [split_file] returns, opens no chunk file, and
    records [num_chunks=0] next to [original_size=n] and [chunk_size=0]; for
    [n > 0] no number of chunks is the ceiling of [n / 0], so the record
    breaks the invariant on [num_chunks]. *)
Theorem split_chunk_size_zero filepath w content :
  split_ready (nodes w) filepath content →
  let n := Z.of_nat (length content) in
  let base_name := Path.basename filepath in
  let folder_name := base_name +:+ "_chunks" in
  let meta_filename := Path.join folder_name (base_name +:+ ".meta") in
  ∃ (digest : string),
    split_file filepath 0 w =
      (Ok (SplitComplete 0 folder_name digest),
       World (<[meta_filename :=
                  File (bytes (meta_text base_name 0 n 0 digest))]>
                (<[folder_name := Dir]> (nodes w)))
             (opens w ++ [(filepath, Rb); (filepath, Rb); (meta_filename, Wt)])) ∧
    (0 < n → ¬ is_ceil n 0 0).
Proof.
  intros Hready n base_name folder_name meta_filename.
  pose proof (split_file_spec filepath 0 w content ltac:(lia) zero_size_fits
                Hready) as Hspec.
  cbv zeta in Hspec. eexists. split; [exact Hspec|].
  apply is_ceil_zero_size.
Qed.

End SplitClaims.

(** * What [join_files] does *)

Section JoinFacts.
Context `{Platform}.

Lemma missing_chunks_eq folder name idxs m log :
  missing_chunks folder name idxs (World m log) =
  (Ok (filter (λ p, m !! p = None) (chunk_path folder name <$> idxs)),
   World m log).
Proof.
  induction idxs as [|i idxs IH]; [done|].
  cbn [missing_chunks fmap list_fmap]. fold (chunk_path folder name i).
  rewrite (bind_ok _ _ _ _ _ (os_path_exists_eq _ _ _)).
  rewrite (bind_ok _ _ _ _ _ IH). unfold ret.
  rewrite filter_cons. destruct (m !! chunk_path folder name i) eqn:E.
  - by rewrite decide_False.
  - by rewrite decide_True.
Qed.

Lemma join_loop_ok folder name output chunks i m log acc :
  m !! output = Some (File acc) →
  (∀ j, output ≠ chunk_path folder name j) →
  (∀ j c, chunks !! j = Some c →
          m !! chunk_path folder name (i + j) = Some (File c)) →
  join_loop folder name output (seq i (length chunks)) (World m log) =
  (Ok (),
   World (<[output := File (acc ++ concat chunks)]> m)
         (log ++ ((λ j, (chunk_path folder name j, Rb)) <$>
                    seq i (length chunks)))).
Proof.
  intros Hout Hne. revert i m log acc Hout.
  induction chunks as [|c chunks IH]; intros i m log acc Hout Hchunks.
  - simpl. unfold ret. rewrite !app_nil_r. by rewrite insert_id.
  - cbn [length seq join_loop fmap list_fmap concat].
    fold (chunk_path folder name i).
    assert (m !! chunk_path folder name i = Some (File c)) as Hc.
    { specialize (Hchunks 0%nat c eq_refl). by rewrite Nat.add_0_r in Hchunks. }
    rewrite (bind_ok _ _ _ _ _ (open_read_ok _ _ _ _ _ Hc)).
    rewrite (bind_ok _ _ _ _ _ (file_write_ok _ _ _ _ _ Hout)).
    rewrite (IH (S i) _ _ (acc ++ c)).
    + rewrite insert_insert_eq. by rewrite <- !app_assoc.
    + apply lookup_insert_eq.
    + intros j c' Hj. rewrite lookup_insert_ne by apply Hne.
      specialize (Hchunks (S j) c' Hj).
      by replace (S i + j)%nat with (i + S j)%nat by lia.
Qed.

Lemma output_name_for_not_chunk m folder name j :
  output_name_for m name ≠ chunk_path folder name j.
Proof.
  unfold output_name_for. intros E. symmetry in E. revert E.
  destruct (m !! name); [apply chunk_path_not_rebuilt|apply chunk_path_not_name].
Qed.

(** The second half of a join whose chunk files are all there. *)
Lemma rebuild_ok folder name k size h m log chunks :
  length chunks = Z.to_nat k →
  chunks_at m folder name chunks →
  let output := output_name_for m name in
  creatable m output →
  rebuild folder name k size h (World m log) =
  (Ok (verdict output (concat chunks) size h),
   World (<[output := File (concat chunks)]> m)
         (log ++ [(output, Wb)] ++
          ((λ j, (chunk_path folder name j, Rb)) <$> seq 0 (length chunks)) ++
          (if Z.of_nat (length (concat chunks)) =? size
           then [(output, Rb)] else []))).
Proof.
  intros Hlen Hchunks output (Hone & Hoend & Hnd & Hpe). unfold rebuild.
  rewrite (bind_ok _ _ _ _ _ (missing_chunks_eq _ _ _ _ _)).
  assert (filter (λ p, m !! p = None)
            (chunk_path folder name <$> range k) = []) as ->.
  { apply elem_of_nil_inv. intros p [Hp Hin]%list_elem_of_filter.
    apply list_elem_of_fmap in Hin as [i [-> Hi]].
    unfold range in Hi. apply elem_of_seq in Hi.
    destruct (lookup_lt_is_Some_2 chunks i) as [c Hc]; [lia|].
    by rewrite (Hchunks i c Hc) in Hp. }
  rewrite (bind_ok _ _ _ _ _ (os_path_exists_eq _ _ _)).
  assert ((if match m !! name with Some _ => true | None => false end
           then "rebuilt_" +:+ name else name) = output) as ->.
  { unfold output, output_name_for. by destruct (m !! name). }
  rewrite (bind_ok _ _ _ _ _ (open_write_ok _ _ _ _ Hone Hoend Hnd Hpe)).
  unfold range. rewrite <- Hlen.
  assert (∀ j c, chunks !! j = Some c →
            <[output := File []]> m !! chunk_path folder name (0 + j) =
            Some (File c)) as Hchunks'.
  { intros j c Hc. rewrite lookup_insert_ne.
    - by apply Hchunks.
    - apply output_name_for_not_chunk. }
  rewrite (bind_ok _ _ _ _ _ (join_loop_ok folder name output chunks 0 _ _ []
             (lookup_insert_eq _ _ _)
             (output_name_for_not_chunk m folder name) Hchunks')).
  rewrite insert_insert_eq, app_nil_l.
  rewrite (bind_ok _ _ _ _ _ (os_path_getsize_file _ _ _ _
             (lookup_insert_eq _ _ _))).
  unfold verdict.
  destruct (Z.of_nat (length (concat chunks)) =? size).
  - rewrite (bind_ok _ _ _ _ _ (get_file_hash_ok _ _ _ _
               (lookup_insert_eq _ _ _))).
    destruct (String.eqb _ h); unfold ret; by rewrite <- !app_assoc.
  - unfold ret. by rewrite app_nil_r, <- !app_assoc.
Qed.

Lemma rebuild_missing folder name k size h m log i :
  (i < Z.to_nat k)%nat → m !! chunk_path folder name i = None →
  rebuild folder name k size h (World m log) =
  (Ok (JoinMissingChunks
         (filter (λ p, m !! p = None) (chunk_path folder name <$> range k))),
   World m log).
Proof.
  intros Hi Hmiss. unfold rebuild.
  rewrite (bind_ok _ _ _ _ _ (missing_chunks_eq _ _ _ _ _)).
  destruct (filter _ _) as [|p ps] eqn:E; [|done].
  assert (chunk_path folder name i ∈ filter (λ p, m !! p = None)
            (chunk_path folder name <$> range k)) as Hin.
  { apply list_elem_of_filter. split; [done|].
    apply list_elem_of_fmap. exists i. split; [done|].
    unfold range. apply elem_of_seq. lia. }
  rewrite E in Hin. by apply elem_of_nil in Hin.
Qed.

(** The first half of [join_files]: it reads the metadata file and hands its
    fields to [rebuild], or stops at the exception the decoding raises. *)
Lemma join_files_decode folder w meta_filename meta :
  metadata_at (nodes w) folder meta_filename meta →
  join_files folder w =
  let w1 := World (nodes w) (opens w ++ [(meta_filename, Rt)]) in
  match decode_metadata (String.string_of_list_byte meta) with
  | Ok (name, k, size, h) => rebuild folder name k size h w1
  | Raise e => (Raise e, w1)
  end.
Proof.
  intros (Hdir & (first & Hfirst & ->) & Hfile). destruct w as [m log].
  cbn [nodes opens] in *. unfold join_files.
  unfold os_path_isdir, os_listdir. unfold bind at 1. cbn [nodes].
  rewrite Hdir. cbn [negb]. unfold bind at 1. cbn [nodes]. rewrite Hdir.
  destruct (filter _ _) as [|f fs]; [done|]. injection Hfirst as ->.
  rewrite (bind_ok _ _ _ _ _ (open_read_ok _ _ _ _ _ Hfile)).
  unfold lift, bind at 1.
  by destruct (decode_metadata _) as [[[[??]?]?]|].
Qed.

End JoinFacts.

(** * Properties of [join_files] *)

Section JoinClaims.
Context `{Platform}.

(** C3. Missing chunks: when the metadata says [num_chunks = k] and one of
    the chunk files [<original_name>.part<i>], [0 <= i < k], is not in the
    chunk folder, [join_files] stops with the list of all the missing chunk
    files; it has opened nothing but the metadata file and the file system
    is as it was: no output file exists or was opened. *)
Theorem missing_chunk_detection folder w meta_filename meta name k size h :
  metadata_at (nodes w) folder meta_filename meta →
  decode_metadata (String.string_of_list_byte meta) = Ok (name, k, size, h) →
  (∃ i, Z.of_nat i < k ∧ nodes w !! chunk_path folder name i = None) →
  ∃ missing,
    join_files folder w =
      (Ok (JoinMissingChunks missing),
       World (nodes w) (opens w ++ [(meta_filename, Rt)])) ∧
    (∀ p, p ∈ missing ↔
          ∃ i, Z.of_nat i < k ∧ p = chunk_path folder name i ∧
               nodes w !! p = None).
Proof.
  intros Hmeta Hdec (i & Hi & Hmiss).
  rewrite (join_files_decode _ _ _ _ Hmeta), Hdec. cbv zeta.
  rewrite (rebuild_missing _ _ _ _ _ _ _ i) by (done || lia).
  eexists. split; [done|]. intros p.
  rewrite list_elem_of_filter, list_elem_of_fmap. unfold range. split.
  - intros (Hp & j & -> & Hj%elem_of_seq). exists j. split_and!; [lia|done..].
  - intros (j & Hj & -> & Hp). split; [done|]. exists j. split; [done|].
    apply elem_of_seq. lia.
Qed.

(** C6. Size mismatch: when the bytes put together from the chunk files are
    not [original_size] long, [join_files] reports the size mismatch; the
    output file stays, holding those bytes, and it is never opened for
    reading, so no hash of it is computed. *)
Theorem size_mismatch_soft_failure folder w meta_filename meta name k size h
    chunks :
  metadata_at (nodes w) folder meta_filename meta →
  decode_metadata (String.string_of_list_byte meta) = Ok (name, k, size, h) →
  length chunks = Z.to_nat k →
  chunks_at (nodes w) folder name chunks →
  let output_name := output_name_for (nodes w) name in
  let rebuilt := concat chunks in
  writable (nodes w) output_name →
  Z.of_nat (length rebuilt) ≠ size →
  ∃ w',
    join_files folder w =
      (Ok (JoinSizeMismatch output_name size (Z.of_nat (length rebuilt))), w') ∧
    nodes w' !! output_name = Some (File rebuilt) ∧
    opens w' =
      opens w ++ [(meta_filename, Rt); (output_name, Wb)] ++
      ((λ j, (chunk_path folder name j, Rb)) <$> seq 0 (length chunks)) ∧
    (output_name, Rb) ∉ drop (length (opens w)) (opens w').
Proof.
  intros Hmeta Hdec Hlen Hchunks output_name rebuilt Hw Hsize.
  rewrite (join_files_decode _ _ _ _ Hmeta), Hdec. cbv zeta.
  rewrite (rebuild_ok _ _ _ _ _ _ _ chunks Hlen Hchunks (proj2 Hw)).
  fold output_name rebuilt. unfold verdict. fold rebuilt.
  destruct (Z.eqb_spec (Z.of_nat (length rebuilt)) size) as [|_]; [done|].
  eexists. split; [done|]. cbn [nodes opens]. split_and!.
  - apply lookup_insert_eq.
  - by rewrite app_nil_r, <- !app_assoc.
  - rewrite app_nil_r, <- !app_assoc, drop_app_length.
    intros [E|[E|Hin]%elem_of_cons]%elem_of_cons; [done..|].
    apply list_elem_of_fmap in Hin as (j & [= E] & _).
    by apply (output_name_for_not_chunk (nodes w) folder name j).
Qed.

(** C7. Collision avoidance: when something named [original_name] already
    exists where [join_files] runs, the output is written to
    [rebuilt_<original_name>], and what was at [original_name] is left as it
    was. *)
Theorem collision_avoidance folder w meta_filename meta name k size h chunks :
  metadata_at (nodes w) folder meta_filename meta →
  decode_metadata (String.string_of_list_byte meta) = Ok (name, k, size, h) →
  length chunks = Z.to_nat k →
  chunks_at (nodes w) folder name chunks →
  is_Some (nodes w !! name) →
  writable (nodes w) ("rebuilt_" +:+ name) →
  ∃ outcome w',
    join_files folder w = (Ok outcome, w') ∧
    outcome_output outcome = Some ("rebuilt_" +:+ name) ∧
    nodes w' !! ("rebuilt_" +:+ name) = Some (File (concat chunks)) ∧
    nodes w' !! name = nodes w !! name ∧
    (name, Wb) ∉ drop (length (opens w)) (opens w').
Proof.
  intros Hmeta Hdec Hlen Hchunks [x Hx] Hw.
  assert (output_name_for (nodes w) name = "rebuilt_" +:+ name) as Hout.
  { unfold output_name_for. by rewrite Hx. }
  rewrite <- Hout in Hw.
  rewrite (join_files_decode _ _ _ _ Hmeta), Hdec. cbv zeta.
  rewrite (rebuild_ok _ _ _ _ _ _ _ chunks Hlen Hchunks (proj2 Hw)). rewrite Hout.
  eexists _, _. split; [done|]. cbn [nodes opens]. split_and!.
  - unfold verdict. by repeat case_match.
  - apply lookup_insert_eq.
  - rewrite lookup_insert_ne; [done|]. apply rebuilt_not_name.
  - rewrite <- !app_assoc, drop_app_length.
    intros [E|[E|Hin]%elem_of_cons]%elem_of_cons; [done| |].
    + injection E as E. symmetry in E. by apply rebuilt_not_name in E.
    + apply elem_of_app in Hin as [Hin|Hin].
      * by apply list_elem_of_fmap in Hin as (j & [= E] & _).
      * destruct (_ =? _); [|by apply elem_of_nil in Hin].
        by apply list_elem_of_singleton in Hin.
Qed.


Lemma read_metadata_bad_line ls acc line :
  line ∈ ls → Py.split1 "=" (Py.strip line) = None →
  read_metadata ls acc = Raise ValueError.
Proof.
  intros Hin Hbad. revert acc.
  induction ls as [|l ls IH]; intros acc; [by apply elem_of_nil in Hin|].
  simpl. apply elem_of_cons in Hin as [<-|Hin]; [by rewrite Hbad|].
  destruct (Py.split1 "=" (Py.strip l)) as [[key value]|]; [|done].
  by apply IH.
Qed.

Lemma read_metadata_raises ls acc e :
  read_metadata ls acc = Raise e → e = ValueError.
Proof.
  revert acc. induction ls as [|l ls IH]; intros acc; [done|]. simpl.
  destruct (Py.split1 "=" (Py.strip l)) as [[key value]|]; [apply IH|congruence].
Qed.

Lemma read_metadata_absent ls acc metadata key :
  read_metadata ls acc = Ok metadata →
  (∀ line kv, line ∈ ls → Py.split1 "=" (Py.strip line) = Some kv →
              kv.1 ≠ key) →
  acc !! key = None → metadata !! key = None.
Proof.
  revert acc. induction ls as [|l ls IH]; intros acc Hread Hkeys Hacc.
  - simpl in Hread. congruence.
  - simpl in Hread.
    destruct (Py.split1 "=" (Py.strip l)) as [[k v]|] eqn:E; [|done].
    apply (IH _ Hread).
    + intros line kv Hin. apply Hkeys. by right.
    + rewrite lookup_insert_ne; [done|].
      apply (Hkeys l (k, v)); [by left|done].
Qed.

(** What a decoded record was read from; a failed decoding is a format
    error. *)
Lemma decode_metadata_inv text :
  match decode_metadata text with
  | Ok (name, k, size, h) =>
      ∃ metadata ks sizes,
        read_metadata (Py.lines (Py.universal_newlines text)) ∅ = Ok metadata ∧
        metadata !! "original_name" = Some name ∧
        metadata !! "num_chunks" = Some ks ∧ Py.int ks = Some k ∧
        metadata !! "original_size" = Some sizes ∧ Py.int sizes = Some size ∧
        metadata !! "sha256" = Some h
  | Raise e => format_error e
  end.
Proof.
  unfold decode_metadata.
  destruct (read_metadata _ ∅) as [metadata|e] eqn:Hread; cbn [rbind].
  2:{ by rewrite (read_metadata_raises _ _ _ Hread). }
  unfold getitem, int_of.
  destruct (metadata !! "original_name") as [name|] eqn:H1; cbn [rbind]; [|done].
  destruct (metadata !! "num_chunks") as [ks|] eqn:H2; cbn [rbind]; [|done].
  destruct (Py.int ks) as [k|] eqn:H3; cbn [rbind]; [|done].
  destruct (metadata !! "original_size") as [sizes|] eqn:H4; cbn [rbind]; [|done].
  destruct (Py.int sizes) as [size|] eqn:H5; cbn [rbind]; [|done].
  destruct (metadata !! "sha256") as [h|] eqn:H6; cbn [rbind]; [|done].
  by exists metadata, ks, sizes.
Qed.

(** C2 (as amended). Decoding an ASCII metadata text raises a format error
    whenever the text has a line without [=], or has no line for one of the
    keys [original_name], [num_chunks], [original_size], [sha256], or gives
    [num_chunks] or [original_size] a value that [int] does not accept (one
    that is not an optional sign and decimal digits, single underscores
    between digits allowed, inside the white space [int] skips);
    [join_files] then stops with that exception, having opened the metadata
    file only and changed nothing. *)
Theorem metadata_decode_failure folder w meta_filename meta :
  metadata_at (nodes w) folder meta_filename meta →
  let text := String.string_of_list_byte meta in
  let ls := Py.lines (Py.universal_newlines text) in
  Py.all_chars is_ascii text = true →
  (∃ line, line ∈ ls ∧ Py.split1 "=" (Py.strip line) = None) ∨
  (∃ key, key ∈ ["original_name"; "num_chunks"; "original_size"; "sha256"] ∧
          ∀ line kv, line ∈ ls → Py.split1 "=" (Py.strip line) = Some kv →
                     kv.1 ≠ key) ∨
  (∃ key metadata value,
     key ∈ ["num_chunks"; "original_size"] ∧
     read_metadata ls ∅ = Ok metadata ∧
     metadata !! key = Some value ∧ Py.int value = None) →
  ∃ e, format_error e ∧
       decode_metadata text = Raise e ∧
       join_files folder w =
         (Raise e, World (nodes w) (opens w ++ [(meta_filename, Rt)])).
Proof.
  intros Hmeta text ls _ Hbad.
  pose proof (decode_metadata_inv text) as Hinv. fold ls in Hinv.
  destruct (decode_metadata text) as [[[[name k] size] h]|e] eqn:Hdec.
  - exfalso.
    destruct Hinv as (metadata & ks & sizes & Hread & H1 & H2 & H3 & H4 & H5 & H6).
    destruct Hbad as [(line & Hin & Hl)|[(key & Hkey & Hl)|Hbad]].
    + by rewrite (read_metadata_bad_line _ _ _ Hin Hl) in Hread.
    + pose proof (read_metadata_absent _ _ _ key Hread Hl (lookup_empty _))
        as Hnone.
      repeat (apply elem_of_cons in Hkey as [->|Hkey]; [congruence|]).
      by apply elem_of_nil in Hkey.
    + destruct Hbad as (key & metadata' & value & Hkey & Hread' & Hv & Hi).
      assert (metadata' = metadata) as -> by congruence.
      repeat (apply elem_of_cons in Hkey as [->|Hkey]; [congruence|]).
      by apply elem_of_nil in Hkey.
  - exists e. split_and!; [done..|].
    rewrite (join_files_decode _ _ _ _ Hmeta). fold text. by rewrite Hdec.
Qed.

End JoinClaims.

(** * [join_files] and the [chunk_size] field *)

Section Independence.
Context `{Platform}.

Lemma same_but_kind p m1 m2 q :
  same_but p m1 m2 →
  match m1 !! q, m2 !! q with
  | Some (File _), Some (File _) | Some Dir, Some Dir | None, None => True
  | _, _ => False
  end.
Proof.
  intros [Hoff (d1 & d2 & H1 & H2)]. destruct (decide (q = p)) as [->|Hne].
  - by rewrite H1, H2.
  - rewrite (Hoff q Hne). by destruct (m2 !! q) as [[]|].
Qed.

Lemma same_but_insert p m1 m2 q x :
  same_but p m1 m2 → x ≠ Dir →
  same_but p (<[q := x]> m1) (<[q := x]> m2).
Proof.
  intros [Hoff (d1 & d2 & H1 & H2)] Hx. split.
  - intros r Hr. rewrite !lookup_insert. case_decide; [done|by apply Hoff].
  - destruct (decide (q = p)) as [->|Hne].
    + destruct x as [d|]; [|done]. exists d, d. by rewrite !lookup_insert_eq.
    + exists d1, d2. by rewrite !lookup_insert_ne.
Qed.

Lemma parent_exists_same p m1 m2 q :
  same_but p m1 m2 → parent_exists m1 q = parent_exists m2 q.
Proof.
  intros Hs. unfold parent_exists. f_equal.
  pose proof (same_but_kind p m1 m2 (Path.dirname q) Hs) as Hk.
  by destruct (m1 !! Path.dirname q) as [[]|], (m2 !! Path.dirname q) as [[]|].
Qed.

Lemma missing_same p m1 m2 folder name (idxs : list nat) :
  same_but p m1 m2 →
  filter (λ q, m1 !! q = None) (chunk_path folder name <$> idxs) =
  filter (λ q, m2 !! q = None) (chunk_path folder name <$> idxs).
Proof.
  intros Hs. apply list_filter_iff. intros q.
  pose proof (same_but_kind p m1 m2 q Hs) as Hk.
  by destruct (m1 !! q) as [[]|], (m2 !! q) as [[]|].
Qed.

Lemma bind_eq {A B} (m : io A) (k : A → io B) w :
  bind m k w =
  match m w with
  | (Ok a, w') => k a w'
  | (Raise e, w') => (Raise e, w')
  end.
Proof. done. Qed.

Lemma open_read_eq q md m log :
  open_read q md (World m log) =
  (match m !! q with
   | Some (File data) => Ok data
   | Some Dir => Raise IsADirectoryError
   | None => Raise FileNotFoundError
   end, World m (log ++ [(q, md)])).
Proof. unfold open_read. cbn [nodes opens]. by destruct (m !! q) as [[]|]. Qed.

Lemma file_write_eq q data m log :
  file_write q data (World m log) =
  match m !! q with
  | Some (File old) => (Ok (), World (<[q := File (old ++ data)]> m) log)
  | _ => (Raise ValueError, World m log)
  end.
Proof. done. Qed.

Lemma open_write_eq q md m log :
  open_write q md (World m log) =
  if Py.is_empty q
  then (Raise FileNotFoundError, World m (log ++ [(q, md)]))
  else if Py.endswith q "/"
  then (Raise IsADirectoryError, World m (log ++ [(q, md)]))
  else
  match m !! q with
  | Some Dir => (Raise IsADirectoryError, World m (log ++ [(q, md)]))
  | _ =>
      if parent_exists m q
      then (Ok (), World (<[q := File []]> m) (log ++ [(q, md)]))
      else (Raise FileNotFoundError, World m (log ++ [(q, md)]))
  end.
Proof. done. Qed.

Lemma os_path_getsize_eq q m log :
  os_path_getsize q (World m log) =
  (match m !! q with
   | Some (File data) => Ok (Z.of_nat (length data))
   | Some Dir => Ok (dir_size q)
   | None => Raise FileNotFoundError
   end, World m log).
Proof. unfold os_path_getsize. cbn [nodes]. by destruct (m !! q) as [[]|]. Qed.

(** [get_file_hash] looks at nothing but the file it is given. *)
Lemma get_file_hash_eq q (m : gmap string node) (log : list (string * mode)) :
  ∃ r, ∀ m' log', m' !! q = m !! q →
    get_file_hash q (World m' log') = (r, World m' (log' ++ [(q, Rb)])).
Proof.
  unfold get_file_hash.
  destruct (m !! q) as [[data|]|] eqn:E.
  - destruct (read_blocks 8192 data) as [blocks|e] eqn:Eb.
    + eexists. intros m' log' Hq. rewrite bind_eq, open_read_eq, Hq.
      unfold lift, bind, ret. by rewrite Eb.
    + eexists. intros m' log' Hq. rewrite bind_eq, open_read_eq, Hq.
      unfold lift, bind, ret. by rewrite Eb.
  - eexists. intros m' log' Hq. by rewrite bind_eq, open_read_eq, Hq.
  - eexists. intros m' log' Hq. by rewrite bind_eq, open_read_eq, Hq.
Qed.

(** The copying loop on two such file systems: same result, and the output
    file holds the same in both afterwards. *)
Lemma join_loop_same p folder name out idxs m1 m2 l1 l2 :
  same_but p m1 m2 → m1 !! out = m2 !! out →
  (∀ j, chunk_path folder name j ≠ p) →
  ∃ r m1' m2' l1' l2',
    join_loop folder name out idxs (World m1 l1) = (r, World m1' l1') ∧
    join_loop folder name out idxs (World m2 l2) = (r, World m2' l2') ∧
    same_but p m1' m2' ∧ m1' !! out = m2' !! out ∧
    (∀ q, q ≠ out → m1' !! q = m1 !! q ∧ m2' !! q = m2 !! q).
Proof.
  intros Hs Hout Hne. revert m1 m2 l1 l2 Hs Hout.
  induction idxs as [|i idxs IH]; intros m1 m2 l1 l2 Hs Hout.
  - by exists (Ok ()), m1, m2, l1, l2.
  - cbn [join_loop]. fold (chunk_path folder name i).
    assert (m1 !! chunk_path folder name i = m2 !! chunk_path folder name i)
      as Hc by apply Hs, Hne.
    rewrite !bind_eq, !open_read_eq, <- Hc.
    destruct (m1 !! chunk_path folder name i) as [[data|]|] eqn:E.
    2,3: (eexists _, m1, m2, _, _; split_and!; (done || congruence)).
    rewrite !bind_eq, !file_write_eq, <- Hout.
    destruct (m1 !! out) as [[old|]|] eqn:Eo.
    2,3: (eexists _, m1, m2, _, _; split_and!; (done || congruence)).
    destruct (IH (<[out := File (old ++ data)]> m1)
                 (<[out := File (old ++ data)]> m2)
                 (l1 ++ [(chunk_path folder name i, Rb)])
                 (l2 ++ [(chunk_path folder name i, Rb)]))
      as (r & m1' & m2' & l1' & l2' & H1 & H2 & Hs' & Hout' & Hfr).
    { by apply same_but_insert. }
    { by rewrite !lookup_insert_eq. }
    exists r, m1', m2', l1', l2'. split_and!; [done..|].
    intros q Hq. destruct (Hfr q Hq) as [-> ->].
    by rewrite !lookup_insert_ne.
Qed.

(** The second half of [join_files] on two such file systems, when [p] is
    not a chunk file: same result, and afterwards every path holds the same
    in both, or is [p], untouched. *)
Lemma rebuild_same p folder name k size h m1 m2 l1 l2 :
  same_but p m1 m2 →
  (∀ j, chunk_path folder name j ≠ p) →
  ∃ r w1' w2',
    rebuild folder name k size h (World m1 l1) = (r, w1') ∧
    rebuild folder name k size h (World m2 l2) = (r, w2') ∧
    (∀ q, nodes w1' !! q = nodes w2' !! q ∨
          (q = p ∧ nodes w1' !! p = m1 !! p ∧ nodes w2' !! p = m2 !! p)).
Proof.
  intros Hs Hne.
  assert (∀ l1' l2' q, nodes (World m1 l1') !! q = nodes (World m2 l2') !! q ∨
         (q = p ∧ nodes (World m1 l1') !! p = m1 !! p ∧
          nodes (World m2 l2') !! p = m2 !! p)) as Hsame0.
  { intros l1' l2' q. destruct (decide (q = p)) as [->|Hq]; [by right|].
    left. by apply Hs. }
  unfold rebuild.
  rewrite !(bind_ok _ _ _ _ _ (missing_chunks_eq _ _ _ _ _)).
  rewrite <- (missing_same p m1 m2) by done.
  destruct (filter _ _) as [|x xs].
  2:{ eexists _, _, _. split_and!; [done..|]. apply Hsame0. }
  rewrite !(bind_ok _ _ _ _ _ (os_path_exists_eq _ _ _)).
  assert (match m2 !! name with Some _ => true | None => false end =
          match m1 !! name with Some _ => true | None => false end) as ->.
  { pose proof (same_but_kind p m1 m2 name Hs).
    by destruct (m1 !! name) as [[]|], (m2 !! name) as [[]|]. }
  set (out := if match m1 !! name with Some _ => true | None => false end
              then "rebuilt_" +:+ name else name).
  rewrite !bind_eq, !open_write_eq.
  destruct (Py.is_empty out).
  { eexists _, _, _. split_and!; [done..|]. apply Hsame0. }
  destruct (Py.endswith out "/").
  { eexists _, _, _. split_and!; [done..|]. apply Hsame0. }
  rewrite <- (parent_exists_same p m1 m2 out Hs).
  assert (∃ b : bool,
            (if b then True else m1 !! out ≠ Some Dir ∧ m2 !! out ≠ Some Dir) ∧
            match m1 !! out with
            | Some Dir => (Raise IsADirectoryError, World m1 (l1 ++ [(out, Wb)]))
            | _ => if parent_exists m1 out
                   then (Ok (), World (<[out:=File []]> m1) (l1 ++ [(out, Wb)]))
                   else (Raise FileNotFoundError, World m1 (l1 ++ [(out, Wb)]))
            end =
            (if b then (Raise IsADirectoryError, World m1 (l1 ++ [(out, Wb)]))
             else if parent_exists m1 out
                  then (Ok (), World (<[out:=File []]> m1) (l1 ++ [(out, Wb)]))
                  else (Raise FileNotFoundError, World m1 (l1 ++ [(out, Wb)]))) ∧
            match m2 !! out with
            | Some Dir => (Raise IsADirectoryError, World m2 (l2 ++ [(out, Wb)]))
            | _ => if parent_exists m1 out
                   then (Ok (), World (<[out:=File []]> m2) (l2 ++ [(out, Wb)]))
                   else (Raise FileNotFoundError, World m2 (l2 ++ [(out, Wb)]))
            end =
            (if b then (Raise IsADirectoryError, World m2 (l2 ++ [(out, Wb)]))
             else if parent_exists m1 out
                  then (Ok (), World (<[out:=File []]> m2) (l2 ++ [(out, Wb)]))
                  else (Raise FileNotFoundError, World m2 (l2 ++ [(out, Wb)]))))
    as (b & _ & -> & ->).
  { pose proof (same_but_kind p m1 m2 out Hs) as Hk.
    destruct (m1 !! out) as [[]|], (m2 !! out) as [[]|]; try done;
      first [by exists true | by exists false]. }
  destruct b.
  { eexists _, _, _. split_and!; [done..|]. apply Hsame0. }
  destruct (parent_exists m1 out).
  2:{ eexists _, _, _. split_and!; [done..|]. apply Hsame0. }
  destruct (join_loop_same p folder name out (range k)
              (<[out := File []]> m1) (<[out := File []]> m2)
              (l1 ++ [(out, Wb)]) (l2 ++ [(out, Wb)]))
    as (r & m1' & m2' & l1' & l2' & H1 & H2 & Hs' & Hout' & Hfr);
    [by apply same_but_insert|by rewrite !lookup_insert_eq|done|].
  assert (∀ l1'' l2'' q,
    nodes (World m1' l1'') !! q = nodes (World m2' l2'') !! q ∨
    (q = p ∧ nodes (World m1' l1'') !! p = m1 !! p ∧
     nodes (World m2' l2'') !! p = m2 !! p)) as Hsame1.
  { intros l1'' l2'' q. cbn [nodes].
    destruct (decide (q = p)) as [->|Hq]; [|left; by apply Hs'].
    destruct (decide (p = out)) as [->|Hpo]; [by left|].
    right. destruct (Hfr p Hpo) as [-> ->]. by rewrite !lookup_insert_ne. }
  rewrite !bind_eq, H1, H2.
  destruct r as [[]|e];
    [|eexists _, _, _; split_and!; [done..|]; apply Hsame1].
  rewrite !bind_eq, !os_path_getsize_eq, <- Hout'.
  destruct (match m1' !! out with
            | Some (File data) => Ok (Z.of_nat (length data))
            | Some Dir => Ok (dir_size out)
            | None => Raise FileNotFoundError
            end) as [rebuilt_size|e];
    [|eexists _, _, _; split_and!; [done..|]; apply Hsame1].
  destruct (rebuilt_size =? size);
    [|eexists _, _, _; split_and!; [done..|]; apply Hsame1].
  destruct (get_file_hash_eq out m1' l1') as [rh Hrh].
  rewrite !bind_eq, (Hrh m1' l1' eq_refl), (Hrh m2' l2' (eq_sym Hout')).
  destruct rh as [rebuilt_hash|e];
    [|eexists _, _, _; split_and!; [done..|]; apply Hsame1].
  destruct (String.eqb rebuilt_hash h);
    eexists _, _, _; (split_and!; [done..|]; apply Hsame1).
Qed.


Lemma read_metadata_app ls1 ls2 acc :
  read_metadata (ls1 ++ ls2) acc =
  rbind (read_metadata ls1 acc) (read_metadata ls2).
Proof.
  revert acc. induction ls1 as [|l ls1 IH]; intros acc; [done|]. simpl.
  destruct (Py.split1 "=" (Py.strip l)) as [[key value]|]; [apply IH|done].
Qed.

Lemma read_metadata_same_off (K : string) ls acc1 acc2 :
  (∀ key, key ≠ K → acc1 !! key = acc2 !! key) →
  match read_metadata ls acc1, read_metadata ls acc2 with
  | Ok d1, Ok d2 => ∀ key, key ≠ K → d1 !! key = d2 !! key
  | Raise e1, Raise e2 => e1 = e2
  | _, _ => False
  end.
Proof.
  revert acc1 acc2. induction ls as [|l ls IH]; intros acc1 acc2 Hacc; [done|].
  simpl. destruct (Py.split1 "=" (Py.strip l)) as [[key value]|]; [|done].
  apply IH. intros k Hk. rewrite !lookup_insert. case_decide; [done|by apply Hacc].
Qed.

Lemma chunk_size_line (v : string) :
  Py.split1 "=" (Py.strip ("chunk_size=" +:+ v)) =
  Some ("chunk_size", Py.rstrip v).
Proof.
  change ("chunk_size=" +:+ v)
    with (String "c" "hunk_size" +:+ String "=" v).
  rewrite strip_key_value by done. by apply split1_app.
Qed.

(** The decoded record does not depend on the value of the [chunk_size]
    line. *)
Lemma decode_metadata_chunk_size text1 text2 before after v1 v2 :
  Py.lines (Py.universal_newlines text1) =
    before ++ ["chunk_size=" +:+ v1] ++ after →
  Py.lines (Py.universal_newlines text2) =
    before ++ ["chunk_size=" +:+ v2] ++ after →
  decode_metadata text1 = decode_metadata text2.
Proof.
  intros H1 H2. unfold decode_metadata. rewrite H1, H2, !read_metadata_app.
  destruct (read_metadata before ∅) as [d|e]; [|done]. cbn [rbind].
  cbn [app read_metadata]. rewrite !chunk_size_line.
  pose proof (read_metadata_same_off "chunk_size" after
                (<["chunk_size" := Py.rstrip v1]> d)
                (<["chunk_size" := Py.rstrip v2]> d)) as Hoff.
  destruct (read_metadata after (<["chunk_size" := Py.rstrip v1]> d))
    as [d1|e1],
    (read_metadata after (<["chunk_size" := Py.rstrip v2]> d)) as [d2|e2];
    cbn [rbind].
  - assert (∀ key, key ≠ "chunk_size" → d1 !! key = d2 !! key) as Hd.
    { apply Hoff. intros key Hk. by rewrite !lookup_insert_ne. }
    unfold getitem. by rewrite !Hd.
  - exfalso. apply Hoff. intros key Hk. by rewrite !lookup_insert_ne.
  - exfalso. apply Hoff. intros key Hk. by rewrite !lookup_insert_ne.
  - f_equal. apply Hoff. intros key Hk. by rewrite !lookup_insert_ne.
Qed.

Lemma metadata_at_endswith m folder meta_filename meta :
  metadata_at m folder meta_filename meta →
  Py.endswith meta_filename ".meta" = true.
Proof.
  intros (_ & (first & Hfirst & ->) & _).
  assert (first ∈ filter (λ f, Py.endswith f ".meta" = true)
            (listdir_order (entries folder m))) as Hin.
  { destruct (filter _ _) as [|x xs]; [done|].
    injection Hfirst as ->. by left. }
  apply list_elem_of_filter in Hin as [Hend _].
  destruct (join_suffix folder first) as [pre ->]. by apply endswith_app.
Qed.

(** C9. [join_files] does not depend on the [chunk_size] field: on two file
    systems that are the same except for the value on the [chunk_size] line
    of the metadata file, it gives the same result (outcome or exception),
    and afterwards every path holds the same in both, the output file
    included, or is the metadata file, left as it was. *)
Theorem chunk_size_not_read folder w1 w2 meta_filename meta1 meta2
    before after v1 v2 :
  metadata_at (nodes w1) folder meta_filename meta1 →
  metadata_at (nodes w2) folder meta_filename meta2 →
  (∀ q, q ≠ meta_filename → nodes w1 !! q = nodes w2 !! q) →
  Py.lines (Py.universal_newlines (String.string_of_list_byte meta1)) =
    before ++ ["chunk_size=" +:+ v1] ++ after →
  Py.lines (Py.universal_newlines (String.string_of_list_byte meta2)) =
    before ++ ["chunk_size=" +:+ v2] ++ after →
  ∃ r w1' w2',
    join_files folder w1 = (r, w1') ∧
    join_files folder w2 = (r, w2') ∧
    (∀ q, nodes w1' !! q = nodes w2' !! q ∨
          (q = meta_filename ∧
           nodes w1' !! q = nodes w1 !! q ∧ nodes w2' !! q = nodes w2 !! q)).
Proof.
  intros Hm1 Hm2 Hoff Hl1 Hl2.
  rewrite (join_files_decode _ _ _ _ Hm1), (join_files_decode _ _ _ _ Hm2).
  rewrite <- (decode_metadata_chunk_size _ _ _ _ _ _ Hl1 Hl2). cbv zeta.
  assert (same_but meta_filename (nodes w1) (nodes w2)) as Hs.
  { split; [done|]. exists meta1, meta2.
    by destruct Hm1 as (_ & _ & ->), Hm2 as (_ & _ & ->). }
  destruct (decode_metadata _) as [[[[name k] size] h]|e].
  - destruct (rebuild_same meta_filename folder name k size h
                (nodes w1) (nodes w2)
                (opens w1 ++ [(meta_filename, Rt)])
                (opens w2 ++ [(meta_filename, Rt)]) Hs)
      as (r & w1' & w2' & H1 & H2 & Hq).
    { intros j. apply chunk_path_not_meta.
      by eapply metadata_at_endswith. }
    exists r, w1', w2'. split_and!; [done..|].
    intros q. destruct (Hq q) as [?|(-> & ? & ?)]; [by left|by right].
  - eexists _, _, _. split_and!; [done..|]. intros q. cbn [nodes].
    destruct (decide (q = meta_filename)) as [->|Hne]; [by right|].
    left. by apply Hoff.
Qed.

End Independence.

(** * The model at work *)

Section Examples.
  #[local] Existing Instance demo_platform.

(** The file system [demo_source] is ready for a split of [docs/a.bin]. *)
Lemma demo_source_ready :
  split_ready (nodes (world0 demo_source)) "docs/a.bin" (bytes "hello world").
Proof.
  split_and!.
  - reflexivity.
  - intros d. vm_compute. discriminate.
  - intros name _ Hl. cbn [nodes world0] in Hl. unfold demo_source in Hl.
    apply lookup_singleton_Some in Hl as [_ Hl]. discriminate.
Qed.

(** In [demo_chunk_set text], [join_files] finds the metadata [d/x.meta]. *)
Lemma demo_metadata_at text :
  metadata_at (nodes (world0 (demo_chunk_set text))) "d" "d/x.meta" (bytes text).
Proof.
  split_and!; [reflexivity| |reflexivity].
  exists "x.meta". split; reflexivity.
Qed.

(** The same when a file named [x] is already there. *)
Lemma demo_metadata_at_busy text :
  metadata_at (nodes (world0 (<["x" := File (bytes "old")]> (demo_chunk_set text))))
    "d" "d/x.meta" (bytes text).
Proof.
  split_and!; [reflexivity| |reflexivity].
  exists "x.meta". split; reflexivity.
Qed.

(** The one chunk of [x] in the folder [d]. *)
Lemma demo_chunks_at m :
  m !! "d/x.part000" = Some (File (bytes "hi")) →
  chunks_at m "d" "x" [bytes "hi"].
Proof. intros Hm [|i] c Hc; [|done]. by injection Hc as <-. Qed.

(** The source [docs/a.bin] of eleven bytes, split with chunks of one
    megabyte, gives one chunk. *)
Lemma chunk_count_correct_witness :
  0 < 1 ∧
  1 * 1024 * 1024 ≤ max_read_size ∧
  split_ready (nodes (world0 demo_source)) "docs/a.bin" (bytes "hello world") ∧
  ∃ digest w',
    split_file "docs/a.bin" 1 (world0 demo_source) =
      (Ok (SplitComplete 1 "a.bin_chunks" digest), w') ∧
    opens w' =
      [("docs/a.bin", Rb); ("docs/a.bin", Rb);
       ("a.bin_chunks/a.bin.part000", Wb); ("a.bin_chunks/a.bin.meta", Wt)] ∧
    nodes w' !! "a.bin_chunks/a.bin.meta" =
      Some (File (bytes (meta_text "a.bin" 1 11 1048576 digest))).
Proof.
  assert (1 * 1024 * 1024 ≤ max_read_size) as Hfit
    by (vm_compute; discriminate).
  split; [lia|]. split; [exact Hfit|]. split; [exact demo_source_ready|].
  destruct (chunk_count_correct "docs/a.bin" 1 (world0 demo_source)
              (bytes "hello world") ltac:(lia) Hfit demo_source_ready)
    as (k & digest & w' & Hrun & Hk & _ & _ & Hopens & _ & _ & Hmeta).
  assert (k = 1%nat) as -> by (change (Z.of_nat k = 1) in Hk; lia).
  exists digest, w'. split_and!; [exact Hrun|exact Hopens|exact Hmeta].
Defined.

(** The one chunk of that split holds the eleven bytes of the source. *)
Lemma chunk_size_shape_witness :
  0 < 1 ∧
  1 * 1024 * 1024 ≤ max_read_size ∧
  split_ready (nodes (world0 demo_source)) "docs/a.bin" (bytes "hello world") ∧
  ∃ chunks digest w',
    split_file "docs/a.bin" 1 (world0 demo_source) =
      (Ok (SplitComplete (length chunks) "a.bin_chunks" digest), w') ∧
    (∀ c, last chunks = Some c → Z.of_nat (length c) = 11) ∧
    Z.of_nat (sum_list (length <$> chunks)) = 11 ∧
    concat chunks = bytes "hello world".
Proof.
  assert (1 * 1024 * 1024 ≤ max_read_size) as Hfit
    by (vm_compute; discriminate).
  split; [lia|]. split; [exact Hfit|]. split; [exact demo_source_ready|].
  destruct (chunk_size_shape "docs/a.bin" 1 (world0 demo_source)
              (bytes "hello world") ltac:(lia) Hfit demo_source_ready)
    as (chunks & digest & w' & Hrun & _ & _ & Hlast & Hsum & Hcat).
  exists chunks, digest, w'.
  split_and!; [exact Hrun|exact Hlast|exact Hsum|exact Hcat].
Defined.

(** The metadata text of that split. *)
Lemma metadata_canonical_witness :
  0 ≤ 1 ∧
  1 * 1024 * 1024 ≤ max_read_size ∧
  split_ready (nodes (world0 demo_source)) "docs/a.bin" (bytes "hello world") ∧
  ∃ chunk_num w',
    split_file "docs/a.bin" 1 (world0 demo_source) =
      (Ok (SplitComplete chunk_num "a.bin_chunks" "6865"), w') ∧
    nodes w' !! "a.bin_chunks/a.bin.meta" =
      Some (File (bytes
        (("original_name=a.bin" +:+ "
") +:+
         ("num_chunks=" +:+ Py.str (Z.of_nat chunk_num) +:+ "
") +:+
         ("original_size=11" +:+ "
") +:+
         ("chunk_size=1048576" +:+ "
") +:+
         ("sha256=6865" +:+ "
")))).
Proof.
  assert (1 * 1024 * 1024 ≤ max_read_size) as Hfit
    by (vm_compute; discriminate).
  split; [lia|]. split; [exact Hfit|]. split; [exact demo_source_ready|].
  destruct (metadata_canonical "docs/a.bin" 1 (world0 demo_source)
              (bytes "hello world") ltac:(lia) Hfit demo_source_ready)
    as (chunk_num & w' & Hrun & Htext & _).
  exists chunk_num, w'. split; [exact Hrun|exact Htext].
Defined.

(** The same source split with a chunk size of [0]: no chunk, and a record
    that says [num_chunks=0] for eleven bytes. *)
Lemma split_chunk_size_zero_witness :
  split_ready (nodes (world0 demo_source)) "docs/a.bin" (bytes "hello world") ∧
  ∃ digest,
    split_file "docs/a.bin" 0 (world0 demo_source) =
      (Ok (SplitComplete 0 "a.bin_chunks" digest),
       World (<["a.bin_chunks/a.bin.meta" :=
                  File (bytes (meta_text "a.bin" 0 11 0 digest))]>
                (<["a.bin_chunks" := Dir]> demo_source))
             [("docs/a.bin", Rb); ("docs/a.bin", Rb);
              ("a.bin_chunks/a.bin.meta", Wt)]) ∧
    ¬ is_ceil 11 0 0.
Proof.
  split; [exact demo_source_ready|].
  destruct (split_chunk_size_zero "docs/a.bin" (world0 demo_source)
              (bytes "hello world") demo_source_ready)
    as (digest & Hrun & Hceil).
  exists digest. split; [exact Hrun|]. apply Hceil. reflexivity.
Defined.

(** Metadata that announces two chunks where only [d/x.part000] exists:
    [d/x.part001] is reported, [d/x.part000] is not. *)
Lemma missing_chunk_detection_witness :
  ∃ missing,
    join_files "d" (world0 (demo_chunk_set demo_meta_two_chunks)) =
      (Ok (JoinMissingChunks missing),
       World (demo_chunk_set demo_meta_two_chunks) [("d/x.meta", Rt)]) ∧
    "d/x.part001" ∈ missing ∧ "d/x.part000" ∉ missing.
Proof.
  destruct (missing_chunk_detection "d"
              (world0 (demo_chunk_set demo_meta_two_chunks)) "d/x.meta"
              (bytes demo_meta_two_chunks) "x" 2 4 "6869"
              (demo_metadata_at _) eq_refl
              (ex_intro _ 1%nat (conj eq_refl eq_refl)))
    as (missing & Hrun & Hmissing).
  exists missing. split; [exact Hrun|]. split.
  - apply Hmissing. exists 1%nat. split_and!; reflexivity.
  - intros (i & _ & _ & Hnone)%Hmissing. discriminate.
Defined.

(** Metadata that announces five bytes where the chunk holds two: the size
    mismatch is reported, [x] holds the two bytes and is never read. *)
Lemma size_mismatch_soft_failure_witness :
  ∃ w',
    join_files "d" (world0 (demo_chunk_set demo_meta_wrong_size)) =
      (Ok (JoinSizeMismatch "x" 5 2), w') ∧
    nodes w' !! "x" = Some (File (bytes "hi")) ∧
    opens w' = [("d/x.meta", Rt); ("x", Wb); ("d/x.part000", Rb)].
Proof.
  pose (w := world0 (demo_chunk_set demo_meta_wrong_size)).
  assert (decode_metadata (String.string_of_list_byte (bytes demo_meta_wrong_size))
          = Ok ("x", 1, 5, "6869")) as Hdec by (vm_compute; reflexivity).
  assert (chunks_at (nodes w) "d" "x" [bytes "hi"]) as Hchunks
    by (apply demo_chunks_at; vm_compute; reflexivity).
  assert (output_name_for (nodes w) "x" = "x") as Hname
    by (vm_compute; reflexivity).
  assert (writable (nodes w) (output_name_for (nodes w) "x")) as Hw.
  { rewrite Hname.
    unfold writable, creatable.
    split_and!; [reflexivity|discriminate|reflexivity|
                 vm_compute; discriminate|vm_compute; reflexivity]. }
  assert (Z.of_nat (length (concat [bytes "hi"])) ≠ 5) as Hsize
    by (vm_compute; discriminate).
  pose proof (size_mismatch_soft_failure "d" w "d/x.meta"
                (bytes demo_meta_wrong_size) "x" 1 5 "6869" [bytes "hi"]
                (demo_metadata_at _) Hdec eq_refl Hchunks Hw Hsize) as H.
  cbv zeta in H. rewrite Hname in H.
  destruct H as (w' & Hrun & Hout & Hopens & _).
  exists w'. split_and!; [exact Hrun|exact Hout|exact Hopens].
Defined.

(** A join next to an existing [x]: the output is [rebuilt_x] and [x] keeps
    its three bytes. *)
Lemma collision_avoidance_witness :
  ∃ outcome w',
    join_files "d"
      (world0 (<["x" := File (bytes "old")]> (demo_chunk_set demo_meta))) =
      (Ok outcome, w') ∧
    outcome_output outcome = Some "rebuilt_x" ∧
    nodes w' !! "rebuilt_x" = Some (File (bytes "hi")) ∧
    nodes w' !! "x" = Some (File (bytes "old")).
Proof.
  pose (w := world0 (<["x" := File (bytes "old")]> (demo_chunk_set demo_meta))).
  assert (decode_metadata (String.string_of_list_byte (bytes demo_meta))
          = Ok ("x", 1, 2, "6869")) as Hdec by (vm_compute; reflexivity).
  assert (chunks_at (nodes w) "d" "x" [bytes "hi"]) as Hchunks
    by (apply demo_chunks_at; vm_compute; reflexivity).
  assert (is_Some (nodes w !! "x")) as Hbusy
    by (exists (File (bytes "old")); vm_compute; reflexivity).
  assert (writable (nodes w) ("rebuilt_" +:+ "x")) as Hw
    by (unfold writable, creatable;
        split_and!; [reflexivity|discriminate|reflexivity|
                     vm_compute; discriminate|vm_compute; reflexivity]).
  destruct (collision_avoidance "d" w "d/x.meta" (bytes demo_meta) "x" 1 2
              "6869" [bytes "hi"] (demo_metadata_at_busy _) Hdec eq_refl
              Hchunks Hbusy Hw)
    as (outcome & w' & Hrun & Hout & Hnew & Hold & _).
  exists outcome, w'. split_and!; [exact Hrun|exact Hout|exact Hnew|].
  rewrite Hold. vm_compute. reflexivity.
Defined.

(** Metadata whose second line is [num_chunks], without [=]. *)
Lemma metadata_decode_failure_witness :
  ∃ e, format_error e ∧
       decode_metadata (String.string_of_list_byte (bytes demo_meta_bad_line)) =
         Raise e ∧
       join_files "d" (world0 (demo_chunk_set demo_meta_bad_line)) =
         (Raise e,
          World (nodes (world0 (demo_chunk_set demo_meta_bad_line)))
            (opens (world0 (demo_chunk_set demo_meta_bad_line)) ++
             [("d/x.meta", Rt)])).
Proof.
  apply (metadata_decode_failure "d"
           (world0 (demo_chunk_set demo_meta_bad_line)) "d/x.meta"
           (bytes demo_meta_bad_line) (demo_metadata_at _));
    [vm_compute; reflexivity|].
  left. exists "num_chunks". split; [|vm_compute; reflexivity].
  vm_compute. apply elem_of_cons. right. apply elem_of_cons. by left.
Defined.

(** Two chunk folders whose metadata differ in [chunk_size] only
    ([1048576] and [7]): same result, same output. *)
Lemma chunk_size_not_read_witness :
  ∃ r w1' w2',
    join_files "d" (world0 (demo_chunk_set demo_meta)) = (r, w1') ∧
    join_files "d" (world0 (demo_chunk_set demo_meta_other_chunk_size)) =
      (r, w2') ∧
    nodes w1' !! "x" = nodes w2' !! "x".
Proof.
  pose (w1 := world0 (demo_chunk_set demo_meta)).
  pose (w2 := world0 (demo_chunk_set demo_meta_other_chunk_size)).
  assert (∀ q, q ≠ "d/x.meta" → nodes w1 !! q = nodes w2 !! q) as Hsame.
  { intros q Hq. cbn [nodes world0 w1 w2]. unfold demo_chunk_set.
    destruct (decide (q = "d")) as [->|Hd]; [reflexivity|].
    by rewrite !(lookup_insert_ne _ "d" q), !(lookup_insert_ne _ "d/x.meta" q). }
  assert (Py.lines (Py.universal_newlines
                      (String.string_of_list_byte (bytes demo_meta))) =
          ["original_name=x"; "num_chunks=1"; "original_size=2"] ++
          ["chunk_size=" +:+ "1048576"] ++ ["sha256=6869"]) as Hl1
    by (vm_compute; reflexivity).
  assert (Py.lines (Py.universal_newlines
                      (String.string_of_list_byte
                         (bytes demo_meta_other_chunk_size))) =
          ["original_name=x"; "num_chunks=1"; "original_size=2"] ++
          ["chunk_size=" +:+ "7"] ++ ["sha256=6869"]) as Hl2
    by (vm_compute; reflexivity).
  destruct (chunk_size_not_read "d" w1 w2 "d/x.meta" (bytes demo_meta)
              (bytes demo_meta_other_chunk_size) _ _ _ _
              (demo_metadata_at _) (demo_metadata_at _) Hsame Hl1 Hl2)
    as (r & w1' & w2' & Hrun1 & Hrun2 & Hout).
  exists r, w1', w2'. split_and!; [exact Hrun1|exact Hrun2|].
  destruct (Hout "x") as [E|[E _]]; [exact E|discriminate].
Defined.

(** C1 does not hold of the code: a source file named [a ] (the letter and
    a space) is split into [a _chunks/a .part000] and a metadata line
    [original_name=a ]; [join_files] strips that line, takes the name to be
    [a], looks for [a _chunks/a.part000], reports it missing and writes no
    output file at all. *)
Theorem round_trip_fails_on_trailing_space :
  ∃ w',
    split_then_join "a " 1 (world0 demo_spaced_source) =
      (Ok (Some (JoinMissingChunks ["a _chunks/a.part000"])), w') ∧
    nodes w' !! "a _chunks/a .part000" = Some (File (bytes "hello world")) ∧
    nodes w' !! "a" = None ∧
    (∀ p, (p, Wb) ∈ opens w' → p = "a _chunks/a .part000").
Proof.
  eexists. split; [vm_compute; reflexivity|]. split_and!.
  - vm_compute. reflexivity.
  - vm_compute. reflexivity.
  - intros p Hp. cbn [opens] in Hp.
    repeat (apply elem_of_cons in Hp as [Hp|Hp]; [by injection Hp|]).
    by apply elem_of_nil in Hp.
Qed.

(** Against C2 as stated: metadata with no [chunk_size] line is decoded, no
    exception is raised and the join goes on to read the chunk and write the
    output [x]; so it is with [num_chunks=-1], where the output is written
    empty.  (What the join then reports depends on the digest; the facts
    stated here do not.) *)
Lemma decode_accepts_missing_chunk_size_and_negative :
  decode_metadata demo_meta_no_chunk_size = Ok ("x", 1, 2, "6869") ∧
  (∃ outcome w',
     join_files "d" (world0 (demo_chunk_set demo_meta_no_chunk_size)) =
       (Ok outcome, w') ∧
     outcome_output outcome = Some "x" ∧
     nodes w' !! "x" = Some (File (bytes "hi")) ∧
     ("d/x.part000", Rb) ∈ opens w') ∧
  decode_metadata demo_meta_negative = Ok ("x", -1, 0, "") ∧
  (∃ outcome w',
     join_files "d" (world0 (demo_chunk_set demo_meta_negative)) =
       (Ok outcome, w') ∧
     outcome_output outcome = Some "x" ∧
     nodes w' !! "x" = Some (File [])).
Proof.
  split_and!.
  - vm_compute. reflexivity.
  - eexists _, _. split; [vm_compute; reflexivity|].
    split_and!; [reflexivity|vm_compute; reflexivity|].
    cbn [opens]. do 2 (apply elem_of_cons; right). apply elem_of_cons. by left.
  - vm_compute. reflexivity.
  - eexists _, _. split; [vm_compute; reflexivity|].
    split; [reflexivity|vm_compute; reflexivity].
Qed.

(** Against C4 as stated: with a chunk size of [2^43] megabytes, that is
    [2^63] bytes, one more than [f.read] takes, [split_file] raises
    [OverflowError] at its first read: the chunk folder is there, but not
    the one chunk that [ceil(11 / 2^63) = 1] announces, and no metadata
    records a number of chunks. *)
Lemma chunk_count_fails_beyond_read_size :
  0 < 2 ^ 43 ∧
  split_ready (nodes (world0 demo_source)) "docs/a.bin" (bytes "hello world") ∧
  split_file "docs/a.bin" (2 ^ 43) (world0 demo_source) =
    (Raise OverflowError,
     World (<["a.bin_chunks" := Dir]> demo_source)
           [("docs/a.bin", Rb); ("docs/a.bin", Rb)]) ∧
  (<["a.bin_chunks" := Dir]> demo_source) !! "a.bin_chunks/a.bin.meta" = None.
Proof.
  split_and!; [reflexivity|exact demo_source_ready|vm_compute; reflexivity|
               vm_compute; reflexivity].
Qed.

(** Against C5 as stated: with a chunk size of [2^44] megabytes no chunk
    file is written at all, so the chunk files do not add up to the eleven
    bytes of the source. *)
Lemma chunk_sizes_fail_beyond_read_size :
  0 < 2 ^ 44 ∧
  split_ready (nodes (world0 demo_source)) "docs/a.bin" (bytes "hello world") ∧
  (split_file "docs/a.bin" (2 ^ 44) (world0 demo_source)).1 =
    Raise OverflowError ∧
  nodes (split_file "docs/a.bin" (2 ^ 44) (world0 demo_source)).2
    !! "a.bin_chunks/a.bin.part000" = None ∧
  (∀ p, (p, Wb) ∉ opens (split_file "docs/a.bin" (2 ^ 44)
                           (world0 demo_source)).2).
Proof.
  split_and!; [reflexivity|exact demo_source_ready|vm_compute; reflexivity|
               vm_compute; reflexivity|].
  intros p Hp.
  assert (opens (split_file "docs/a.bin" (2 ^ 44) (world0 demo_source)).2 =
          [("docs/a.bin", Rb); ("docs/a.bin", Rb)]) as E
    by (vm_compute; reflexivity).
  rewrite E in Hp.
  repeat (apply elem_of_cons in Hp as [Hp|Hp]; [discriminate|]).
  by apply elem_of_nil in Hp.
Qed.

(** Against C8 as stated: for a source whose name holds a line feed, the
    metadata file has six lines, and the second has no [=]. *)
Lemma metadata_of_two_line_name :
  ∃ w' meta,
    split_file "a
b" 1 (world0 demo_newline_source) =
      (Ok (SplitComplete 1 "a
b_chunks" "6865"), w') ∧
    nodes w' !! "a
b_chunks/a
b.meta" = Some (File meta) ∧
    Py.lines (Py.universal_newlines (String.string_of_list_byte meta)) =
      ["original_name=a"; "b"; "num_chunks=1"; "original_size=11";
       "chunk_size=1048576"; "sha256=6865"] ∧
    Py.split1 "=" (Py.strip "b") = None.
Proof.
  eexists _, _. split; [vm_compute; reflexivity|].
  split_and!; vm_compute; reflexivity.
Qed.

End Examples.

(** * The round trip *)

Section RoundTripFacts.
Context `{Platform}.

Lemma elem_of_entries folder (m : gmap string node) x :
  x ∈ entries folder m ↔
  ∃ p, is_Some (m !! p) ∧ Path.entry_name folder p = Some x.
Proof.
  unfold entries. rewrite list_elem_of_omap. split.
  - intros (p & Hp & Hx). exists p. split; [|done].
    apply list_elem_of_fmap in Hp as ([p' v] & -> & Hin).
    apply elem_of_map_to_list in Hin. by exists v.
  - intros (p & [v Hv] & Hx). exists p. split; [|done].
    apply list_elem_of_fmap. exists (p, v). split; [done|].
    by apply elem_of_map_to_list.
Qed.

Lemma elem_of_listdir folder (m : gmap string node) x :
  x ∈ listdir_order (entries folder m) ↔
  ∃ p, is_Some (m !! p) ∧ Path.entry_name folder p = Some x.
Proof. by rewrite listdir_order_perm, elem_of_entries. Qed.

Lemma head_filter_unique {A} (P : A → Prop) `{∀ x, Decision (P x)}
    (l : list A) (a : A) :
  a ∈ l → P a → (∀ x, x ∈ l → P x → x = a) →
  head (filter P l) = Some a.
Proof.
  intros Hin Ha Huniq.
  destruct (filter P l) as [|y ys] eqn:E.
  - assert (a ∈ filter P l) as Hf by by apply list_elem_of_filter.
    rewrite E in Hf. by apply elem_of_nil in Hf.
  - simpl. f_equal.
    assert (y ∈ filter P l) as Hy by (rewrite E; by left).
    apply list_elem_of_filter in Hy as [Hy1 Hy2]. by apply Huniq.
Qed.

Lemma plain_name_spec (s : string) :
  plain_name s = true →
  s ≠ "" ∧ Py.one_line s = true ∧ Py.rstrip s = s.
Proof.
  unfold plain_name.
  intros [[[H0 _]%andb_prop H1]%andb_prop H2%String.eqb_eq]%andb_prop.
  split_and!; [|done..]. by intros ->.
Qed.

Lemma key_value_line c (key v : string) :
  Py.isspace c = false → Py.split1 "=" (String c key) = None →
  Py.split1 "=" (Py.strip (String c key +:+ String "=" v)) =
  Some (String c key, Py.rstrip v).
Proof. intros Hc Hk. rewrite strip_key_value by done. by apply split1_app. Qed.

Lemma rstrip_str (z : Z) : 0 ≤ z → Py.rstrip (Py.str z) = Py.str z.
Proof.
  intros Hz. apply (rstrip_all_chars Py.is_digit); [|by apply str_all_digits].
  apply is_digit_not_space.
Qed.

Lemma decode_meta_text (base : string) (k n s : Z) (h : string) :
  Py.one_line base = true → Py.rstrip base = base →
  0 ≤ k → 0 ≤ n → 0 ≤ s →
  Py.one_line h = true → Py.rstrip h = h →
  decode_metadata (meta_text base k n s h) = Ok (base, k, n, h).
Proof.
  intros Hb1 Hb2 Hk Hn Hs Hh1 Hh2.
  assert (∀ z, 0 ≤ z → Py.one_line (Py.str z) = true) as Hnum.
  { intros z Hz. eapply all_chars_impl; [apply is_digit_one_line|].
    by apply str_all_digits. }
  unfold decode_metadata, meta_text.
  rewrite <- (str_app_nil_r ("sha256=" +:+ h +:+ _)).
  rewrite !read_lines_kv by (done || by apply Hnum).
  change (Py.lines (Py.universal_newlines "")) with (@nil string).
  cbn [read_metadata].
  change ("original_name=" +:+ base)
    with (String "o" "riginal_name" +:+ String "=" base).
  change ("num_chunks=" +:+ Py.str k)
    with (String "n" "um_chunks" +:+ String "=" (Py.str k)).
  change ("original_size=" +:+ Py.str n)
    with (String "o" "riginal_size" +:+ String "=" (Py.str n)).
  change ("chunk_size=" +:+ Py.str s)
    with (String "c" "hunk_size" +:+ String "=" (Py.str s)).
  change ("sha256=" +:+ h) with (String "s" "ha256" +:+ String "=" h).
  rewrite !key_value_line by done.
  rewrite Hb2, Hh2, !rstrip_str by done.
  unfold rbind, getitem, int_of.
  repeat (rewrite lookup_insert_eq || rewrite lookup_insert_ne by done).
  cbn beta iota. by rewrite !int_str by done.
Qed.

Lemma meta_not_chunk folder base j :
  folder ≠ "" → Path.has_sep folder = false → Path.has_sep base = false →
  Path.join folder (base +:+ ".meta") ≠ chunk_path folder base j.
Proof.
  intros Hfne Hfs Hbase E. symmetry in E. revert E.
  apply chunk_path_not_meta. rewrite join_plain; [|done..|].
  - rewrite <- str_app_cons, <- str_app_assoc. by apply endswith_app.
  - by rewrite has_sep_app, Hbase.
Qed.

Lemma folder_not_chunk folder base j :
  folder ≠ "" → Path.has_sep folder = false → Path.has_sep base = false →
  folder ≠ chunk_path folder base j.
Proof.
  intros Hfne Hfs Hbase E. symmetry in E. revert E.
  by apply join_plain_ne_folder, chunk_name_no_sep.
Qed.

Lemma folder_facts (filepath : string) :
  let base := Path.basename filepath in
  let folder := base +:+ "_chunks" in
  Path.has_sep base = false ∧ Path.has_sep folder = false ∧ folder ≠ "" ∧
  Path.has_sep (base +:+ ".meta") = false.
Proof.
  intros base folder.
  assert (Path.has_sep base = false) as Hbase by apply basename_no_sep.
  split_and!; [done| | |].
  - unfold folder. by rewrite has_sep_app, Hbase.
  - unfold folder. intros E%(f_equal String.length).
    rewrite str_length_app in E. simpl in E. lia.
  - by rewrite has_sep_app, Hbase.
Qed.

Lemma entry_name_join folder name :
  folder ≠ "" → Path.has_sep folder = false →
  name ≠ "" → Path.has_sep name = false →
  Path.entry_name folder (Path.join folder name) = Some name.
Proof.
  intros Hfne Hfs Hnne Hns. apply entry_name_Some.
  split_and!; [|done..]. by rewrite join_relative.
Qed.

Lemma entry_name_inv folder p name :
  folder ≠ "" → Path.has_sep folder = false →
  Path.entry_name folder p = Some name →
  p = Path.join folder name ∧ name ≠ "" ∧ Path.has_sep name = false.
Proof.
  intros Hfne Hfs (-> & Hnne & Hns)%entry_name_Some.
  split_and!; [|done..]. by rewrite join_relative.
Qed.

Lemma str_app_inv_head (a b c : string) : a +:+ b = a +:+ c → b = c.
Proof.
  induction a as [|x a IH]; [done|]. rewrite !str_app_cons.
  intros [= E]. by apply IH.
Qed.

Lemma join_inj folder a b :
  Path.has_sep a = false → Path.has_sep b = false →
  Path.join folder a = Path.join folder b → a = b.
Proof.
  intros Ha Hb. rewrite !join_relative by done. apply str_app_inv_head.
Qed.

Lemma chunks_written_Some folder base blocks i (m : gmap string node) q v :
  chunks_written folder base blocks i m !! q = Some v →
  (∃ j, q = chunk_path folder base j) ∨ m !! q = Some v.
Proof.
  revert i m. induction blocks as [|chunk rest IH]; intros i m Hq; [by right|].
  cbn [chunks_written] in Hq. apply IH in Hq as [Hq|Hq]; [by left|].
  destruct (decide (q = chunk_path folder base i)) as [->|Hne]; [by eauto|].
  right. by rewrite lookup_insert_ne in Hq.
Qed.

(** After a split, the listing of the chunk folder has one name that ends
    in [.meta], provided no other was there before. *)
Lemma metadata_at_after_split filepath (m : gmap string node) blocks mt :
  let base := Path.basename filepath in
  let folder := base +:+ "_chunks" in
  let meta_filename := Path.join folder (base +:+ ".meta") in
  (∀ name, Py.endswith name ".meta" = true → name ≠ base +:+ ".meta" →
           m !! Path.join folder name = None) →
  metadata_at
    (<[meta_filename := File mt]>
       (chunks_written folder base blocks 0 (<[folder := Dir]> m)))
    folder meta_filename mt.
Proof.
  intros base folder meta_filename Hfresh.
  destruct (folder_facts filepath) as (Hbase & Hfs & Hfne & Hms).
  fold base folder in Hbase, Hfs, Hfne, Hms.
  assert (base +:+ ".meta" ≠ "") as Hmne.
  { intros E%(f_equal String.length). rewrite str_length_app in E.
    simpl in E. lia. }
  assert (Py.endswith (base +:+ ".meta") ".meta" = true) as Hend
    by (apply endswith_app, endswith_refl).
  assert (meta_filename ≠ folder) as Hmf.
  { unfold meta_filename. by apply join_plain_ne_folder. }
  split_and!.
  - rewrite lookup_insert_ne by done.
    rewrite chunks_written_other; [apply lookup_insert_eq|].
    intros j. by apply folder_not_chunk.
  - exists (base +:+ ".meta"). split; [|done].
    apply head_filter_unique; [|done|].
    + apply elem_of_listdir. exists meta_filename. split.
      * rewrite lookup_insert_eq. by eexists.
      * by apply entry_name_join.
    + intros x (p & [v Hp] & Hx)%elem_of_listdir Hxend.
      apply entry_name_inv in Hx as (-> & Hxne & Hxs); [|done..].
      destruct (decide (x = base +:+ ".meta")) as [|Hne]; [done|]. exfalso.
      rewrite lookup_insert_ne in Hp; [|intros E; by apply join_inj in E].
      apply chunks_written_Some in Hp as [[j Hj]|Hp].
      * apply (chunk_path_not_meta folder base j (Path.join folder x));
          [|done].
        rewrite join_plain by done.
        change (String "/" x) with ("/" +:+ x).
        by do 2 apply endswith_app.
      * rewrite lookup_insert_ne in Hp; [by rewrite Hfresh in Hp|].
        intros E. symmetry in E. revert E. by apply join_plain_ne_folder.
  - apply lookup_insert_eq.
Qed.

Lemma head_no_sep (p : string) : Path.has_sep p = false → Path.head p = "".
Proof.
  induction p as [|c r IH]; [done|]. cbn [Path.has_sep Path.head].
  intros [Hc Hr]%orb_false_elim. by rewrite Hr, Hc.
Qed.

Lemma parent_exists_no_sep (m : gmap string node) (p : string) :
  Path.has_sep p = false → parent_exists m p = true.
Proof.
  intros Hp. unfold parent_exists, Path.dirname. by rewrite head_no_sep.
Qed.

Lemma basename_no_sep_id (p : string) :
  Path.has_sep p = false → Path.basename p = p.
Proof.
  destruct p as [|c r]; [done|]. cbn [Path.has_sep Path.basename].
  intros [Hc Hr]%orb_false_elim. by rewrite Hr, Hc.
Qed.

Lemma basename_app_sep (a x : string) :
  Path.has_sep x = false → Path.basename (a +:+ String "/" x) = x.
Proof.
  intros Hx. induction a as [|c a IH].
  - rewrite str_app_nil_l. cbn [Path.basename]. by rewrite Hx.
  - rewrite str_app_cons. cbn [Path.basename].
    rewrite has_sep_app. cbn [Path.has_sep]. rewrite Ascii.eqb_refl.
    cbn [orb]. by rewrite orb_true_r.
Qed.

Lemma has_sep_join folder name :
  folder ≠ "" → Path.has_sep folder = false → Path.has_sep name = false →
  Path.has_sep (Path.join folder name) = true.
Proof.
  intros Hfne Hfs Hns. rewrite join_plain by done. rewrite has_sep_app.
  cbn [Path.has_sep]. rewrite Ascii.eqb_refl. by rewrite orb_true_r.
Qed.

Lemma basename_join folder name :
  folder ≠ "" → Path.has_sep folder = false → Path.has_sep name = false →
  Path.basename (Path.join folder name) = name.
Proof.
  intros Hfne Hfs Hns. rewrite join_plain by done. by apply basename_app_sep.
Qed.

Lemma app_ne_self (a b : string) : b ≠ "" → a +:+ b ≠ a.
Proof.
  intros Hb E%(f_equal String.length). rewrite str_length_app in E.
  destruct b; [done|]. simpl in E. lia.
Qed.

(** The source of a split is none of the paths the split writes. *)
Lemma source_not_written (filepath : string) :
  let base := Path.basename filepath in
  let folder := base +:+ "_chunks" in
  filepath ≠ folder ∧
  filepath ≠ Path.join folder (base +:+ ".meta") ∧
  (∀ j, filepath ≠ chunk_path folder base j).
Proof.
  intros base folder.
  destruct (folder_facts filepath) as (Hbase & Hfs & Hfne & Hms).
  fold base folder in Hbase, Hfs, Hfne, Hms.
  split_and!.
  - intros E. assert (Path.basename filepath = filepath) as Hb.
    { apply basename_no_sep_id. by rewrite E. }
    fold base in Hb. rewrite <- Hb in E at 1. symmetry in E. revert E.
    by apply app_ne_self.
  - intros E%(f_equal Path.basename). rewrite basename_join in E by done.
    fold base in E. symmetry in E. revert E. by apply app_ne_self.
  - intros j E%(f_equal Path.basename). unfold chunk_path in E.
    rewrite basename_join in E by (done || by apply chunk_name_no_sep).
    fold base in E. symmetry in E. revert E. unfold chunk_name.
    apply app_ne_self. by destruct (Py.fmt03d j).
Qed.

(** What a split leaves at a path it does not write. *)
Lemma split_nodes_other folder base blocks mt (m : gmap string node) q :
  q ≠ folder → q ≠ Path.join folder (base +:+ ".meta") →
  (∀ j, q ≠ chunk_path folder base j) →
  (<[Path.join folder (base +:+ ".meta") := File mt]>
     (chunks_written folder base blocks 0 (<[folder := Dir]> m))) !! q =
  m !! q.
Proof.
  intros H1 H2 H3. rewrite lookup_insert_ne by done.
  rewrite chunks_written_other by done. by rewrite lookup_insert_ne.
Qed.

Lemma split_nodes_no_sep folder base blocks mt (m : gmap string node) q :
  folder ≠ "" → Path.has_sep folder = false → Path.has_sep base = false →
  Path.has_sep q = false → q ≠ folder →
  (<[Path.join folder (base +:+ ".meta") := File mt]>
     (chunks_written folder base blocks 0 (<[folder := Dir]> m))) !! q =
  m !! q.
Proof.
  intros Hfne Hfs Hbase Hq Hqf. apply split_nodes_other; [done| |].
  - intros ->. rewrite has_sep_join in Hq; [done..|].
    by rewrite has_sep_app, Hbase.
  - intros j ->. unfold chunk_path in Hq.
    rewrite has_sep_join in Hq; [done..|]. by apply chunk_name_no_sep.
Qed.

Lemma round_trip_gen filepath chunk_size_mb w content :
  0 < chunk_size_mb →
  chunk_size_mb * 1024 * 1024 ≤ max_read_size →
  split_ready (nodes w) filepath content →
  let base_name := Path.basename filepath in
  let folder_name := base_name +:+ "_chunks" in
  let output_name := output_name_for (nodes w) base_name in
  plain_name base_name = true →
  (∀ name, Py.endswith name ".meta" = true → name ≠ base_name +:+ ".meta" →
           nodes w !! Path.join folder_name name = None) →
  nodes w !! ("rebuilt_" +:+ base_name) ≠ Some Dir →
  ∃ k w1 w2,
    split_file filepath chunk_size_mb w =
      (Ok (SplitComplete k folder_name (hexdigest content)), w1) ∧
    Z.of_nat k =
      (Z.of_nat (length content) + chunk_size_mb * 1024 * 1024 - 1) /
      (chunk_size_mb * 1024 * 1024) ∧
    join_files folder_name w1 = (Ok (JoinVerified output_name), w2) ∧
    nodes w2 !! output_name = Some (File content) ∧
    nodes w2 !! filepath = Some (File content).
Proof.
  intros Hmb Hfit Hready base_name folder_name output_name Hplain Hfresh
    Hrebuilt.
  apply plain_name_spec in Hplain as (Hbne & Hline & Hrstrip).
  pose proof (split_file_spec filepath chunk_size_mb w content
                ltac:(lia) Hfit Hready) as Hsplit.
  cbv zeta in Hsplit. fold base_name folder_name in Hsplit.
  destruct (folder_facts filepath) as (Hbase & Hfs & Hfne & Hms).
  destruct (source_not_written filepath) as (Hsrc1 & Hsrc2 & Hsrc3).
  fold base_name folder_name in Hbase, Hfs, Hfne, Hms, Hsrc1, Hsrc2, Hsrc3.
  destruct Hready as (Hfile & _ & _).
  set (chunk_size := chunk_size_mb * 1024 * 1024) in *.
  set (blocks := blocks_of (Z.to_nat chunk_size) content) in *.
  set (meta_filename := Path.join folder_name (base_name +:+ ".meta")) in *.
  set (mt := bytes (meta_text base_name (Z.of_nat (length blocks))
                      (Z.of_nat (length content)) chunk_size
                      (hexdigest content))) in *.
  set (m1 := <[meta_filename := File mt]>
               (chunks_written folder_name base_name blocks 0
                  (<[folder_name := Dir]> (nodes w)))) in *.
  set (log1 := opens w ++ _) in Hsplit.
  assert (metadata_at m1 folder_name meta_filename mt) as Hmeta
    by by apply metadata_at_after_split.
  assert (decode_metadata (String.string_of_list_byte mt) =
          Ok (base_name, Z.of_nat (length blocks),
              Z.of_nat (length content), hexdigest content)) as Hdec.
  { unfold mt, bytes. rewrite String.string_of_list_byte_of_string.
    apply decode_meta_text; try done; try lia.
    - apply hexlify_one_line.
    - apply hexlify_rstrip. }
  assert (chunks_at m1 folder_name base_name blocks) as Hchunks.
  { intros j c Hc. unfold m1.
    rewrite lookup_insert_ne by by apply meta_not_chunk.
    rewrite chunks_written_lookup
      by (apply lookup_lt_Some in Hc; lia).
    by rewrite Nat.sub_0_r, Hc. }
  assert (∀ q, Path.has_sep q = false → q ≠ folder_name →
               m1 !! q = nodes w !! q) as Hplainq.
  { intros q Hq Hqf. by apply split_nodes_no_sep. }
  assert (base_name ≠ folder_name) as Hbf.
  { intros E. symmetry in E. revert E. by apply app_ne_self. }
  assert ("rebuilt_" +:+ base_name ≠ folder_name) as Hrf.
  { intros E%(f_equal String.length). unfold folder_name in E.
    rewrite !str_length_app in E. simpl in E. lia. }
  assert (Path.has_sep ("rebuilt_" +:+ base_name) = false) as Hrs
    by by rewrite has_sep_app, Hbase.
  assert (output_name_for m1 base_name = output_name) as Hout.
  { unfold output_name, output_name_for. by rewrite Hplainq. }
  assert (Path.has_sep output_name = false ∧ output_name ≠ folder_name ∧
          nodes w !! output_name ≠ Some Dir ∧ output_name ≠ filepath)
    as (Hos & Hof & Hod & Hosrc).
  { unfold output_name, output_name_for.
    destruct (nodes w !! base_name) as [x|] eqn:E.
    - split_and!; [done..|]. intros E'.
      assert (Path.basename filepath = filepath) as Hb
        by (apply basename_no_sep_id; by rewrite <- E').
      fold base_name in Hb. rewrite <- Hb in E'. by apply rebuilt_not_name in E'.
    - split_and!; [done|done|by rewrite E|]. intros E'. congruence. }
  assert (output_name ≠ "") as Hone.
  { unfold output_name, output_name_for. by destruct (nodes w !! base_name). }
  assert (creatable m1 (output_name_for m1 base_name)) as Hw.
  { rewrite Hout. split_and!; [done|by apply file_name_no_sep|
      by rewrite Hplainq|by apply parent_exists_no_sep]. }
  eexists _, _, _. split; [exact Hsplit|]. split.
  { unfold blocks. rewrite length_blocks_of, ceil_div_Z by (unfold chunk_size; lia).
    unfold chunk_size. f_equal; lia. }
  rewrite (join_files_decode folder_name (World m1 log1) _ _ Hmeta), Hdec.
  cbv zeta. cbn [nodes opens].
  rewrite (rebuild_ok _ _ _ _ _ _ _ blocks (eq_sym (Nat2Z.id _)) Hchunks Hw).
  rewrite Hout.
  assert (concat blocks = content) as Hcat.
  { apply concat_blocks_of. unfold chunk_size. lia. }
  unfold verdict. rewrite Hcat, Z.eqb_refl, String.eqb_refl.
  split; [done|]. cbn [nodes]. split.
  - apply lookup_insert_eq.
  - rewrite lookup_insert_ne by done.
    unfold m1, meta_filename. by rewrite split_nodes_other.
Qed.

End RoundTripFacts.

(** * What a run leaves untouched *)

Section Frame.
Context `{Platform}.

Lemma ot_ret {A} S (a : A) : only_touches S (ret a).
Proof. by intros w q _. Qed.

Lemma ot_lift {A} S (r : result A) : only_touches S (lift r).
Proof. by intros w q _. Qed.

Lemma ot_bind {A B} S (m : io A) (k : A → io B) :
  only_touches S m → (∀ a, only_touches S (k a)) →
  only_touches S (bind m k).
Proof.
  intros Hm Hk w q Hq. specialize (Hm w q Hq). unfold bind.
  destruct (m w) as [[a|e] w'] eqn:E; cbn [snd] in *; [|done].
  by rewrite Hk.
Qed.

Lemma ot_weaken {A} (S S' : string → Prop) (c : io A) :
  (∀ q, S q → S' q) → only_touches S c → only_touches S' c.
Proof. intros HS Hc w q Hq. apply Hc. naive_solver. Qed.

Lemma ot_os_path_exists S p : only_touches S (os_path_exists p).
Proof. by intros w q _. Qed.

Lemma ot_os_path_isdir S p : only_touches S (os_path_isdir p).
Proof. by intros w q _. Qed.

Lemma ot_os_path_getsize S p : only_touches S (os_path_getsize p).
Proof.
  intros w q _. unfold os_path_getsize. by destruct (nodes w !! p) as [[]|].
Qed.

Lemma ot_os_listdir S p : only_touches S (os_listdir p).
Proof.
  intros w q _. unfold os_listdir. by destruct (nodes w !! p) as [[]|].
Qed.

Lemma ot_os_makedirs (S : string → Prop) p :
  S p → only_touches S (os_makedirs p).
Proof.
  intros Hp w q Hq. unfold os_makedirs.
  destruct (nodes w !! p) as [[]|]; [done..|]. cbn [snd nodes].
  apply lookup_insert_ne. by intros ->.
Qed.

Lemma ot_open_read S p md : only_touches S (open_read p md).
Proof.
  intros w q _. unfold open_read. by destruct (nodes w !! p) as [[]|].
Qed.

Lemma ot_open_write (S : string → Prop) p md :
  S p → only_touches S (open_write p md).
Proof.
  intros Hp w q Hq. unfold open_write.
  assert (p ≠ q) by by intros ->.
  destruct (Py.is_empty p); [done|]. destruct (Py.endswith p "/"); [done|].
  destruct (nodes w !! p) as [[]|], (parent_exists (nodes w) p);
    cbn [snd nodes]; by rewrite ?lookup_insert_ne.
Qed.

Lemma ot_file_write (S : string → Prop) p data :
  S p → only_touches S (file_write p data).
Proof.
  intros Hp w q Hq. unfold file_write.
  assert (p ≠ q) by by intros ->.
  destruct (nodes w !! p) as [[]|]; cbn [snd nodes];
    by rewrite ?lookup_insert_ne.
Qed.

Lemma ot_get_file_hash S p : only_touches S (get_file_hash p).
Proof.
  unfold get_file_hash. apply ot_bind; [apply ot_open_read|]. intros f.
  apply ot_bind; [apply ot_lift|]. intros blocks. apply ot_ret.
Qed.

Lemma ot_split_loop (S : string → Prop) folder base blocks i :
  (∀ j, S (chunk_path folder base j)) →
  only_touches S (split_loop folder base blocks i).
Proof.
  intros HS. revert i. induction blocks as [|chunk rest IH]; intros i.
  - apply ot_ret.
  - cbn [split_loop]. apply ot_bind; [apply ot_open_write, HS|]. intros _.
    apply ot_bind; [apply ot_file_write, HS|]. intros _. apply IH.
Qed.

Lemma ot_split_file filepath chunk_size_mb :
  let base := Path.basename filepath in
  let folder := base +:+ "_chunks" in
  only_touches
    (λ q, q = folder ∨ q = Path.join folder (base +:+ ".meta") ∨
          ∃ j, q = chunk_path folder base j)
    (split_file filepath chunk_size_mb).
Proof.
  intros base folder. unfold split_file. fold base folder.
  apply ot_bind; [apply ot_os_path_exists|]. intros found.
  destruct found; cbn [negb]; [|apply ot_ret].
  apply ot_bind; [apply ot_os_path_getsize|]. intros file_size.
  apply ot_bind; [apply ot_os_makedirs; by left|]. intros _.
  apply ot_bind; [apply ot_get_file_hash|]. intros original_hash.
  apply ot_bind; [apply ot_open_read|]. intros f.
  apply ot_bind; [apply ot_lift|]. intros blocks.
  apply ot_bind; [apply ot_split_loop; naive_solver|]. intros chunk_num.
  apply ot_bind; [apply ot_open_write; naive_solver|]. intros _.
  unfold file_write_text.
  do 5 (apply ot_bind; [apply ot_file_write; naive_solver|]; intros _).
  apply ot_ret.
Qed.

Lemma ot_missing_chunks S folder name idxs :
  only_touches S (missing_chunks folder name idxs).
Proof.
  induction idxs as [|i rest IH]; [apply ot_ret|]. cbn [missing_chunks].
  apply ot_bind; [apply ot_os_path_exists|]. intros found.
  apply ot_bind; [apply IH|]. intros missing. apply ot_ret.
Qed.

Lemma ot_join_loop (S : string → Prop) folder name output idxs :
  S output → only_touches S (join_loop folder name output idxs).
Proof.
  intros HS. induction idxs as [|i rest IH]; [apply ot_ret|].
  cbn [join_loop]. apply ot_bind; [apply ot_open_read|]. intros data.
  apply ot_bind; [by apply ot_file_write|]. intros _. apply IH.
Qed.

Lemma rebuild_frame folder name k size h w q :
  q ≠ output_name_for (nodes w) name →
  nodes (rebuild folder name k size h w).2 !! q = nodes w !! q.
Proof.
  intros Hq. destruct w as [m log]. unfold rebuild.
  rewrite (bind_ok _ _ _ _ _ (missing_chunks_eq _ _ _ _ _)).
  destruct (filter _ _) as [|p ps]; [|done].
  rewrite (bind_ok _ _ _ _ _ (os_path_exists_eq _ _ _)).
  cbn [nodes] in Hq. unfold output_name_for in Hq.
  set (output := if match m !! name with Some _ => true | None => false end
                 then "rebuilt_" +:+ name else name).
  assert (q ≠ output) as Hq'.
  { unfold output. by destruct (m !! name). }
  revert Hq'. generalize output. clear Hq output. intros output Hq.
  match goal with |- nodes (?c _).2 !! _ = _ =>
    assert (only_touches (λ p, p = output) c) as Hot end.
  { apply ot_bind; [by apply ot_open_write|]. intros _.
    apply ot_bind; [by apply ot_join_loop|]. intros _.
    apply ot_bind; [apply ot_os_path_getsize|]. intros rebuilt_size.
    destruct (_ =? _); [|apply ot_ret].
    apply ot_bind; [apply ot_get_file_hash|]. intros rebuilt_hash.
    destruct (String.eqb _ _); apply ot_ret. }
  by apply Hot.
Qed.

End Frame.

(** * More about [split_file] *)

Section SplitMore.
Context `{Platform}.

Lemma chunks_written_id folder base blocks i (m : gmap string node) :
  (∀ j c, blocks !! j = Some c →
          m !! chunk_path folder base (i + j) = Some (File c)) →
  chunks_written folder base blocks i m = m.
Proof.
  revert i m. induction blocks as [|chunk rest IH]; intros i m Hm; [done|].
  cbn [chunks_written].
  rewrite insert_id by (rewrite <- (Nat.add_0_r i); by apply Hm).
  apply IH. intros j c Hc. rewrite Nat.add_succ_comm. by apply Hm.
Qed.

Lemma has_sep_join_any folder name :
  folder ≠ "" → Path.has_sep folder = false →
  Path.has_sep (Path.join folder name) = true.
Proof.
  intros Hfne Hfs.
  assert (Path.has_sep (Path.dir_prefix folder) = true) as Hp.
  { rewrite dir_prefix_plain by done. rewrite has_sep_app.
    by rewrite orb_true_r. }
  destruct name as [|c r].
  - unfold Path.join. by rewrite has_sep_app, Hp.
  - rewrite join_cons. destruct (Ascii.eqb_spec c "/") as [->|_]; [done|].
    by rewrite has_sep_app, Hp.
Qed.

(** X1. Round trip: for a source whose base name is plain and a chunk
    size of [chunk_size_mb > 0] megabytes, [split_file] followed by
    [join_files] on the folder it made ends verified; the output, named
    after the source ([rebuilt_...] when that name is taken), holds the
    bytes of the source, and the source is still there.  Chunk files left
    in the folder by an earlier split do no harm; another [.meta] file
    could. *)
Theorem split_then_join_round_trip filepath chunk_size_mb w content :
  0 < chunk_size_mb →
  chunk_size_mb * 1024 * 1024 ≤ max_read_size →
  split_ready (nodes w) filepath content →
  let base_name := Path.basename filepath in
  let folder_name := base_name +:+ "_chunks" in
  let output_name := output_name_for (nodes w) base_name in
  plain_name base_name = true →
  (∀ name, Py.endswith name ".meta" = true → name ≠ base_name +:+ ".meta" →
           nodes w !! Path.join folder_name name = None) →
  nodes w !! ("rebuilt_" +:+ base_name) ≠ Some Dir →
  ∃ k w1 w2,
    split_file filepath chunk_size_mb w =
      (Ok (SplitComplete k folder_name (hexdigest content)), w1) ∧
    Z.of_nat k =
      (Z.of_nat (length content) + chunk_size_mb * 1024 * 1024 - 1) /
      (chunk_size_mb * 1024 * 1024) ∧
    join_files folder_name w1 = (Ok (JoinVerified output_name), w2) ∧
    nodes w2 !! output_name = Some (File content) ∧
    nodes w2 !! filepath = Some (File content).
Proof. apply round_trip_gen. Qed.

(** X4. [split_file] changes nothing but the chunk folder, the chunk files
    and the metadata file, whatever the way it ends. *)
Theorem split_changes_only_chunk_folder filepath chunk_size_mb w q :
  let base_name := Path.basename filepath in
  let folder_name := base_name +:+ "_chunks" in
  q ≠ folder_name →
  q ≠ Path.join folder_name (base_name +:+ ".meta") →
  (∀ j, q ≠ chunk_path folder_name base_name j) →
  nodes (split_file filepath chunk_size_mb w).2 !! q = nodes w !! q.
Proof.
  intros base_name folder_name H1 H2 H3.
  apply (ot_split_file filepath chunk_size_mb).
  intros [?|[?|[j ?]]]; [done..|by eapply H3].
Qed.

(** X3. [split_file] never changes what is at [filepath], whatever the
    file system, the chunk size and the way it ends. *)
Theorem split_never_changes_source filepath chunk_size_mb w :
  nodes (split_file filepath chunk_size_mb w).2 !! filepath =
  nodes w !! filepath.
Proof.
  destruct (source_not_written filepath) as (H1 & H2 & H3).
  apply (ot_split_file filepath chunk_size_mb).
  intros [?|[?|[j ?]]]; [done..|by eapply H3].
Qed.

(** X9. [split_file] on a path that does not exist reports it and changes
    nothing: no chunk folder is made. *)
Theorem split_missing_source filepath chunk_size_mb w :
  nodes w !! filepath = None →
  split_file filepath chunk_size_mb w = (Ok SplitNotFound, w).
Proof.
  intros Hnone. unfold split_file, bind, os_path_exists. by rewrite Hnone.
Qed.

(** X8. When a regular file stands at the name of the chunk folder,
    [os.makedirs] raises [FileExistsError]: nothing has been opened or
    changed. *)
Theorem split_folder_name_taken filepath chunk_size_mb w d :
  is_Some (nodes w !! filepath) →
  nodes w !! (Path.basename filepath +:+ "_chunks") = Some (File d) →
  split_file filepath chunk_size_mb w = (Raise FileExistsError, w).
Proof.
  intros [x Hx] Hd. destruct w as [m log]. cbn [nodes] in *.
  unfold split_file.
  rewrite (bind_ok _ _ _ _ _ (os_path_exists_eq _ _ _)), Hx. cbn [negb].
  assert (∃ n, os_path_getsize filepath (World m log) = (Ok n, World m log))
    as [n Hsize].
  { unfold os_path_getsize. cbn [nodes]. rewrite Hx. destruct x; by eexists. }
  rewrite (bind_ok _ _ _ _ _ Hsize).
  erewrite bind_raise; [done|]. unfold os_makedirs. cbn [nodes]. by rewrite Hd.
Qed.

(** X7. [split_file] on a directory: the existence check passes, the chunk
    folder is made, and the first [open] raises [IsADirectoryError]. *)
Theorem split_of_directory filepath chunk_size_mb w :
  let folder_name := Path.basename filepath +:+ "_chunks" in
  nodes w !! filepath = Some Dir →
  (∀ d, nodes w !! folder_name ≠ Some (File d)) →
  split_file filepath chunk_size_mb w =
    (Raise IsADirectoryError,
     World (<[folder_name := Dir]> (nodes w)) (opens w ++ [(filepath, Rb)])).
Proof.
  intros folder_name Hdir Hfolder. destruct w as [m log]. cbn [nodes opens] in *.
  unfold split_file. fold folder_name.
  rewrite (bind_ok _ _ _ _ _ (os_path_exists_eq _ _ _)), Hdir. cbn [negb].
  assert (os_path_getsize filepath (World m log) =
          (Ok (dir_size filepath), World m log)) as Hsize.
  { unfold os_path_getsize. cbn [nodes]. by rewrite Hdir. }
  rewrite (bind_ok _ _ _ _ _ Hsize).
  rewrite (bind_ok _ _ _ _ _ (os_makedirs_ok _ _ _ Hfolder)).
  assert (folder_name ≠ filepath) as Hne.
  { intros E. symmetry in E. revert E. apply source_not_written. }
  erewrite bind_raise; [done|].
  unfold get_file_hash. erewrite bind_raise; [done|].
  unfold open_read. cbn [nodes opens]. by rewrite lookup_insert_ne, Hdir.
Qed.

(** X6. A negative chunk size: [f.read] refuses the negative byte count,
    so [split_file] raises [ValueError], having made the chunk folder and
    read the source for its digest, with no chunk and no metadata file
    written. *)
Theorem split_negative_chunk_size filepath chunk_size_mb w content :
  chunk_size_mb < 0 →
  - max_read_size - 1 ≤ chunk_size_mb * 1024 * 1024 →
  split_ready (nodes w) filepath content →
  let folder_name := Path.basename filepath +:+ "_chunks" in
  split_file filepath chunk_size_mb w =
    (Raise ValueError,
     World (<[folder_name := Dir]> (nodes w))
           (opens w ++ [(filepath, Rb); (filepath, Rb)])).
Proof.
  intros Hmb Hfit (Hfile & Hfolder & _) folder_name.
  destruct w as [m log]. cbn [nodes opens] in *. fold folder_name in Hfolder.
  assert (folder_name ≠ filepath) as Hne.
  { intros E. symmetry in E. revert E. apply source_not_written. }
  assert ((<[folder_name := Dir]> m) !! filepath = Some (File content))
    as Hfile1 by by rewrite lookup_insert_ne.
  unfold split_file. fold folder_name.
  rewrite (bind_ok _ _ _ _ _ (os_path_exists_eq _ _ _)), Hfile. cbn [negb].
  rewrite (bind_ok _ _ _ _ _ (os_path_getsize_file _ _ _ _ Hfile)).
  rewrite (bind_ok _ _ _ _ _ (os_makedirs_ok _ _ _ Hfolder)).
  rewrite (bind_ok _ _ _ _ _ (get_file_hash_ok _ _ _ _ Hfile1)).
  rewrite (bind_ok _ _ _ _ _ (open_read_ok _ _ _ _ _ Hfile1)).
  unfold lift at 1. unfold bind at 1.
  rewrite read_blocks_negative by lia. by rewrite <- app_assoc.
Qed.

(** X5. Splitting the same source again with the same chunk size gives
    the same report and leaves the files of the first split as they were. *)
Theorem split_twice filepath chunk_size_mb w content :
  0 ≤ chunk_size_mb →
  chunk_size_mb * 1024 * 1024 ≤ max_read_size →
  split_ready (nodes w) filepath content →
  ∃ outcome w1 w2,
    split_file filepath chunk_size_mb w = (Ok outcome, w1) ∧
    split_file filepath chunk_size_mb w1 = (Ok outcome, w2) ∧
    nodes w2 = nodes w1.
Proof.
  intros Hmb Hfit Hready.
  pose proof (split_file_spec filepath chunk_size_mb w content Hmb Hfit Hready)
    as Hsplit.
  cbv zeta in Hsplit.
  destruct (folder_facts filepath) as (Hbase & Hfs & Hfne & Hms).
  destruct (source_not_written filepath) as (Hsrc1 & Hsrc2 & Hsrc3).
  set (base_name := Path.basename filepath) in *.
  set (folder_name := base_name +:+ "_chunks") in *.
  set (chunk_size := chunk_size_mb * 1024 * 1024) in *.
  set (blocks := blocks_of (Z.to_nat chunk_size) content) in *.
  set (meta_filename := Path.join folder_name (base_name +:+ ".meta")) in *.
  set (mt := bytes _) in Hsplit.
  set (m1 := <[meta_filename := File mt]>
               (chunks_written folder_name base_name blocks 0
                  (<[folder_name := Dir]> (nodes w)))) in *.
  set (log1 := opens w ++ _) in Hsplit.
  assert (meta_filename ≠ folder_name) as Hmf.
  { unfold meta_filename. by apply join_plain_ne_folder. }
  assert (m1 !! folder_name = Some Dir) as Hdir1.
  { unfold m1. rewrite lookup_insert_ne by done.
    rewrite chunks_written_other; [apply lookup_insert_eq|].
    intros j. by apply folder_not_chunk. }
  assert (∀ j c, blocks !! j = Some c →
                 m1 !! chunk_path folder_name base_name j = Some (File c))
    as Hchunks1.
  { intros j c Hc. unfold m1.
    rewrite lookup_insert_ne by by apply meta_not_chunk.
    rewrite chunks_written_lookup by (apply lookup_lt_Some in Hc; lia).
    by rewrite Nat.sub_0_r, Hc. }
  assert (split_ready m1 filepath content) as Hready1.
  { destruct Hready as (Hfile & Hfolder & Hnodir).
    fold base_name folder_name in Hfolder, Hnodir. split_and!.
    - unfold m1, meta_filename. by rewrite split_nodes_other.
    - fold base_name folder_name. intros d. by rewrite Hdir1.
    - fold base_name folder_name. intros name Hns. unfold m1.
      destruct (decide (Path.join folder_name name = meta_filename))
        as [->|Hne]; [by rewrite lookup_insert_eq|].
      rewrite lookup_insert_ne by done. apply chunks_written_not_dir.
      destruct (decide (Path.join folder_name name = folder_name))
        as [E|Hne'].
      + apply (f_equal Path.has_sep) in E.
        rewrite has_sep_join_any in E by done. congruence.
      + rewrite lookup_insert_ne by done. by apply Hnodir. }
  pose proof (split_file_spec filepath chunk_size_mb (World m1 log1) content
                Hmb Hfit Hready1) as Hsplit2.
  cbv zeta in Hsplit2. cbn [nodes opens] in Hsplit2.
  fold base_name folder_name chunk_size blocks meta_filename mt in Hsplit2.
  eexists _, _, _. split_and!; [exact Hsplit|exact Hsplit2|].
  cbn [nodes]. rewrite (insert_id m1 folder_name) by done.
  rewrite chunks_written_id by done.
  apply insert_id. apply lookup_insert_eq.
Qed.

End SplitMore.

(** * More about [get_file_hash] and [join_files] *)

Section JoinMore.
Context `{Platform}.

(** X10. [get_file_hash] returns the digest of the whole content, whatever
    its length: the blocks of 8192 bytes are fed in order and none is left
    out; the file is opened once and the file system is unchanged. *)
Theorem get_file_hash_whole_content filepath w content :
  nodes w !! filepath = Some (File content) →
  get_file_hash filepath w =
    (Ok (hexlify (sha256 content)),
     World (nodes w) (opens w ++ [(filepath, Rb)])).
Proof. intros Hfile. destruct w as [m log]. by apply get_file_hash_ok. Qed.

(** X12. Hash mismatch: when the size matches and the digest does not,
    [join_files] reports the expected and the computed digest and keeps the
    output file. *)
Theorem join_hash_mismatch folder w meta_filename meta name k size h chunks :
  metadata_at (nodes w) folder meta_filename meta →
  decode_metadata (String.string_of_list_byte meta) = Ok (name, k, size, h) →
  length chunks = Z.to_nat k →
  chunks_at (nodes w) folder name chunks →
  let output_name := output_name_for (nodes w) name in
  let rebuilt := concat chunks in
  writable (nodes w) output_name →
  Z.of_nat (length rebuilt) = size →
  hexdigest rebuilt ≠ h →
  ∃ w',
    join_files folder w =
      (Ok (JoinHashMismatch output_name h (hexdigest rebuilt)), w') ∧
    nodes w' !! output_name = Some (File rebuilt) ∧
    opens w' =
      opens w ++ [(meta_filename, Rt); (output_name, Wb)] ++
      ((λ j, (chunk_path folder name j, Rb)) <$> seq 0 (length chunks)) ++
      [(output_name, Rb)].
Proof.
  intros Hmeta Hdec Hlen Hchunks output_name rebuilt Hw Hsize Hhash.
  rewrite (join_files_decode _ _ _ _ Hmeta), Hdec. cbv zeta.
  rewrite (rebuild_ok _ _ _ _ _ _ _ chunks Hlen Hchunks (proj2 Hw)).
  fold output_name rebuilt. unfold verdict. fold rebuilt.
  rewrite Hsize, Z.eqb_refl.
  destruct (String.eqb_spec (hexdigest rebuilt) h) as [|_]; [done|].
  eexists. split; [done|]. cbn [nodes opens]. split.
  - apply lookup_insert_eq.
  - by rewrite <- !app_assoc.
Qed.

(** X11. When every chunk is there, [join_files] writes the chunks one
    after the other, in the order of their numbers, and reports the file as
    verified exactly when both the size and the digest of what it wrote are
    those of the metadata. *)
Theorem join_verified_iff folder w meta_filename meta name k size h chunks :
  metadata_at (nodes w) folder meta_filename meta →
  decode_metadata (String.string_of_list_byte meta) = Ok (name, k, size, h) →
  length chunks = Z.to_nat k →
  chunks_at (nodes w) folder name chunks →
  let output_name := output_name_for (nodes w) name in
  writable (nodes w) output_name →
  ∃ outcome w',
    join_files folder w = (Ok outcome, w') ∧
    nodes w' !! output_name = Some (File (concat chunks)) ∧
    (outcome = JoinVerified output_name ↔
     Z.of_nat (length (concat chunks)) = size ∧ hexdigest (concat chunks) = h).
Proof.
  intros Hmeta Hdec Hlen Hchunks output_name Hw.
  rewrite (join_files_decode _ _ _ _ Hmeta), Hdec. cbv zeta.
  rewrite (rebuild_ok _ _ _ _ _ _ _ chunks Hlen Hchunks (proj2 Hw)).
  fold output_name. eexists _, _. split; [done|]. cbn [nodes]. split.
  - apply lookup_insert_eq.
  - unfold verdict.
    destruct (Z.eqb_spec (Z.of_nat (length (concat chunks))) size) as [Hs|Hs];
      [|split; [done|tauto]].
    destruct (String.eqb_spec (hexdigest (concat chunks)) h) as [Hh|Hh];
      [done|split; [done|tauto]].
Qed.

(** X13. [join_files] changes no path but the output file, whatever the
    way it ends. *)
Theorem join_changes_only_output folder w meta_filename meta name k size h q :
  metadata_at (nodes w) folder meta_filename meta →
  decode_metadata (String.string_of_list_byte meta) = Ok (name, k, size, h) →
  q ≠ output_name_for (nodes w) name →
  nodes (join_files folder w).2 !! q = nodes w !! q.
Proof.
  intros Hmeta Hdec Hq.
  rewrite (join_files_decode _ _ _ _ Hmeta), Hdec. cbv zeta.
  by rewrite rebuild_frame.
Qed.

(** X14. [join_files] leaves every chunk file as it was: it never
    overwrites or removes one. *)
Theorem join_keeps_chunks folder w meta_filename meta name k size h j :
  metadata_at (nodes w) folder meta_filename meta →
  decode_metadata (String.string_of_list_byte meta) = Ok (name, k, size, h) →
  nodes (join_files folder w).2 !! chunk_path folder name j =
  nodes w !! chunk_path folder name j.
Proof.
  intros Hmeta Hdec.
  rewrite (join_files_decode _ _ _ _ Hmeta), Hdec. cbv zeta.
  rewrite rebuild_frame; [done|]. cbn [nodes]. intros E. symmetry in E.
  by apply output_name_for_not_chunk in E.
Qed.

(** X18. [join_files] on a name that is not a directory reports it and
    changes nothing. *)
Theorem join_folder_missing folder w :
  nodes w !! folder ≠ Some Dir →
  join_files folder w = (Ok JoinFolderNotFound, w).
Proof.
  intros Hdir. unfold join_files, bind, os_path_isdir.
  by destruct (nodes w !! folder) as [[]|].
Qed.

(** X17. A folder with no entry that ends in [.meta]: [join_files]
    reports it, having opened and changed nothing. *)
Theorem join_without_metadata folder w :
  nodes w !! folder = Some Dir →
  (∀ name, Path.has_sep name = false → Py.endswith name ".meta" = true →
           nodes w !! Path.join folder name = None) →
  join_files folder w = (Ok JoinNoMetadata, w).
Proof.
  intros Hdir Hnone. destruct w as [m log]. cbn [nodes] in *.
  assert (os_path_isdir folder (World m log) = (Ok true, World m log))
    as Hisdir by (unfold os_path_isdir; cbn [nodes]; by rewrite Hdir).
  assert (os_listdir folder (World m log) =
          (Ok (listdir_order (entries folder m)), World m log))
    as Hlist by (unfold os_listdir; cbn [nodes]; by rewrite Hdir).
  unfold join_files.
  rewrite (bind_ok _ _ _ _ _ Hisdir). cbn [negb].
  rewrite (bind_ok _ _ _ _ _ Hlist).
  destruct (filter (λ f, Py.endswith f ".meta" = true)
              (listdir_order (entries folder m)))
    as [|x xs] eqn:E; [done|]. exfalso.
  assert (x ∈ filter (λ f, Py.endswith f ".meta" = true)
                (listdir_order (entries folder m))) as Hx
    by (rewrite E; by left).
  apply list_elem_of_filter in Hx as [Hend Hx].
  apply elem_of_listdir in Hx as (p & [v Hp] & Hx).
  apply entry_name_Some in Hx as (-> & _ & Hs).
  rewrite <- join_relative in Hp by done. by rewrite Hnone in Hp.
Qed.

(** X16. With [num_chunks <= 0] in the metadata, [range(num_chunks)] is
    empty: no chunk is looked for or read, and the output file is created
    empty and checked as such. *)
Theorem join_nonpositive_num_chunks folder w meta_filename meta name k size h :
  metadata_at (nodes w) folder meta_filename meta →
  decode_metadata (String.string_of_list_byte meta) = Ok (name, k, size, h) →
  k ≤ 0 →
  let output_name := output_name_for (nodes w) name in
  writable (nodes w) output_name →
  ∃ w',
    join_files folder w = (Ok (verdict output_name [] size h), w') ∧
    nodes w' !! output_name = Some (File []) ∧
    ∀ p, (p, Rb) ∈ drop (length (opens w)) (opens w') → p = output_name.
Proof.
  intros Hmeta Hdec Hk output_name Hw.
  rewrite (join_files_decode _ _ _ _ Hmeta), Hdec. cbv zeta.
  assert (@length (list Byte.byte) [] = Z.to_nat k) as Hlen
    by (simpl; lia).
  assert (chunks_at (nodes w) folder name []) as Hchunks by by intros i c.
  rewrite (rebuild_ok _ _ _ _ _ _ _ [] Hlen Hchunks (proj2 Hw)).
  fold output_name. cbn [concat length fmap seq list_fmap app].
  eexists. split; [done|]. cbn [nodes opens]. split.
  - apply lookup_insert_eq.
  - intros p. rewrite <- !app_assoc, drop_app_length.
    intros [[=]|[[=]|Hin]%elem_of_cons]%elem_of_cons.
    destruct (_ =? _); [|by apply elem_of_nil in Hin].
    by apply list_elem_of_singleton in Hin as [= ->].
Qed.

(** X2. What [split_file] writes, [join_files] reads back: the metadata
    file of a split decodes to the base name, the number of chunks, the
    size of the source and its digest. *)
Theorem split_metadata_decodes filepath chunk_size_mb w content :
  0 ≤ chunk_size_mb →
  chunk_size_mb * 1024 * 1024 ≤ max_read_size →
  split_ready (nodes w) filepath content →
  let base_name := Path.basename filepath in
  let folder_name := base_name +:+ "_chunks" in
  let meta_filename := Path.join folder_name (base_name +:+ ".meta") in
  plain_name base_name = true →
  ∃ k w1 meta,
    split_file filepath chunk_size_mb w =
      (Ok (SplitComplete k folder_name (hexdigest content)), w1) ∧
    nodes w1 !! meta_filename = Some (File meta) ∧
    decode_metadata (String.string_of_list_byte meta) =
      Ok (base_name, Z.of_nat k, Z.of_nat (length content), hexdigest content).
Proof.
  intros Hmb Hfit Hready base_name folder_name meta_filename Hplain.
  apply plain_name_spec in Hplain as (Hbne & Hline & Hrstrip).
  pose proof (split_file_spec filepath chunk_size_mb w content Hmb Hfit Hready)
    as Hsplit.
  cbv zeta in Hsplit. eexists _, _, _. split; [exact Hsplit|].
  cbn [nodes]. split; [apply lookup_insert_eq|].
  unfold bytes. rewrite String.string_of_list_byte_of_string.
  apply decode_meta_text; try done; try lia.
  - apply hexlify_one_line.
  - apply hexlify_rstrip.
Qed.

End JoinMore.

Section JoinBroken.
Context `{Platform}.

Lemma bind_assoc {A B C} (m : io A) (f : A → io B) (g : B → io C) w :
  bind (bind m f) g w = bind m (λ a, bind (f a) g) w.
Proof. unfold bind. by destruct (m w) as [[a|e] w']. Qed.

Lemma bind_ext {A B} (m : io A) (k1 k2 : A → io B) w :
  (∀ a w', k1 a w' = k2 a w') → bind m k1 w = bind m k2 w.
Proof. intros Hk. unfold bind. by destruct (m w) as [[a|e] w']. Qed.

Lemma join_loop_app folder name output l1 l2 w :
  join_loop folder name output (l1 ++ l2) w =
  bind (join_loop folder name output l1)
       (λ _, join_loop folder name output l2) w.
Proof.
  revert w. induction l1 as [|i l1 IH]; intros w; [reflexivity|].
  cbn [app join_loop]. rewrite bind_assoc. apply bind_ext. intros data w1.
  rewrite bind_assoc. apply bind_ext. intros _ w2. apply IH.
Qed.

(** X15. A directory at the name of a chunk passes the existence check;
    [join_files] then raises [IsADirectoryError] when it opens it, and
    leaves an output file that holds the chunks before it. *)
Theorem join_chunk_is_directory folder w meta_filename meta name k size h
    chunks :
  metadata_at (nodes w) folder meta_filename meta →
  decode_metadata (String.string_of_list_byte meta) = Ok (name, k, size, h) →
  (∀ j, Z.of_nat j < k → is_Some (nodes w !! chunk_path folder name j)) →
  chunks_at (nodes w) folder name chunks →
  Z.of_nat (length chunks) < k →
  nodes w !! chunk_path folder name (length chunks) = Some Dir →
  let output_name := output_name_for (nodes w) name in
  writable (nodes w) output_name →
  ∃ w',
    join_files folder w = (Raise IsADirectoryError, w') ∧
    nodes w' !! output_name = Some (File (concat chunks)).
Proof.
  intros Hmeta Hdec Hall Hchunks Hlen Hdir output_name
    (_ & Hone & Hoend & Hw1 & Hw2).
  rewrite (join_files_decode _ _ _ _ Hmeta), Hdec. cbv zeta.
  destruct w as [m log]. cbn [nodes opens] in *.
  unfold rebuild.
  rewrite (bind_ok _ _ _ _ _ (missing_chunks_eq _ _ _ _ _)).
  assert (filter (λ p, m !! p = None) (chunk_path folder name <$> range k)
          = []) as ->.
  { apply elem_of_nil_inv. intros p [Hp Hin]%list_elem_of_filter.
    apply list_elem_of_fmap in Hin as [i [-> Hi]].
    unfold range in Hi. apply elem_of_seq in Hi.
    destruct (Hall i) as [x Hx]; [lia|]. by rewrite Hx in Hp. }
  rewrite (bind_ok _ _ _ _ _ (os_path_exists_eq _ _ _)).
  assert ((if match m !! name with Some _ => true | None => false end
           then "rebuilt_" +:+ name else name) = output_name) as ->.
  { unfold output_name, output_name_for. by destruct (m !! name). }
  rewrite (bind_ok _ _ _ _ _ (open_write_ok _ _ _ _ Hone Hoend Hw1 Hw2)).
  set (i := length chunks) in *.
  assert (range k = seq 0 i ++ i :: seq (S i) (Z.to_nat k - S i)) as ->.
  { unfold range.
    replace (Z.to_nat k) with (i + S (Z.to_nat k - S i))%nat at 1 by lia.
    by rewrite seq_app. }
  assert (∀ j c, chunks !! j = Some c →
            <[output_name := File []]> m !! chunk_path folder name (0 + j) =
            Some (File c)) as Hchunks'.
  { intros j c Hc. rewrite lookup_insert_ne.
    - by apply Hchunks.
    - apply output_name_for_not_chunk. }
  erewrite bind_raise; [eexists; split; [done|]|].
  2:{ rewrite join_loop_app.
      rewrite (bind_ok _ _ _ _ _ (join_loop_ok folder name output_name chunks
                 0 _ _ [] (lookup_insert_eq _ _ _)
                 (output_name_for_not_chunk m folder name) Hchunks')).
      rewrite insert_insert_eq, app_nil_l. cbn [join_loop].
      erewrite bind_raise; [done|]. unfold open_read. cbn [nodes opens].
      change (Path.join folder (chunk_name name i))
        with (chunk_path folder name i).
      rewrite lookup_insert_ne by apply output_name_for_not_chunk.
      by rewrite Hdir. }
  cbn [nodes]. apply lookup_insert_eq.
Qed.

End JoinBroken.

(** * [main] *)

Section MainFacts.
Context `{Platform}.

Lemma default_size_fits : 50 * 1024 * 1024 ≤ max_read_size.
Proof. by vm_compute. Qed.

(** X19. The command line: [split <file>] runs [split_file] with chunks
    of 50 megabytes, [join <folder>] runs [join_files], commands are read
    in any letter case, and the two in a row rebuild the source. *)
Theorem main_round_trip prog1 prog2 split_cmd join_cmd filepath w content :
  lower split_cmd = "split" → lower join_cmd = "join" →
  split_ready (nodes w) filepath content →
  let base_name := Path.basename filepath in
  let folder_name := base_name +:+ "_chunks" in
  let output_name := output_name_for (nodes w) base_name in
  plain_name base_name = true →
  (∀ name, Py.endswith name ".meta" = true → name ≠ base_name +:+ ".meta" →
           nodes w !! Path.join folder_name name = None) →
  nodes w !! ("rebuilt_" +:+ base_name) ≠ Some Dir →
  ∃ k digest w1 w2,
    main [prog1; split_cmd; filepath] w =
      (Ok (MainSplit (SplitComplete k folder_name digest)), w1) ∧
    Z.of_nat k =
      (Z.of_nat (length content) + 50 * 1024 * 1024 - 1) / (50 * 1024 * 1024) ∧
    main [prog2; join_cmd; folder_name] w1 =
      (Ok (MainJoin (JoinVerified output_name)), w2) ∧
    nodes w2 !! output_name = Some (File content).
Proof.
  intros Hsplit Hjoin Hready base_name folder_name output_name Hplain Hfresh
    Hrebuilt.
  destruct (round_trip_gen filepath 50 w content eq_refl default_size_fits
              Hready Hplain
              Hfresh Hrebuilt)
    as (k & w1 & w2 & Hrun1 & Hk & Hrun2 & Hout & _).
  fold base_name folder_name output_name in Hrun1, Hrun2, Hout.
  exists k, (hexdigest content), w1, w2. split_and!.
  - unfold main. rewrite Hsplit. cbn [String.eqb Ascii.eqb Bool.eqb].
    unfold lift at 1. unfold bind at 1.
    by rewrite (bind_ok _ _ _ _ _ Hrun1).
  - exact Hk.
  - unfold main. rewrite Hjoin. cbn [String.eqb Ascii.eqb Bool.eqb].
    by rewrite (bind_ok _ _ _ _ _ Hrun2).
  - exact Hout.
Qed.

(** X20. A chunk size that is not an integer: [main] raises [ValueError]
    from [int] before [split_file] is called, so nothing is changed. *)
Theorem main_bad_size prog command filepath size rest w :
  lower command = "split" →
  Py.all_chars is_ascii size = true → Py.int size = None →
  main (prog :: command :: filepath :: size :: rest) w = (Raise ValueError, w).
Proof.
  intros Hcmd _ Hsize. unfold main. rewrite Hcmd.
  cbn [String.eqb Ascii.eqb Bool.eqb]. unfold int_of. by rewrite Hsize.
Qed.

(** X21. With fewer than two arguments, or a command that is neither
    [split] nor [join], [main] exits with status 1 and changes nothing. *)
Theorem main_usage_or_unknown argv w :
  (length argv < 3)%nat ∨
  (∃ command, argv !! 1%nat = Some command ∧
              Py.all_chars is_ascii command = true ∧
              lower command ≠ "split" ∧ lower command ≠ "join") →
  ∃ outcome, main argv w = (Ok outcome, w) ∧ exit_status outcome = 1.
Proof.
  intros [Hlen|(command & Hcmd & _ & Hs & Hj)].
  - exists MainUsage. by destruct argv as [|? [|? [|? ?]]]; [..|simpl in Hlen; lia].
  - destruct argv as [|prog [|command' [|arg rest]]];
      [by exists MainUsage..|].
    injection Hcmd as ->. exists (MainUnknown (lower command)).
    unfold main. apply String.eqb_neq in Hs, Hj. by rewrite Hs, Hj.
Qed.

End MainFacts.

(** * The model at work, continued *)

Section MoreExamples.
  #[local] Existing Instance demo_platform.

(** [os.path.join] keeps the end of its second argument. *)
Lemma endswith_join folder name suffix :
  Py.endswith name suffix = true →
  Py.endswith (Path.join folder name) suffix = true.
Proof.
  intros Hend. destruct (join_suffix folder name) as [pre ->].
  by apply endswith_app.
Qed.

(** No [.meta] file stands in the chunk folder of [docs/a.bin]. *)
Lemma demo_source_fresh name :
  Py.endswith name ".meta" = true →
  nodes (world0 demo_source) !! Path.join "a.bin_chunks" name = None.
Proof.
  intros Hend%(endswith_join "a.bin_chunks"). apply lookup_singleton_ne.
  intros E. rewrite <- E in Hend. vm_compute in Hend. discriminate.
Qed.

(** [docs/a.bin] split in chunks of one megabyte and joined again: the
    output [a.bin] holds the eleven bytes, and so does the source. *)
Lemma split_then_join_round_trip_witness :
  ∃ w1 w2,
    split_file "docs/a.bin" 1 (world0 demo_source) =
      (Ok (SplitComplete 1 "a.bin_chunks" (hexdigest (bytes "hello world"))),
       w1) ∧
    join_files "a.bin_chunks" w1 = (Ok (JoinVerified "a.bin"), w2) ∧
    nodes w2 !! "a.bin" = Some (File (bytes "hello world")) ∧
    nodes w2 !! "docs/a.bin" = Some (File (bytes "hello world")).
Proof.
  assert (plain_name (Path.basename "docs/a.bin") = true) as Hplain
    by (vm_compute; reflexivity).
  assert (nodes (world0 demo_source) !!
            ("rebuilt_" +:+ Path.basename "docs/a.bin") ≠ Some Dir) as Hr
    by (vm_compute; discriminate).
  assert (output_name_for (nodes (world0 demo_source))
            (Path.basename "docs/a.bin") = "a.bin") as Hout
    by (vm_compute; reflexivity).
  pose proof (split_then_join_round_trip "docs/a.bin" 1 (world0 demo_source)
                (bytes "hello world") eq_refl ltac:(vm_compute; discriminate)
                demo_source_ready Hplain
                (λ name Hend _, demo_source_fresh name Hend) Hr) as Hrt.
  cbv zeta in Hrt. rewrite Hout in Hrt.
  destruct Hrt as (k & w1 & w2 & Hrun1 & Hk & Hrun2 & Hnew & Hsrc).
  assert (k = 1%nat) as -> by (change (Z.of_nat k = 1) in Hk; lia).
  exists w1, w2. split_and!; [exact Hrun1|exact Hrun2|exact Hnew|exact Hsrc].
Defined.

(** A file [other.txt] next to the source is as it was after the split. *)
Lemma split_changes_only_chunk_folder_witness :
  nodes (split_file "docs/a.bin" 1
           (world0 (<["other.txt" := File (bytes "keep")]> demo_source))).2
    !! "other.txt" = Some (File (bytes "keep")).
Proof.
  rewrite (split_changes_only_chunk_folder "docs/a.bin" 1).
  - vm_compute. reflexivity.
  - vm_compute. discriminate.
  - vm_compute. discriminate.
  - intros j E%(f_equal Path.has_sep). unfold chunk_path in E.
    rewrite has_sep_join in E; [discriminate|done|reflexivity|].
    apply chunk_name_no_sep. reflexivity.
Defined.

(** A split in an empty file system. *)
Lemma split_missing_source_witness :
  split_file "nope.bin" 50 (world0 ∅) = (Ok SplitNotFound, world0 ∅).
Proof. apply split_missing_source. vm_compute. reflexivity. Defined.

(** A split of [a] where [a_chunks] is a regular file. *)
Lemma split_folder_name_taken_witness :
  split_file "a" 50 (world0 demo_folder_name_taken) =
    (Raise FileExistsError, world0 demo_folder_name_taken).
Proof.
  apply (split_folder_name_taken "a" 50 (world0 demo_folder_name_taken)
           (bytes "x")).
  - exists (File (bytes "hello")). vm_compute. reflexivity.
  - vm_compute. reflexivity.
Defined.

(** A split of the directory [docs]. *)
Lemma split_of_directory_witness :
  split_file "docs" 50 (world0 demo_directory) =
    (Raise IsADirectoryError,
     World (<["docs_chunks" := Dir]> demo_directory) [("docs", Rb)]).
Proof.
  apply (split_of_directory "docs" 50 (world0 demo_directory)).
  - vm_compute. reflexivity.
  - intros d. vm_compute. discriminate.
Defined.

(** A split with a chunk size of [-1] megabyte. *)
Lemma split_negative_chunk_size_witness :
  split_file "docs/a.bin" (-1) (world0 demo_source) =
    (Raise ValueError,
     World (<["a.bin_chunks" := Dir]> demo_source)
           [("docs/a.bin", Rb); ("docs/a.bin", Rb)]).
Proof.
  apply (split_negative_chunk_size "docs/a.bin" (-1) (world0 demo_source)
           (bytes "hello world") eq_refl ltac:(vm_compute; discriminate)
           demo_source_ready).
Defined.

(** [docs/a.bin] split twice. *)
Lemma split_twice_witness :
  ∃ outcome w1 w2,
    split_file "docs/a.bin" 1 (world0 demo_source) = (Ok outcome, w1) ∧
    split_file "docs/a.bin" 1 w1 = (Ok outcome, w2) ∧
    nodes w2 = nodes w1.
Proof.
  apply (split_twice "docs/a.bin" 1 (world0 demo_source)
           (bytes "hello world"));
    [lia|vm_compute; discriminate|exact demo_source_ready].
Defined.

(** The metadata of the split of [docs/a.bin], read back. *)
Lemma split_metadata_decodes_witness :
  ∃ k w1 meta,
    split_file "docs/a.bin" 1 (world0 demo_source) =
      (Ok (SplitComplete k "a.bin_chunks" (hexdigest (bytes "hello world"))),
       w1) ∧
    nodes w1 !! "a.bin_chunks/a.bin.meta" = Some (File meta) ∧
    decode_metadata (String.string_of_list_byte meta) =
      Ok ("a.bin", Z.of_nat k, 11, hexdigest (bytes "hello world")).
Proof.
  assert (plain_name (Path.basename "docs/a.bin") = true) as Hplain
    by (vm_compute; reflexivity).
  exact (split_metadata_decodes "docs/a.bin" 1 (world0 demo_source)
           (bytes "hello world") ltac:(lia) ltac:(vm_compute; discriminate)
           demo_source_ready Hplain).
Defined.

(** The digest of [docs/a.bin]. *)
Lemma get_file_hash_whole_content_witness :
  get_file_hash "docs/a.bin" (world0 demo_source) =
    (Ok (hexlify (sha256 (bytes "hello world"))),
     World demo_source [("docs/a.bin", Rb)]).
Proof.
  apply (get_file_hash_whole_content "docs/a.bin" (world0 demo_source)).
  vm_compute. reflexivity.
Defined.

(** Decoding the bytes of a text is decoding the text. *)
Lemma demo_decode (text : string) fields :
  decode_metadata text = Ok fields →
  decode_metadata (String.string_of_list_byte (bytes text)) = Ok fields.
Proof.
  intros Hd. unfold bytes. by rewrite String.string_of_list_byte_of_string.
Qed.

(** A free name without separator and without NUL can be written. *)
Lemma demo_writable (m : gmap string node) p :
  m !! p = None → p ≠ "" → Path.has_sep p = false → no_nul p = true →
  writable m p.
Proof.
  intros Hp Hne Hs Hn. unfold writable, creatable.
  split_and!; [done|done|by apply file_name_no_sep|
    by rewrite Hp|by apply parent_exists_no_sep].
Qed.

(** Metadata that records the digest [0000] for a chunk whose digest is
    [6869]. *)
Lemma join_hash_mismatch_witness :
  ∃ w',
    join_files "d" (world0 (demo_chunk_set demo_meta_wrong_hash)) =
      (Ok (JoinHashMismatch "x" "0000" "6869"), w') ∧
    nodes w' !! "x" = Some (File (bytes "hi")) ∧
    opens w' =
      [("d/x.meta", Rt); ("x", Wb); ("d/x.part000", Rb); ("x", Rb)].
Proof.
  pose (w := world0 (demo_chunk_set demo_meta_wrong_hash)).
  assert (decode_metadata (String.string_of_list_byte
                             (bytes demo_meta_wrong_hash)) =
          Ok ("x", 1, 2, "0000")) as Hdec
    by (apply demo_decode; vm_compute; reflexivity).
  assert (chunks_at (nodes w) "d" "x" [bytes "hi"]) as Hchunks
    by (apply demo_chunks_at; vm_compute; reflexivity).
  assert (output_name_for (nodes w) "x" = "x") as Hname
    by (vm_compute; reflexivity).
  assert (writable (nodes w) (output_name_for (nodes w) "x")) as Hw.
  { rewrite Hname.
    apply demo_writable;
      [vm_compute; reflexivity|discriminate|reflexivity|reflexivity]. }
  assert (hexdigest (concat [bytes "hi"]) = "6869") as Hhex
    by (vm_compute; reflexivity).
  assert (hexdigest (concat [bytes "hi"]) ≠ "0000") as Hne
    by (rewrite Hhex; discriminate).
  pose proof (join_hash_mismatch "d" w "d/x.meta"
                (bytes demo_meta_wrong_hash) "x" 1 2 "0000" [bytes "hi"]
                (demo_metadata_at _) Hdec eq_refl Hchunks Hw eq_refl Hne)
    as Hj.
  cbv zeta in Hj. rewrite Hname, Hhex in Hj. exact Hj.
Defined.

(** The canonical metadata: the join is verified. *)
Lemma join_verified_iff_witness :
  ∃ outcome w',
    join_files "d" (world0 (demo_chunk_set demo_meta)) = (Ok outcome, w') ∧
    nodes w' !! "x" = Some (File (bytes "hi")) ∧
    outcome = JoinVerified "x".
Proof.
  pose (w := world0 (demo_chunk_set demo_meta)).
  assert (decode_metadata (String.string_of_list_byte (bytes demo_meta)) =
          Ok ("x", 1, 2, "6869")) as Hdec
    by (apply demo_decode; vm_compute; reflexivity).
  assert (chunks_at (nodes w) "d" "x" [bytes "hi"]) as Hchunks
    by (apply demo_chunks_at; vm_compute; reflexivity).
  assert (output_name_for (nodes w) "x" = "x") as Hname
    by (vm_compute; reflexivity).
  assert (writable (nodes w) (output_name_for (nodes w) "x")) as Hw.
  { rewrite Hname.
    apply demo_writable;
      [vm_compute; reflexivity|discriminate|reflexivity|reflexivity]. }
  pose proof (join_verified_iff "d" w "d/x.meta" (bytes demo_meta) "x" 1 2
                "6869" [bytes "hi"] (demo_metadata_at _) Hdec eq_refl
                Hchunks Hw) as Hj.
  cbv zeta in Hj. rewrite Hname in Hj.
  destruct Hj as (outcome & w' & Hrun & Hout & Hiff).
  exists outcome, w'. split_and!; [exact Hrun|exact Hout|].
  apply Hiff. split; vm_compute; reflexivity.
Defined.

(** The metadata file is as it was after the join. *)
Lemma join_changes_only_output_witness :
  nodes (join_files "d" (world0 (demo_chunk_set demo_meta))).2 !! "d/x.meta" =
  Some (File (bytes demo_meta)).
Proof.
  assert (decode_metadata (String.string_of_list_byte (bytes demo_meta)) =
          Ok ("x", 1, 2, "6869")) as Hdec
    by (apply demo_decode; vm_compute; reflexivity).
  rewrite (join_changes_only_output "d" (world0 (demo_chunk_set demo_meta))
             "d/x.meta" (bytes demo_meta) "x" 1 2 "6869" "d/x.meta"
             (demo_metadata_at _) Hdec).
  - reflexivity.
  - vm_compute. discriminate.
Defined.

(** The chunk is as it was after a join that ends on a size mismatch. *)
Lemma join_keeps_chunks_witness :
  nodes (join_files "d" (world0 (demo_chunk_set demo_meta_wrong_size))).2
    !! "d/x.part000" = Some (File (bytes "hi")).
Proof.
  assert (decode_metadata (String.string_of_list_byte
                             (bytes demo_meta_wrong_size)) =
          Ok ("x", 1, 5, "6869")) as Hdec
    by (apply demo_decode; vm_compute; reflexivity).
  pose proof (join_keeps_chunks "d"
                (world0 (demo_chunk_set demo_meta_wrong_size)) "d/x.meta"
                (bytes demo_meta_wrong_size) "x" 1 5 "6869" 0
                (demo_metadata_at _) Hdec) as Hk.
  assert (chunk_path "d" "x" 0 = "d/x.part000") as E
    by (vm_compute; reflexivity).
  rewrite E in Hk. rewrite Hk. reflexivity.
Defined.

(** A join in an empty file system. *)
Lemma join_folder_missing_witness :
  join_files "d" (world0 ∅) = (Ok JoinFolderNotFound, world0 ∅).
Proof. apply join_folder_missing. vm_compute. discriminate. Defined.

(** A join of a folder that holds a chunk and no metadata. *)
Lemma join_without_metadata_witness :
  join_files "d" (world0 demo_chunks_only) =
    (Ok JoinNoMetadata, world0 demo_chunks_only).
Proof.
  apply join_without_metadata; [vm_compute; reflexivity|].
  intros name _ Hend%(endswith_join "d").
  cbn [nodes world0]. unfold demo_chunks_only.
  rewrite !lookup_insert_ne; [apply lookup_empty|..];
    intros E; rewrite <- E in Hend; vm_compute in Hend; discriminate.
Defined.

(** Metadata with [num_chunks=-1], [original_size=0] and the digest of the
    empty content: an empty [x] is written and verified. *)
Lemma join_nonpositive_num_chunks_witness :
  ∃ w',
    join_files "d" (world0 (demo_chunk_set demo_meta_negative)) =
      (Ok (JoinVerified "x"), w') ∧
    nodes w' !! "x" = Some (File []).
Proof.
  pose (w := world0 (demo_chunk_set demo_meta_negative)).
  assert (decode_metadata (String.string_of_list_byte
                             (bytes demo_meta_negative)) =
          Ok ("x", -1, 0, "")) as Hdec
    by (apply demo_decode; vm_compute; reflexivity).
  assert (output_name_for (nodes w) "x" = "x") as Hname
    by (vm_compute; reflexivity).
  assert (writable (nodes w) (output_name_for (nodes w) "x")) as Hw.
  { rewrite Hname.
    apply demo_writable;
      [vm_compute; reflexivity|discriminate|reflexivity|reflexivity]. }
  assert (verdict "x" [] 0 "" = JoinVerified "x") as Hv
    by (vm_compute; reflexivity).
  pose proof (join_nonpositive_num_chunks "d" w "d/x.meta"
                (bytes demo_meta_negative) "x" (-1) 0 ""
                (demo_metadata_at _) Hdec ltac:(lia) Hw) as Hj.
  cbv zeta in Hj. rewrite Hname, Hv in Hj.
  destruct Hj as (w' & Hrun & Hout & _).
  exists w'. split; [exact Hrun|exact Hout].
Defined.

(** [chunker.py SPLIT docs/a.bin] and then [chunker.py Join a.bin_chunks]. *)
Lemma main_round_trip_witness :
  ∃ k digest w1 w2,
    main ["chunker.py"; "SPLIT"; "docs/a.bin"] (world0 demo_source) =
      (Ok (MainSplit (SplitComplete k "a.bin_chunks" digest)), w1) ∧
    main ["chunker.py"; "Join"; "a.bin_chunks"] w1 =
      (Ok (MainJoin (JoinVerified "a.bin")), w2) ∧
    nodes w2 !! "a.bin" = Some (File (bytes "hello world")).
Proof.
  assert (plain_name (Path.basename "docs/a.bin") = true) as Hplain
    by (vm_compute; reflexivity).
  assert (nodes (world0 demo_source) !!
            ("rebuilt_" +:+ Path.basename "docs/a.bin") ≠ Some Dir) as Hr
    by (vm_compute; discriminate).
  assert (output_name_for (nodes (world0 demo_source))
            (Path.basename "docs/a.bin") = "a.bin") as Hout
    by (vm_compute; reflexivity).
  assert (Path.basename "docs/a.bin" +:+ "_chunks" = "a.bin_chunks") as Hf
    by (vm_compute; reflexivity).
  pose proof (main_round_trip "chunker.py" "chunker.py" "SPLIT" "Join"
                "docs/a.bin" (world0 demo_source) (bytes "hello world")
                eq_refl eq_refl demo_source_ready Hplain
                (λ name Hend _, demo_source_fresh name Hend) Hr) as Hrt.
  cbv zeta in Hrt. rewrite Hout, Hf in Hrt.
  destruct Hrt as (k & digest & w1 & w2 & Hrun1 & _ & Hrun2 & Hnew).
  exists k, digest, w1, w2. split_and!; [exact Hrun1|exact Hrun2|exact Hnew].
Defined.

(** [chunker.py split docs/a.bin ten] *)
Lemma main_bad_size_witness :
  main ["chunker.py"; "split"; "docs/a.bin"; "ten"] (world0 demo_source) =
    (Raise ValueError, world0 demo_source).
Proof. apply main_bad_size; vm_compute; reflexivity. Defined.

(** [chunker.py merge a.bin_chunks] *)
Lemma main_usage_or_unknown_witness :
  ∃ outcome,
    main ["chunker.py"; "merge"; "a.bin_chunks"] (world0 demo_source) =
      (Ok outcome, world0 demo_source) ∧
    exit_status outcome = 1.
Proof.
  apply main_usage_or_unknown. right. exists "merge".
  split_and!; [reflexivity|reflexivity|discriminate|discriminate].
Defined.

(** Two chunks announced, the second a directory: the output holds the
    first. *)
Lemma join_chunk_is_directory_witness :
  ∃ w',
    join_files "d" (world0 demo_chunk_is_directory) =
      (Raise IsADirectoryError, w') ∧
    nodes w' !! "x" = Some (File (bytes "hi")).
Proof.
  pose (w := world0 demo_chunk_is_directory).
  assert (metadata_at (nodes w) "d" "d/x.meta" (bytes demo_meta_two_chunks))
    as Hmeta.
  { split_and!; [reflexivity| |reflexivity].
    exists "x.meta". split; reflexivity. }
  assert (decode_metadata (String.string_of_list_byte
                             (bytes demo_meta_two_chunks)) =
          Ok ("x", 2, 4, "6869")) as Hdec
    by (apply demo_decode; vm_compute; reflexivity).
  assert (∀ j, Z.of_nat j < 2 →
               is_Some (nodes w !! chunk_path "d" "x" j)) as Hall.
  { intros [|[|j]] Hj; [vm_compute; by eexists..|lia]. }
  assert (chunks_at (nodes w) "d" "x" [bytes "hi"]) as Hchunks
    by (apply demo_chunks_at; vm_compute; reflexivity).
  assert (nodes w !! chunk_path "d" "x" (length [bytes "hi"]) = Some Dir)
    as Hdir by (vm_compute; reflexivity).
  assert (output_name_for (nodes w) "x" = "x") as Hname
    by (vm_compute; reflexivity).
  assert (writable (nodes w) (output_name_for (nodes w) "x")) as Hw.
  { rewrite Hname.
    apply demo_writable;
      [vm_compute; reflexivity|discriminate|reflexivity|reflexivity]. }
  pose proof (join_chunk_is_directory "d" w "d/x.meta"
                (bytes demo_meta_two_chunks) "x" 2 4 "6869" [bytes "hi"]
                Hmeta Hdec Hall Hchunks eq_refl Hdir Hw) as Hj.
  cbv zeta in Hj. rewrite Hname in Hj. exact Hj.
Defined.
End MoreExamples.
